(** * ytarchive: the dual-track fragment download engine (Info.go)

    A shallow embedding of the shared download state, the fragment worker
    ([downloadFragment], [DownloadFrags]) and the per-track coordinator
    ([DownloadStream]) of [src/Info.go], followed by the properties the
    specification states about them.

    Conventions.
    - Go's [int] is a 64-bit two's complement integer: it is a [Z] kept in
      range by [wrap64] at every arithmetic operation of the source.
    - A [[]byte] is a [list byte]; a Go [string] is a [string].
    - A Go map is a [gmap]; reading a missing key of [MDLInfo] yields a nil
      pointer whose dereference panics, which is [None] in the option monad.
    - Channels are modelled by what was sent on them, oldest first.
    - Functions of the program that live outside [Info.go] and the pieces of
      Go's standard library whose result depends on the network, the clock
      or the disk are members of the class [Collaborators]. *)

From Stdlib Require Import ZArith List String Ascii Strings.Byte Lia DecimalString.
From Stdlib Require DecimalPos.
From stdpp Require Import base option gmap strings list.

Open Scope Z_scope.

(* ===================================================================== *)
(** * Part I: definitions                                                 *)
(* ===================================================================== *)

(** ** Machine integers *)

Definition wrap64 (z : Z) : Z := (z + 2 ^ 63) mod 2 ^ 64 - 2 ^ 63.
Definition int_add (a b : Z) : Z := wrap64 (a + b).
Definition int_sub (a b : Z) : Z := wrap64 (a - b).
Definition int_mul (a b : Z) : Z := wrap64 (a * b).
Definition MaxInt : Z := 2 ^ 63 - 1.
Definition MinInt : Z := - 2 ^ 63.

(** ** Constants of the source *)

Definition FragMaxTries : Z := 10.
Definition DtypeAudio : string := "audio".
Definition DtypeVideo : string := "video".
Definition BufferSize : nat := Z.to_nat 8192.

(** [%d] on an [int]. *)
Definition itoa (z : Z) : string := NilZero.string_of_int (Z.to_int z).

(** ** Data model *)

(** [ProgressInfo]. *)
Record ProgressInfo := mkProgressInfo {
  DataType_p : string;
  ByteCount : Z;
  MaxSeq_p : Z
}.

(** [Fragment]. [Data] is a [*bytes.Buffer]: [None] is the nil pointer, and
    [Some l] a buffer whose unread part is [l]. *)
Record Fragment := mkFragment {
  Seq : Z;
  FileName : string;
  XHeadSeqNum : Z;
  Data : option (list byte)
}.

Record seqChanInfo := mkSeqChanInfo {
  CurSequence : Z;
  MaxSequence : Z
}.

(** [fragThreadState]; [SleepTime] is a [time.Duration], nanoseconds. *)
Record fragThreadState := mkFragThreadState {
  Name : string;
  Url : string;
  BaseFilePath : string;
  DataType : string;
  SeqNum : Z;
  MaxSeq : Z;
  Tries : Z;
  FullRetries : Z;
  Is403 : bool;
  ToFile : bool;
  SleepTime : Z
}.

Record MediaDLInfo := mkMediaDLInfo {
  ActiveJobs : Z;
  DownloadURL : string;
  BasePath : string;
  DataType_m : string;
  Finished : bool;
  URLHost : string
}.

(** The fields of [DownloadInfo] that the download engine reads or writes. *)
Record DownloadInfo := mkDownloadInfo {
  Stopping : bool;
  Live : bool;
  Unavailable : bool;
  FragFiles : bool;
  Jobs : Z;
  TargetDuration : Z;
  MDLInfo : gmap string MediaDLInfo
}.

(** Field updates. *)
Definition set_ActiveJobs (v : Z) (m : MediaDLInfo) : MediaDLInfo :=
  mkMediaDLInfo v (DownloadURL m) (BasePath m) (DataType_m m) (Finished m) (URLHost m).
Definition set_DownloadURL (v : string) (m : MediaDLInfo) : MediaDLInfo :=
  mkMediaDLInfo (ActiveJobs m) v (BasePath m) (DataType_m m) (Finished m) (URLHost m).
Definition set_BasePath (v : string) (m : MediaDLInfo) : MediaDLInfo :=
  mkMediaDLInfo (ActiveJobs m) (DownloadURL m) v (DataType_m m) (Finished m) (URLHost m).
Definition set_Finished (v : bool) (m : MediaDLInfo) : MediaDLInfo :=
  mkMediaDLInfo (ActiveJobs m) (DownloadURL m) (BasePath m) (DataType_m m) v (URLHost m).
Definition set_URLHost (v : string) (m : MediaDLInfo) : MediaDLInfo :=
  mkMediaDLInfo (ActiveJobs m) (DownloadURL m) (BasePath m) (DataType_m m) (Finished m) v.

Definition set_Stopping (v : bool) (di : DownloadInfo) : DownloadInfo :=
  mkDownloadInfo v (Live di) (Unavailable di) (FragFiles di) (Jobs di)
                 (TargetDuration di) (MDLInfo di).
Definition set_MDLInfo (v : gmap string MediaDLInfo) (di : DownloadInfo) : DownloadInfo :=
  mkDownloadInfo (Stopping di) (Live di) (Unavailable di) (FragFiles di) (Jobs di)
                 (TargetDuration di) v.

Definition set_Tries (v : Z) (s : fragThreadState) : fragThreadState :=
  mkFragThreadState (Name s) (Url s) (BaseFilePath s) (DataType s) (SeqNum s) (MaxSeq s)
                    v (FullRetries s) (Is403 s) (ToFile s) (SleepTime s).
Definition set_FullRetries (v : Z) (s : fragThreadState) : fragThreadState :=
  mkFragThreadState (Name s) (Url s) (BaseFilePath s) (DataType s) (SeqNum s) (MaxSeq s)
                    (Tries s) v (Is403 s) (ToFile s) (SleepTime s).
Definition set_Is403 (v : bool) (s : fragThreadState) : fragThreadState :=
  mkFragThreadState (Name s) (Url s) (BaseFilePath s) (DataType s) (SeqNum s) (MaxSeq s)
                    (Tries s) (FullRetries s) v (ToFile s) (SleepTime s).
Definition set_SeqNum (v : Z) (s : fragThreadState) : fragThreadState :=
  mkFragThreadState (Name s) (Url s) (BaseFilePath s) (DataType s) v (MaxSeq s)
                    (Tries s) (FullRetries s) (Is403 s) (ToFile s) (SleepTime s).
Definition set_MaxSeq (v : Z) (s : fragThreadState) : fragThreadState :=
  mkFragThreadState (Name s) (Url s) (BaseFilePath s) (DataType s) (SeqNum s) v
                    (Tries s) (FullRetries s) (Is403 s) (ToFile s) (SleepTime s).
Definition set_Url (v : string) (s : fragThreadState) : fragThreadState :=
  mkFragThreadState (Name s) v (BaseFilePath s) (DataType s) (SeqNum s) (MaxSeq s)
                    (Tries s) (FullRetries s) (Is403 s) (ToFile s) (SleepTime s).

(** [NewFragThreadState]. *)
Definition NewFragThreadState (name baseFPath dataType url : string) (toFile : bool)
    (sleepTime : Z) : fragThreadState :=
  mkFragThreadState name url baseFPath dataType 0 0 0 0 false toFile sleepTime.

(** The download part of [NewDownloadInfo]: both tracks present and zeroed. *)
Definition zeroMediaDLInfo : MediaDLInfo :=
  mkMediaDLInfo 0 EmptyString EmptyString EmptyString false EmptyString.

Definition NewDownloadInfo : DownloadInfo :=
  mkDownloadInfo false false false true 1 5
    (<[DtypeVideo := zeroMediaDLInfo]> (<[DtypeAudio := zeroMediaDLInfo]> ∅)).

(** ** Collaborators

    What [Info.go] calls but does not define. The hooks receive the worker
    state by pointer and may change it, so they return the new state. Their
    effect on [*DownloadInfo] is left to the environment, which may change
    the shared record between any two steps of a worker or coordinator.

    - [url_Parse s] is the [Host] of [url.Parse(s)], or [None] on error;
    - [Sprintf_d f n] is [fmt.Sprintf(f, n)] for an [int] argument;
    - [GetVideoInfo] (defined in [Info.go]) talks to the network and the
      clock through functions outside the file; its result is a new shared
      record. *)
Class Collaborators := {
  RemoveSidx : list byte -> list byte;
  HandleFragDownloadError : DownloadInfo -> fragThreadState -> fragThreadState;
  HandleFragHttpError : DownloadInfo -> fragThreadState -> Z -> fragThreadState;
  ContinueFragmentDownload : DownloadInfo -> fragThreadState -> fragThreadState * bool;
  TryDelete : string -> gmap string (list byte) -> gmap string (list byte);
  GetVideoInfo : DownloadInfo -> DownloadInfo;
  url_Parse : string -> option string;
  Sprintf_d : string -> Z -> string
}.

(** ** Shared state accessors

    Every accessor runs between [Lock]/[RLock] and the deferred unlock of the
    mutex it names, so it is one atomic function of the shared record. *)

Definition IsStopping (di : DownloadInfo) : bool := Stopping di.
Definition IsLive (di : DownloadInfo) : bool := Live di.
Definition IsUnavailable (di : DownloadInfo) : bool := Unavailable di.

Definition GetActiveJobCount (di : DownloadInfo) (dataType : string) : option Z :=
  ActiveJobs <$> MDLInfo di !! dataType.

(** The common shape of the setters: lock the track, update one record. *)
Definition update_track (f : MediaDLInfo -> MediaDLInfo) (di : DownloadInfo)
    (dataType : string) : option DownloadInfo :=
  m ← MDLInfo di !! dataType;
  Some (set_MDLInfo (<[dataType := f m]> (MDLInfo di)) di).

Definition IncrementJobs (di : DownloadInfo) (dataType : string) : option DownloadInfo :=
  update_track (fun m => set_ActiveJobs (int_add (ActiveJobs m) 1) m) di dataType.

Definition DecrementJobs (di : DownloadInfo) (dataType : string) : option DownloadInfo :=
  update_track (fun m => set_ActiveJobs (int_sub (ActiveJobs m) 1) m) di dataType.

Definition GetDownloadUrl (di : DownloadInfo) (dataType : string) : option string :=
  DownloadURL <$> MDLInfo di !! dataType.

Definition GetDownloadUrlHost (di : DownloadInfo) (dataType : string) : option string :=
  URLHost <$> MDLInfo di !! dataType.

Definition GetBaseFilePath (di : DownloadInfo) (dataType : string) : option string :=
  BasePath <$> MDLInfo di !! dataType.

Definition SetBaseFilePath (di : DownloadInfo) (dataType fpath : string)
    : option DownloadInfo :=
  update_track (set_BasePath fpath) di dataType.

Definition SetFinished (di : DownloadInfo) (dataType : string) : option DownloadInfo :=
  update_track (set_Finished true) di dataType.

Definition IsFinished (di : DownloadInfo) (dataType : string) : option bool :=
  Finished <$> MDLInfo di !! dataType.

(** [Stop]: the flag, then both tracks. *)
Definition Stop (di : DownloadInfo) : option DownloadInfo :=
  di1 ← SetFinished (set_Stopping true di) DtypeAudio;
  SetFinished di1 DtypeVideo.

Section Shared.
Context `{Collaborators}.

(** [SetDownloadUrl]: the host is replaced only when the URL parses; the
    template always is. *)
Definition SetDownloadUrl (di : DownloadInfo) (dataType dlURL : string)
    : option DownloadInfo :=
  update_track
    (fun m =>
       let m1 := match url_Parse dlURL with
                 | Some host => set_URLHost host m
                 | None => m
                 end in
       set_DownloadURL dlURL m1)
    di dataType.

End Shared.

(** ** Go library functions the worker calls *)

(** [strconv.Atoi] on a 64-bit platform. A string that is not an optional
    sign followed by one or more decimal digits is a syntax error, and the
    value returned with it is 0; a well-formed number outside the range of
    [int] is a range error, returned with the nearest bound. *)
Inductive AtoiError := ErrSyntax | ErrRange.

Definition is_digit (c : ascii) : bool :=
  ((48 <=? N_of_ascii c) && (N_of_ascii c <=? 57))%N.

Fixpoint digits_value (s : string) (acc : Z) : option Z :=
  match s with
  | EmptyString => Some acc
  | String c r =>
      if is_digit c then digits_value r (acc * 10 + (Z.of_N (N_of_ascii c) - 48))
      else None
  end.

Definition Atoi (s : string) : Z * option AtoiError :=
  let '(neg, body) :=
    match s with
    | String "-" r => (true, r)
    | String "+" r => (false, r)
    | _ => (false, s)
    end in
  match body with
  | EmptyString => (0, Some ErrSyntax)
  | _ =>
      match digits_value body 0 with
      | None => (0, Some ErrSyntax)
      | Some n =>
          if neg then
            if 2 ^ 63 <? n then (MinInt, Some ErrRange) else (- n, None)
          else
            if 2 ^ 63 <=? n then (MaxInt, Some ErrRange) else (n, None)
      end
  end.

(** [http.Header] and its [Get]: the first value stored under the key, or the
    empty string. *)
Definition Header_Get (h : gmap string (list string)) (key : string) : string :=
  match h !! key with
  | Some (v :: _) => v
  | _ => EmptyString
  end.

Record Response := mkResponse {
  StatusCode : Z;
  Header : gmap string (list string);
  Body : list byte
}.

(** What the HTTP client and [io.ReadAll] give back for one request. *)
Inductive FetchOutcome :=
| TransportError
| BodyReadError
| Fetched (resp : Response).

(** What one pass through the retry loop of [downloadFragment] finds around
    it: the shared record at that moment, the answer to its request, and
    whether [os.WriteFile] of the spill file succeeds. *)
Record Attempt := mkAttempt {
  a_di : DownloadInfo;
  a_fetch : FetchOutcome;
  a_spill : bool
}.

(** What a worker does that others may observe, in order. [EvGet url host]
    is the request: [host] is the value of the [Host] header when one was
    added. [EvContinue n b] is a call of [ContinueFragmentDownload] with
    [Tries = n] that answered [b]. *)
Inductive Event :=
| EvGet (url : string) (host : option string)
| EvContinue (tries : Z) (answer : bool)
| EvSleep (d : Z)
| EvPublish (frag : Fragment).

Record FragResult := mkFragResult {
  r_state : fragThreadState;
  r_fs : gmap string (list byte);
  r_trace : list Event
}.

Section Worker.
Context `{Collaborators}.

(** The header part of [downloadFragment] (lines 764-769). *)
Definition headerSeqnum_of (resp : Response) : Z :=
  let headerSeqnumStr := Header_Get (Header resp) "X-Head-Seqnum" in
  if (0 <? String.length headerSeqnumStr)%nat then fst (Atoi headerSeqnumStr) else -1.

(** The block repeated after every failure: [state.Tries += 1], ask
    [ContinueFragmentDownload], and either give up or sleep. *)
Definition retry_decision (di : DownloadInfo) (state : fragThreadState)
    : fragThreadState * bool * list Event :=
  let state1 := set_Tries (int_add (Tries state) 1) state in
  let '(state2, cont) := ContinueFragmentDownload di state1 in
  (state2, cont,
   EvContinue (Tries state1) cont :: (if cont then [EvSleep (SleepTime state2)] else [])).

(** What follows every failure (lines 713-719 and their four repetitions):
    the retry decision, then either [return], leaving the spill files as
    [onGiveUp], or [time.Sleep(state.SleepTime); continue] with the next
    pass [next]. *)
Definition retry_or_return (di : DownloadInfo) (state : fragThreadState)
    (trace : list Event) (onGiveUp : gmap string (list byte))
    (next : fragThreadState -> list Event -> option FragResult) : option FragResult :=
  let '(state2, cont, evs) := retry_decision di state in
  if cont then next state2 (trace ++ evs)
  else Some (mkFragResult state2 onGiveUp (trace ++ evs)).

(** The loop of [downloadFragment], one [Attempt] per pass. [None] is a
    panic on a missing track, or a script too short for the loop. *)
Fixpoint downloadFragment_loop (script : list Attempt) (fname : string)
    (state : fragThreadState) (fs : gmap string (list byte)) (trace : list Event)
    : option FragResult :=
  if negb (Tries state <? FragMaxTries) then Some (mkFragResult state fs trace)
  else
    match script with
    | [] => None
    | a :: rest =>
        let di := a_di a in
        if IsStopping di then Some (mkFragResult state fs trace)
        else
          let seqUrl := Sprintf_d (Url state) (SeqNum state) in
          hostHdr ←
            match url_Parse seqUrl with
            | Some _ =>
                host ← GetDownloadUrlHost di (DataType state);
                Some (if (0 <? String.length host)%nat then Some host else None)
            | None => Some None
            end;
          let trace1 := trace ++ [EvGet seqUrl hostHdr] in
          let next := downloadFragment_loop rest fname in
          match a_fetch a with
          | TransportError =>
              retry_or_return di (HandleFragDownloadError di state) trace1 fs
                (fun state2 => next state2 fs)
          | BodyReadError =>
              retry_or_return di (HandleFragDownloadError di state) trace1 fs
                (fun state2 => next state2 fs)
          | Fetched resp =>
              if 400 <=? StatusCode resp then
                retry_or_return di (HandleFragHttpError di state (StatusCode resp)) trace1 fs
                  (fun state2 => next state2 fs)
              else if (length (Body resp) =? 0)%nat then
                retry_or_return di state trace1 fs (fun state2 => next state2 fs)
              else
                let headerSeqnum := headerSeqnum_of resp in
                if ToFile state then
                  if a_spill a then
                    let frag := mkFragment (SeqNum state) fname headerSeqnum None in
                    Some (mkFragResult state (<[fname := Body resp]> fs)
                                       (trace1 ++ [EvPublish frag]))
                  else
                    retry_or_return di state trace1 (TryDelete fname fs)
                      (fun state2 => next state2 fs)
                else
                  let frag := mkFragment (SeqNum state) fname headerSeqnum
                                         (Some (Body resp)) in
                  Some (mkFragResult state fs (trace1 ++ [EvPublish frag]))
          end
    end.

(** [downloadFragment] (lines 673-799). *)
Definition downloadFragment (script : list Attempt) (state : fragThreadState)
    (fs : gmap string (list byte)) : option FragResult :=
  let state := set_Is403 false (set_FullRetries 3 (set_Tries 0 state)) in
  let fname := BaseFilePath state +:+ ".frag" +:+ itoa (SeqNum state) +:+ ".ts" in
  downloadFragment_loop script fname state fs [].

(** The fragment a run of [downloadFragment] sent on the data channel. *)
Definition published (trace : list Event) : list Fragment :=
  omap (fun e => match e with EvPublish f => Some f | _ => None end) trace.

(** The requests of a run, its sleeps, and the retry decisions with the
    value of [Tries] each was asked at. *)
Definition requests (trace : list Event) : list string :=
  omap (fun e => match e with EvGet u _ => Some u | _ => None end) trace.
Definition sleeps (trace : list Event) : list Z :=
  omap (fun e => match e with EvSleep d => Some d | _ => None end) trace.
Definition continues (trace : list Event) : list (Z * bool) :=
  omap (fun e => match e with EvContinue n b => Some (n, b) | _ => None end) trace.



(** The hooks leave alone what paces the retry loop. *)
Definition keeps_pace (s s' : fragThreadState) : Prop :=
  Tries s' = Tries s /\ SleepTime s' = SleepTime s
  /\ DataType s' = DataType s /\ ToFile s' = ToFile s.

Definition hooks_keep_pace : Prop :=
  forall di s status,
    keeps_pace s (HandleFragDownloadError di s)
    /\ keeps_pace s (HandleFragHttpError di s status)
    /\ keeps_pace s (fst (ContinueFragmentDownload di s)).

(** The hooks leave alone what the request is made of. *)
Definition keeps_request (s s' : fragThreadState) : Prop :=
  Url s' = Url s /\ SeqNum s' = SeqNum s.

Definition hooks_keep_request : Prop :=
  forall di s status,
    keeps_request s (HandleFragDownloadError di s)
    /\ keeps_request s (HandleFragHttpError di s status)
    /\ keeps_request s (fst (ContinueFragmentDownload di s)).


(** [DownloadFrags], first part (lines 803-810): the worker's state is built
    once, from the shared record as the goroutine finds it. *)
Definition DownloadFrags_init (di : DownloadInfo) (dataType name : string)
    : option fragThreadState :=
  base ← GetBaseFilePath di dataType;
  url ← GetDownloadUrl di dataType;
  Some (NewFragThreadState name base dataType url (FragFiles di)
          (int_mul (TargetDuration di) 1000000000)).

(** [DownloadFrags], the body of [for seqInfo := range seqChan] (lines
    813-826) for one request. The boolean is [false] on [break]. *)
Definition DownloadFrags_body (di : DownloadInfo) (script : list Attempt)
    (dataType : string) (state : fragThreadState) (fs : gmap string (list byte))
    (seqInfo : seqChanInfo) : option (bool * DownloadInfo * FragResult) :=
  leave ← (if IsStopping di then Some true else IsFinished di dataType);
  if (leave : bool) then Some (false, di, mkFragResult state fs [])
  else if (-1 <? MaxSequence seqInfo) && negb (IsLive di)
          && (MaxSequence seqInfo <=? CurSequence seqInfo) then
    di1 ← SetFinished di dataType;
    Some (false, di1, mkFragResult state fs [])
  else
    let state1 := set_MaxSeq (MaxSequence seqInfo) (set_SeqNum (CurSequence seqInfo) state) in
    r ← downloadFragment script state1 fs;
    Some (true, di, r).

(** [DownloadFrags], the deferred call that runs when the loop is left. *)
Definition DownloadFrags_exit (di : DownloadInfo) (dataType : string)
    : option DownloadInfo :=
  DecrementJobs di dataType.

End Worker.

(** ** The output file and the spill files

    The output file is a byte sequence and a position. Its [faults] decide
    the calls of [Write] to come, oldest first: [None] (or no entry) lets the
    call write everything, [Some n] makes it fail after [n] bytes. *)
Record File := mkFile {
  f_bytes : list byte;
  f_pos : Z;
  f_faults : list (option nat)
}.

(** Writing [b] at offset [pos]: a position past the end leaves a hole of
    zero bytes. *)
Definition write_at (pos : nat) (b content : list byte) : list byte :=
  take pos (content ++ repeat x00 (pos - length content))
  ++ b ++ drop (pos + length b) content.

(** [f.Write(b)]: the new file, the count, and whether [err != nil]. *)
Definition File_Write (f : File) (b : list byte) : File * Z * bool :=
  let '(n, err) :=
    match f_faults f with
    | Some k :: _ => (Nat.min k (length b), true)
    | _ => (length b, false)
    end in
  (mkFile (write_at (Z.to_nat (f_pos f)) (take n b) (f_bytes f))
          (f_pos f + Z.of_nat n) (tail (f_faults f)),
   Z.of_nat n, err).

(** [f.Seek(off, 1)], relative to the current position; a negative target
    is refused. The source ignores the result. *)
Definition File_Seek_cur (f : File) (off : Z) : File :=
  if f_pos f + off <? 0 then f
  else mkFile (f_bytes f) (f_pos f + off) (f_faults f).

(** [Read(buf)] of a [bytes.Buffer] whose unread part is [unread]:
    what stays unread, the new [buf], the count, and whether [err] is
    [io.EOF]. *)
Definition Buffer_Read (unread buf : list byte) : list byte * list byte * nat * bool :=
  match unread with
  | [] => ([], buf, 0%nat, negb (length buf =? 0)%nat)
  | _ =>
      let n := Nat.min (length buf) (length unread) in
      (drop n unread, take n unread ++ drop n buf, n, false)
  end.

(** [make([]byte, BufferSize)]. *)
Definition zero_buffer : list byte := repeat x00 BufferSize.

#[global] Opaque BufferSize zero_buffer.

(** ** The coordinator: [DownloadStream]

    The local variables of [DownloadStream], the output file it owns, and
    what it has sent and started so far. [naps] counts the 100 ms sleeps. *)
Record Coord := mkCoord {
  closed : bool;
  curFrag : Z;
  curSeq : Z;
  activeDownloads : Z;
  maxSeqs : Z;
  tries : Z;
  jobNum : Z;
  dataToWrite : list Fragment;
  deletingFrags : list string;
  f : File;
  seqChan : list seqChanInfo;
  progressChan : list ProgressInfo;
  spawned : list string;
  naps : nat
}.

Definition set_closed (v : bool) (c : Coord) : Coord :=
  mkCoord v (curFrag c) (curSeq c) (activeDownloads c) (maxSeqs c) (tries c) (jobNum c)
    (dataToWrite c) (deletingFrags c) (f c) (seqChan c) (progressChan c) (spawned c) (naps c).
Definition set_activeDownloads (v : Z) (c : Coord) : Coord :=
  mkCoord (closed c) (curFrag c) (curSeq c) v (maxSeqs c) (tries c) (jobNum c)
    (dataToWrite c) (deletingFrags c) (f c) (seqChan c) (progressChan c) (spawned c) (naps c).
Definition set_maxSeqs (v : Z) (c : Coord) : Coord :=
  mkCoord (closed c) (curFrag c) (curSeq c) (activeDownloads c) v (tries c) (jobNum c)
    (dataToWrite c) (deletingFrags c) (f c) (seqChan c) (progressChan c) (spawned c) (naps c).
Definition set_tries (v : Z) (c : Coord) : Coord :=
  mkCoord (closed c) (curFrag c) (curSeq c) (activeDownloads c) (maxSeqs c) v (jobNum c)
    (dataToWrite c) (deletingFrags c) (f c) (seqChan c) (progressChan c) (spawned c) (naps c).
Definition set_dataToWrite (v : list Fragment) (c : Coord) : Coord :=
  mkCoord (closed c) (curFrag c) (curSeq c) (activeDownloads c) (maxSeqs c) (tries c) (jobNum c)
    v (deletingFrags c) (f c) (seqChan c) (progressChan c) (spawned c) (naps c).
Definition set_f (v : File) (c : Coord) : Coord :=
  mkCoord (closed c) (curFrag c) (curSeq c) (activeDownloads c) (maxSeqs c) (tries c) (jobNum c)
    (dataToWrite c) (deletingFrags c) v (seqChan c) (progressChan c) (spawned c) (naps c).
Definition set_naps (v : nat) (c : Coord) : Coord :=
  mkCoord (closed c) (curFrag c) (curSeq c) (activeDownloads c) (maxSeqs c) (tries c) (jobNum c)
    (dataToWrite c) (deletingFrags c) (f c) (seqChan c) (progressChan c) (spawned c) v.

(** The locals as declared at the top of [DownloadStream] (lines 836-844),
    around a freshly created file. *)
Definition initCoord (file : File) : Coord :=
  mkCoord false 0 0 0 (-1) 10 1 [] [] file [] [] [] 0%nat.

(** The three statements of every enqueue:
    [seqChan <- &seqChanInfo{curSeq, maxSeqs}; curSeq += 1; activeDownloads += 1].
    A send on a closed channel panics. *)
Definition dispatch (c : Coord) : option Coord :=
  if closed c then None
  else Some (mkCoord (closed c) (curFrag c) (int_add (curSeq c) 1)
               (int_add (activeDownloads c) 1) (maxSeqs c) (tries c) (jobNum c)
               (dataToWrite c) (deletingFrags c) (f c)
               (seqChan c ++ [mkSeqChanInfo (curSeq c) (maxSeqs c)])
               (progressChan c) (spawned c) (naps c)).

(** [jobNum += 1; go di.DownloadFrags(dataType, seqChan, dataChan, jobName)]. *)
Definition spawn (jobName : string) (c : Coord) : Coord :=
  mkCoord (closed c) (curFrag c) (curSeq c) (activeDownloads c) (maxSeqs c) (tries c)
    (int_add (jobNum c) 1) (dataToWrite c) (deletingFrags c) (f c) (seqChan c)
    (progressChan c) (spawned c ++ [jobName]) (naps c).

(** The start-up loop (lines 856-864), with no worker leaving meanwhile.
    [fuel] bounds the passes; the caller gives [Jobs - ActiveJobs]. *)
Fixpoint bootstrap (fuel : nat) (dataType : string) (di : DownloadInfo) (c : Coord)
    : option (DownloadInfo * Coord) :=
  n ← GetActiveJobCount di dataType;
  if n <? Jobs di then
    match fuel with
    | O => None
    | S k =>
        let jobName := dataType +:+ itoa (jobNum c) in
        di1 ← IncrementJobs di dataType;
        c1 ← dispatch c;
        bootstrap k dataType di1 (spawn jobName c1)
    end
  else Some (di, c).

(** The inner loop of the drain (lines 895-899):
    [for curSeq <= maxSeqs+1 && activeDownloads < di.Jobs]. *)
Fixpoint dispatch_window (fuel : nat) (jobs : Z) (c : Coord) : option Coord :=
  if (curSeq c <=? int_add (maxSeqs c) 1) && (activeDownloads c <? jobs) then
    match fuel with
    | O => None
    | S k => c1 ← dispatch c; dispatch_window k jobs c1
    end
  else Some c.

(** One [case data := <-dataChan] of the drain (lines 881-904). *)
Definition receive (downloading stopping : bool) (jobs : Z) (c : Coord) (data : Fragment)
    : option Coord :=
  let c1 := set_activeDownloads (int_sub (activeDownloads c) 1)
              (set_dataToWrite (dataToWrite c ++ [data]) c) in
  if negb downloading || stopping then Some c1
  else
    let c2 := if maxSeqs c1 <? XHeadSeqNum data then set_maxSeqs (XHeadSeqNum data) c1
              else c1 in
    if 0 <? maxSeqs c2 then
      dispatch_window (Z.to_nat (jobs - activeDownloads c2)) jobs c2
    else dispatch c2.

(** The top of a pass (lines 871-876): [close(seqChan)], once, when stopping
    or no longer downloading. *)
Definition close_if_done (stopping downloading : bool) (c : Coord) : Coord :=
  if (stopping || negb downloading) && negb (closed c) then set_closed true c else c.

(** The drain [getData] over the fragments the data channel hands over
    during this pass of the main loop. *)
Fixpoint drain (downloading stopping : bool) (jobs : Z) (received : list Fragment)
    (c : Coord) : option Coord :=
  match received with
  | [] => Some c
  | data :: rest =>
      c1 ← receive downloading stopping jobs c data;
      drain downloading stopping jobs rest c1
  end.

(** The stall loop (lines 920-924):
    [for activeDownloads < di.GetActiveJobCount(dataType)]. *)
Fixpoint redispatch (fuel : nat) (activeJobs : Z) (c : Coord) : option Coord :=
  if activeDownloads c <? activeJobs then
    match fuel with
    | O => None
    | S k => c1 ← dispatch c; redispatch k activeJobs c1
    end
  else Some c.

Definition with_Data (d : option (list byte)) (data : Fragment) : Fragment :=
  mkFragment (Seq data) (FileName data) (XHeadSeqNum data) d.

(** What the main loop of [DownloadStream] finds at one pass: the shared
    record and the spill files at that moment, the fragments the data channel
    hands over, and whether the last refresh is more than an hour old. *)
Record Round := mkRound {
  rd_di : DownloadInfo;
  rd_fs : gmap string (list byte);
  rd_received : list Fragment;
  rd_hour : bool
}.

(** What [DownloadStream] leaves behind when it returns. [so_file] is the
    closed output file, if it was created; [so_done] counts the values sent on
    the [done] channel. *)
Record StreamOutcome := mkStreamOutcome {
  so_di : DownloadInfo;
  so_fs : gmap string (list byte);
  so_file : option File;
  so_seqChan : list seqChanInfo;
  so_progress : list ProgressInfo;
  so_spawned : list string;
  so_curFrag : Z;
  so_done : nat
}.

Section Coordinator.
Context `{Collaborators}.

(** The inner [for] of the write phase (lines 983-1006): the chunks after
    the first. Gives the file, what is left unread, [bytesWritten], and
    whether a write failed. [fuel] bounds the passes; each consumes at least
    one byte of the buffer. *)
Fixpoint write_rest (fuel : nat) (file : File) (unread buf : list byte)
    (bytesWritten : Z) : option (File * list byte * Z * bool) :=
  let '(unread1, buf1, count, eof) := Buffer_Read unread buf in
  if eof then Some (file, unread1, bytesWritten, false)
  else
    match fuel with
    | O => None
    | S k =>
        let '(file1, n, err) := File_Write file (take count buf1) in
        let bytesWritten1 := int_add bytesWritten n in
        if err then Some (File_Seek_cur file1 bytesWritten1, unread1, bytesWritten1, true)
        else write_rest k file1 unread1 buf1 bytesWritten1
    end.

(** The second half of a pass of the write loop at the fragment
    [data = dataToWrite[i]] (lines 959-1028), once its buffer holds
    [unread]: the first chunk goes through [RemoveSidx], the others are
    copied; then the book-keeping of a written fragment. Gives the next
    [i]. *)
Definition write_buffer (dataType : string) (fragFiles : bool) (i : nat) (data : Fragment)
    (unread : list byte) (fs : gmap string (list byte)) (c : Coord)
    : option (nat * gmap string (list byte) * Coord) :=
  let buf := zero_buffer in
  let '(unread1, buf1, _, _) := Buffer_Read unread buf in
  let '(file1, count, err) := File_Write (f c) (RemoveSidx buf1) in
  let bytesWritten := int_add 0 count in
  let failed (file : File) (left : list byte) :=
    set_tries (int_sub (tries c) 1)
      (set_f file
         (set_dataToWrite (<[i := with_Data (Some left) data]> (dataToWrite c)) c)) in
  if err then Some (i, fs, failed (File_Seek_cur file1 bytesWritten) unread1)
  else
    '(file2, unread2, bytesWritten2, err2) ←
      write_rest (S (length unread1)) file1 unread1 buf1 bytesWritten;
    if (err2 : bool) then Some (i, fs, failed file2 unread2)
    else
      let removeFailed :=
        match fs !! FileName data with Some _ => false | None => true end in
      let fs1 := if fragFiles then delete (FileName data) fs else fs in
      let deleting :=
        if fragFiles && removeFailed then deletingFrags c ++ [FileName data]
        else deletingFrags c in
      Some (0%nat, fs1,
            mkCoord (closed c) (int_add (curFrag c) 1) (curSeq c) (activeDownloads c)
              (maxSeqs c) 10 (jobNum c) (delete i (dataToWrite c)) deleting file2
              (seqChan c)
              (progressChan c ++ [mkProgressInfo dataType bytesWritten2 (maxSeqs c)])
              (spawned c) (naps c)).

(** What a successful pass of the write phase appends to the output file
    for a fragment whose buffer holds [payload]: the first read fills a
    buffer of [BufferSize] zero bytes, all of which goes through
    [RemoveSidx]; the rest of the payload follows as it is. *)
Definition fragment_image (payload : list byte) : list byte :=
  RemoveSidx (take BufferSize payload ++ repeat x00 (BufferSize - length payload))
  ++ drop BufferSize payload.

(** One pass of the write loop at the fragment [data = dataToWrite[i]] whose
    [Seq] is [curFrag] (lines 940-1028): with spill files the buffer is what
    [ioutil.ReadFile] returns, and a failure to read costs one of the
    [tries]; without, it is the fragment's own, and a nil buffer panics. *)
Definition write_found (dataType : string) (fragFiles : bool) (i : nat) (data : Fragment)
    (fs : gmap string (list byte)) (c : Coord)
    : option (nat * gmap string (list byte) * Coord) :=
  if fragFiles then
    match fs !! FileName data with
    | None => Some (i, fs, set_tries (int_sub (tries c) 1) c)
    | Some readBytes => write_buffer dataType fragFiles i data readBytes fs c
    end
  else
    unread ← Data data;
    write_buffer dataType fragFiles i data unread fs c.

(** The output file holds the images of [curFrag] payloads, and the one at
    place [k] is the payload of a fragment among [known] whose sequence
    number is [k]. *)
Definition holds_in_order (known : list Fragment) (c : Coord) : Prop :=
  exists payloads : list (list byte),
    curFrag c = Z.of_nat (length payloads)
    /\ f_bytes (f c) = concat (map fragment_image payloads)
    /\ (length payloads + length (dataToWrite c) <= length known)%nat
    /\ forall (k : nat) (p : list byte),
         payloads !! k = Some p ->
         exists frag, frag ∈ known /\ Seq frag = Z.of_nat k /\ Data frag = Some p.

(** The write phase is in step: the file has no fault in store, its
    position is its end, what is pending came from [known], and the file
    holds the fragments written in order. *)
Definition in_step (known : list Fragment) (c : Coord) : Prop :=
  f_faults (f c) = []
  /\ f_pos (f c) = Z.of_nat (length (f_bytes (f c)))
  /\ (forall frag, frag ∈ dataToWrite c -> frag ∈ known)
  /\ holds_in_order known c.

(** The write loop [for i < len(dataToWrite) && tries > 0] (lines 931-1033).
    The test at its end (lines 1030-1032) continues either way. *)
Fixpoint write_loop (fuel : nat) (dataType : string) (fragFiles : bool) (i : nat)
    (fs : gmap string (list byte)) (c : Coord)
    : option (gmap string (list byte) * Coord) :=
  if (i <? length (dataToWrite c))%nat && (0 <? tries c) then
    match fuel with
    | O => None
    | S k =>
        data ← dataToWrite c !! i;
        if negb (Seq data =? curFrag c) then write_loop k dataType fragFiles (S i) fs c
        else
          '(i1, fs1, c1) ← write_found dataType fragFiles i data fs c;
          write_loop k dataType fragFiles i1 fs1 c1
    end
  else Some (fs, c).

(** Enough passes for the write loop: between two successful writes it makes
    at most ten attempts and one walk over the pending fragments. *)
Definition write_fuel (c : Coord) : nat :=
  (11 * S (length (dataToWrite c)) * S (length (dataToWrite c)))%nat.

(** One pass of the main loop [for] (lines 866-1045) over the shared record
    [di] and the spill files [fs] as the pass finds them: the workers do not
    change them during the pass. The boolean is [true] when the pass leaves
    the loop. *)
Definition iteration (dataType : string) (received : list Fragment) (hourPassed : bool)
    (di : DownloadInfo) (fs : gmap string (list byte)) (c : Coord)
    : option (bool * DownloadInfo * gmap string (list byte) * Coord) :=
  fin ← IsFinished di dataType;
  downloading ← (if negb fin then Some true
                 else n ← GetActiveJobCount di dataType; Some (0 <? n));
  let stopping := IsStopping di in
  let c1 := close_if_done stopping downloading c in
  c2 ← drain downloading stopping (Jobs di) received c1;
  let dataReceived := negb (length received =? 0)%nat in
  if negb downloading then Some (true, di, fs, c2)
  else if (length (dataToWrite c2) =? 0)%nat || negb dataReceived then
    c3 ← (if negb stopping && (activeDownloads c2 <=? 0) then
            jobs ← GetActiveJobCount di dataType;
            redispatch (Z.to_nat (jobs - activeDownloads c2)) jobs c2
          else Some c2);
    Some (false, di, fs, set_naps (S (naps c3)) c3)
  else
    '(fs4, c4) ← write_loop (write_fuel c2) dataType (FragFiles di) 0 fs c2;
    let di5 := if negb stopping && negb (IsUnavailable di) && hourPassed
               then GetVideoInfo di else di in
    di6 ← (if tries c4 <=? 0 then Stop di5 else Some di5);
    Some (false, di6, fs4, c4).

(** The main loop over the rounds the environment provides. It ends with the
    round that leaves the loop; the boolean tells whether one did. *)
Fixpoint main_loop (rounds : list Round) (dataType : string) (di : DownloadInfo)
    (fs : gmap string (list byte)) (c : Coord)
    : option (bool * DownloadInfo * gmap string (list byte) * Coord) :=
  match rounds with
  | [] => Some (false, di, fs, c)
  | r :: rest =>
      '(exit, di1, fs1, c1) ←
        iteration dataType (rd_received r) (rd_hour r) (rd_di r) (rd_fs r) c;
      if (exit : bool) then Some (true, di1, fs1, c1)
      else main_loop rest dataType di1 fs1 c1
  end.

(** After the main loop (lines 1047-1056). *)
Definition cleanup (fragFiles : bool) (fs : gmap string (list byte)) (c : Coord)
    : gmap string (list byte) :=
  let fs1 := if fragFiles
             then fold_left (fun acc d => TryDelete (FileName d) acc) (dataToWrite c) fs
             else fs in
  fold_left (fun acc d => TryDelete d acc) (deletingFrags c) fs1.

(** [DownloadStream] (lines 833-1060). [created] is the result of
    [os.Create(dataFile)], [None] when it fails. [make(chan, di.Jobs)] panics
    on a negative size. The result is [None] on a panic, and when the rounds
    end before the main loop does. *)
Definition DownloadStream (dataType : string) (created : option File)
    (rounds : list Round) (di : DownloadInfo) (fs : gmap string (list byte))
    : option StreamOutcome :=
  if Jobs di <? 0 then None
  else
    match created with
    | None =>
        di1 ← Stop di;
        Some (mkStreamOutcome di1 fs None [] [] [] 0 1)
    | Some file =>
        n ← GetActiveJobCount di dataType;
        '(di1, c) ← bootstrap (Z.to_nat (Jobs di - n)) dataType di (initCoord file);
        '(exit, di2, fs2, c2) ← main_loop rounds dataType di1 fs c;
        if (exit : bool) then
          Some (mkStreamOutcome di2 (cleanup (FragFiles di2) fs2 c2) (Some (f c2))
                  (seqChan c2) (progressChan c2) (spawned c2) (curFrag c2) 1)
        else None
    end.

End Coordinator.

(** ** What the dispatch policy maintains

    The requests sent so far are numbered 0, 1, 2, ... in the order they were
    sent, [curSeq] is their count, and [activeDownloads] is that count minus
    the number of fragments received. *)
Definition numbered (c : Coord) : Prop :=
  map CurSequence (seqChan c) = map Z.of_nat (seq 0 (length (seqChan c)))
  /\ curSeq c = Z.of_nat (length (seqChan c)).

Definition accounted (received : nat) (c : Coord) : Prop :=
  numbered c
  /\ activeDownloads c = Z.of_nat (length (seqChan c)) - Z.of_nat received.

(** The requests [curSeq c], [curSeq c + 1], ... that [k] enqueues add to the
    channel while the highest known sequence is [m]. *)
Definition fresh_requests (c : Coord) (m : Z) (k : nat) : list seqChanInfo :=
  map (fun i => mkSeqChanInfo (curSeq c + Z.of_nat i) m) (seq 0 k).



(** The fragments a list of rounds hands over, in order. *)
Definition all_received (rounds : list Round) : list Fragment :=
  concat (map rd_received rounds).

(** ** Collaborators for the scenarios

    The scenarios run the model with the simplest collaborators: [RemoveSidx]
    finds no [sidx] box, the hooks observe (a 403 sets [Is403]) and
    [ContinueFragmentDownload] says yes until the tries are used up,
    [TryDelete] removes the file and [GetVideoInfo] changes nothing.

    [go_url_host] follows [url.Parse] of Go's [net/url] as far as the host:
    a control byte is an error, as are a colon before any scheme character
    and a colon in the first segment of a relative path; the host is what
    follows the user information in the authority. The checks of the host
    itself and of the escapes of the path are left out, so it is used on
    URLs whose host is made of letters, digits, dots and a port.

    [go_Sprintf_d] follows [fmt.Sprintf] for the verbs [%d] and [%%], with
    its notes for a missing or an unused argument. *)

Definition is_ctl (c : ascii) : bool :=
  ((N_of_ascii c <? 32) || (N_of_ascii c =? 127))%N.

Fixpoint has_ctl (s : string) : bool :=
  match s with
  | EmptyString => false
  | String c r => is_ctl c || has_ctl r
  end.

Definition is_alpha (c : ascii) : bool :=
  let n := N_of_ascii c in
  (((65 <=? n) && (n <=? 90)) || ((97 <=? n) && (n <=? 122)))%N.

Definition is_scheme_more (c : ascii) : bool :=
  is_digit c || Ascii.eqb c "+" || Ascii.eqb c "-" || Ascii.eqb c ".".

(** [getScheme] of [net/url]: [None] is the error, [Some (scheme, rest)]
    otherwise. *)
Fixpoint getScheme_from (i : nat) (s whole : string) (acc : string)
    : option (string * string) :=
  match s with
  | EmptyString => Some (EmptyString, whole)
  | String c r =>
      if is_alpha c then getScheme_from (S i) r whole (acc +:+ String c EmptyString)
      else if is_scheme_more c then
        match i with
        | O => Some (EmptyString, whole)
        | _ => getScheme_from (S i) r whole (acc +:+ String c EmptyString)
        end
      else if Ascii.eqb c ":" then
        match i with
        | O => None
        | _ => Some (acc, r)
        end
      else Some (EmptyString, whole)
  end.

Fixpoint cut_at (sep : ascii) (s : string) : string * string :=
  match s with
  | EmptyString => (EmptyString, EmptyString)
  | String c r =>
      if Ascii.eqb c sep then (EmptyString, r)
      else let '(a, b) := cut_at sep r in (String c a, b)
  end.

Fixpoint contains_char (ch : ascii) (s : string) : bool :=
  match s with
  | EmptyString => false
  | String c r => Ascii.eqb c ch || contains_char ch r
  end.

Fixpoint after_last_at (s : string) (cur : string) : string :=
  match s with
  | EmptyString => cur
  | String c r => if Ascii.eqb c "@" then after_last_at r r else after_last_at r cur
  end.

Definition go_url_host (rawURL : string) : option string :=
  if has_ctl rawURL then None
  else
    let u := fst (cut_at "#" rawURL) in
    match getScheme_from 0 u u EmptyString with
    | None => None
    | Some (scheme, rest0) =>
        let rest := fst (cut_at "?" rest0) in
        match rest with
        | String "/" (String "/" auth) =>
            let authority := fst (cut_at "/" auth) in
            match scheme, auth with
            | EmptyString, String "/" _ => Some EmptyString
            | _, _ => Some (after_last_at authority authority)
            end
        | String "/" _ => Some EmptyString
        | _ =>
            match scheme with
            | EmptyString =>
                if contains_char ":" (fst (cut_at "/" rest)) then None else Some EmptyString
            | _ => Some EmptyString
            end
        end
    end.

Fixpoint go_Sprintf_from (s : string) (n : Z) (used : bool) : string :=
  match s with
  | EmptyString =>
      if used then EmptyString else "%!(EXTRA int=" +:+ itoa n +:+ ")"
  | String "%" (String "d" r) =>
      (if used then "%!d(MISSING)" else itoa n) +:+ go_Sprintf_from r n true
  | String "%" (String "%" r) => String "%" (go_Sprintf_from r n used)
  | String c r => String c (go_Sprintf_from r n used)
  end.

Definition go_Sprintf_d (format : string) (n : Z) : string := go_Sprintf_from format n false.

#[export] Instance scenario_hooks : Collaborators := {|
  RemoveSidx := fun b => b;
  HandleFragDownloadError := fun _ s => s;
  HandleFragHttpError := fun _ s status => if status =? 403 then set_Is403 true s else s;
  ContinueFragmentDownload := fun _ s => (s, Tries s <? FragMaxTries);
  TryDelete := fun name fs => delete name fs;
  GetVideoInfo := fun di => di;
  url_Parse := go_url_host;
  Sprintf_d := go_Sprintf_d
|}.


(** ** The pipeline of one track

    The coordinator, its workers, the two channels between them and the
    server, as one state. [p_taken] counts the requests the workers have
    received from [seqChan (p_coord p)]; [p_dataChan] holds the fragments sent
    and not yet received. A step is a whole pass of the coordinator's main
    loop, or one worker handling one request; a step that would need a
    channel to hold more than its capacity [Jobs] is not taken. *)
Inductive WorkerPhase :=
| WSpawned (name : string)
| WRunning (state : fragThreadState)
| WExited.

Record Pipeline := mkPipeline {
  p_di : DownloadInfo;
  p_fs : gmap string (list byte);
  p_coord : Coord;
  p_taken : nat;
  p_dataChan : list Fragment;
  p_workers : list WorkerPhase;
  p_trace : list Event;
  p_exited : bool
}.

Inductive Action :=
| ACoordinator
| AWorker (w : nat).

Section PipelineSteps.
Context `{Collaborators}.

(** The answers of the server to the successive requests for one sequence. *)
Definition attempts_for (di : DownloadInfo) (server : Z -> nat -> FetchOutcome)
    (sq : Z) : list Attempt :=
  map (fun k => mkAttempt di (server sq k) true) (seq 0 (Z.to_nat FragMaxTries)).

(** [DownloadStream] up to the main loop, on a created file. *)
Definition pipeline_start (dataType : string) (file : File) (di : DownloadInfo)
    (fs : gmap string (list byte)) : option Pipeline :=
  if Jobs di <? 0 then None
  else
    n ← GetActiveJobCount di dataType;
    '(di1, c) ← bootstrap (Z.to_nat (Jobs di - n)) dataType di (initCoord file);
    Some (mkPipeline di1 fs c 0 [] (WSpawned <$> spawned c) [] false).

Definition coordinator_step (dataType : string) (p : Pipeline) : option Pipeline :=
  if p_exited p then None
  else
    '(exit, di1, fs1, c1) ←
      iteration dataType (p_dataChan p) false (p_di p) (p_fs p) (p_coord p);
    let fs2 := if (exit : bool) then cleanup (FragFiles di1) fs1 c1 else fs1 in
    if Z.of_nat (length (seqChan c1) - p_taken p) <=? Jobs (p_di p) then
      Some (mkPipeline di1 fs2 c1 (p_taken p) [] (p_workers p) (p_trace p) exit)
    else None.

Definition worker_step (dataType : string) (server : Z -> nat -> FetchOutcome)
    (w : nat) (p : Pipeline) : option Pipeline :=
  phase ← p_workers p !! w;
  match phase with
  | WExited => None
  | WSpawned name =>
      state ← DownloadFrags_init (p_di p) dataType name;
      Some (mkPipeline (p_di p) (p_fs p) (p_coord p) (p_taken p) (p_dataChan p)
              (<[w := WRunning state]> (p_workers p)) (p_trace p) (p_exited p))
  | WRunning state =>
      match seqChan (p_coord p) !! p_taken p with
      | None =>
          if closed (p_coord p) then
            di1 ← DownloadFrags_exit (p_di p) dataType;
            Some (mkPipeline di1 (p_fs p) (p_coord p) (p_taken p) (p_dataChan p)
                    (<[w := WExited]> (p_workers p)) (p_trace p) (p_exited p))
          else None
      | Some seqInfo =>
          '(continue, di1, r) ←
            DownloadFrags_body (p_di p)
              (attempts_for (p_di p) server (CurSequence seqInfo))
              dataType state (p_fs p) seqInfo;
          let dataChan := p_dataChan p ++ published (r_trace r) in
          if Jobs (p_di p) <? Z.of_nat (length dataChan) then None
          else if (continue : bool) then
            Some (mkPipeline di1 (r_fs r) (p_coord p) (S (p_taken p)) dataChan
                    (<[w := WRunning (r_state r)]> (p_workers p))
                    (p_trace p ++ r_trace r) (p_exited p))
          else
            di2 ← DownloadFrags_exit di1 dataType;
            Some (mkPipeline di2 (r_fs r) (p_coord p) (S (p_taken p)) dataChan
                    (<[w := WExited]> (p_workers p))
                    (p_trace p ++ r_trace r) (p_exited p))
      end
  end.

Definition step (dataType : string) (server : Z -> nat -> FetchOutcome) (a : Action)
    (p : Pipeline) : option Pipeline :=
  match a with
  | ACoordinator => coordinator_step dataType p
  | AWorker w => worker_step dataType server w p
  end.

Fixpoint run (dataType : string) (server : Z -> nat -> FetchOutcome)
    (schedule : list Action) (p : Pipeline) : option Pipeline :=
  match schedule with
  | [] => Some p
  | a :: rest => p1 ← step dataType server a p; run dataType server rest p1
  end.

End PipelineSteps.

(** ** Scenarios

    One audio track behind [https://r1.example.com], spill files next to
    [out.f140], a server whose fragments are the single bytes a, b, c, d, e
    and whose answers all carry [X-Head-Seqnum: 4]. *)

Definition template : string := "https://r1.example.com/videoplayback?id=1&sq=%d".
Definition template_refreshed : string := "https://r7.example.com/videoplayback?id=1&sq=%d".

Definition scenario_di (live : bool) (jobs : Z) : option DownloadInfo :=
  let di0 := mkDownloadInfo false live false true jobs 5 (MDLInfo NewDownloadInfo) in
  di1 ← SetDownloadUrl di0 DtypeAudio template;
  SetBaseFilePath di1 DtypeAudio "out.f140".

(** The shared record of the scenarios on a live stream with one worker. *)
Definition live_di : DownloadInfo := default NewDownloadInfo (scenario_di true 1).

(** The state of its worker. *)
Definition live_worker : fragThreadState :=
  default (NewFragThreadState EmptyString EmptyString EmptyString EmptyString false 0)
          (DownloadFrags_init live_di DtypeAudio "audio1").

Definition head_header (k : string) : gmap string (list string) :=
  {[ "X-Head-Seqnum"%string := [k] ]}.

Definition body_of (sq : Z) : list byte :=
  match sq with
  | 0 => ["a"%byte]
  | 1 => ["b"%byte]
  | 2 => ["c"%byte]
  | 3 => ["d"%byte]
  | 4 => ["e"%byte]
  | _ => []
  end.

Definition ok_response (sq : Z) : FetchOutcome :=
  Fetched (mkResponse 200 (head_header "4") (body_of sq)).

(** Sequences 0..4 are served, anything else is a 404. *)
Definition server_abcde (sq : Z) (k : nat) : FetchOutcome :=
  if (0 <=? sq) && (sq <=? 4) then ok_response sq
  else Fetched (mkResponse 404 ∅ []).


Definition new_file : File := mkFile [] 0 [].

(** One worker, stream over ([live = false]): the worker and the coordinator
    take turns until the coordinator leaves its loop. *)
Definition run_K4_one_job : option Pipeline :=
  di ← scenario_di false 1;
  p ← pipeline_start DtypeAudio new_file di ∅;
  run DtypeAudio server_abcde
    [AWorker 0; AWorker 0; ACoordinator; AWorker 0; ACoordinator; AWorker 0;
     ACoordinator; AWorker 0; ACoordinator; AWorker 0; ACoordinator] p.

(** Five workers: each starts, each fetches the sequence it was primed with,
    then the coordinator makes one pass. *)
Definition run_abcde_five_jobs : option Pipeline :=
  di ← scenario_di false 5;
  p ← pipeline_start DtypeAudio new_file di ∅;
  run DtypeAudio server_abcde
    [AWorker 0; AWorker 1; AWorker 2; AWorker 3; AWorker 4;
     AWorker 0; AWorker 1; AWorker 2; AWorker 3; AWorker 4; ACoordinator] p.


(** Three fragments through one worker on a live stream, into [file]. *)
Definition run_three_fragments (file : File) : option Pipeline :=
  di ← scenario_di true 1;
  p ← pipeline_start DtypeAudio file di ∅;
  run DtypeAudio server_abcde
    [AWorker 0; AWorker 0; ACoordinator; AWorker 0; ACoordinator; AWorker 0;
     ACoordinator] p.

(** An output file whose first two writes succeed and whose next nine fail
    after five bytes each. *)
Definition faulty_file : File := mkFile [] 0 ([None; None] ++ repeat (Some 5%nat) 9).

(** The same with a tenth failure. *)
Definition failing_file : File := mkFile [] 0 ([None; None] ++ repeat (Some 5%nat) 10).

(** A worker whose first request for sequence 3 is refused, and whose track
    is given a new URL before the second. *)
Definition run_refresh_between_attempts : option FragResult :=
  di1 ← scenario_di true 1;
  di2 ← SetDownloadUrl di1 DtypeAudio template_refreshed;
  state ← DownloadFrags_init di1 DtypeAudio "audio1";
  downloadFragment
    [mkAttempt di1 (Fetched (mkResponse 403 ∅ [])) true; mkAttempt di2 (ok_response 3) true]
    (set_MaxSeq 4 (set_SeqNum 3 state)) ∅.

(** A worker whose answer for sequence 7 carries [X-Head-Seqnum: abc]. *)
Definition run_garbled_header : option FragResult :=
  di ← scenario_di true 1;
  state ← DownloadFrags_init di DtypeAudio "audio1";
  downloadFragment
    [mkAttempt di (Fetched (mkResponse 200 (head_header "abc") ["h"%byte])) true]
    (set_MaxSeq (-1) (set_SeqNum 7 state)) ∅.

(** A URL that [url.Parse] refuses: it starts with the colon of a scheme
    that is missing. *)
Definition unparseable_url : string := "://r7.example.com/videoplayback?id=1&sq=%d".

(** Two workers on a live stream: the shared record before and after the
    start-up loop, and a round in which fragment 1 arrives before
    fragment 0. *)
Definition two_jobs_di : DownloadInfo := default NewDownloadInfo (scenario_di true 2).

Definition two_jobs_started : DownloadInfo :=
  default two_jobs_di
    (di1 ← IncrementJobs two_jobs_di DtypeAudio; IncrementJobs di1 DtypeAudio).



(** The coordinator of the two workers after its start-up loop. *)
Definition two_jobs_coord : Coord :=
  default (initCoord new_file)
    (snd <$> bootstrap 2 DtypeAudio two_jobs_di (initCoord new_file)).

(** The spill files of fragments 0, 1 and 2, and the fragments as the
    workers publish them while the server advertises 1 as its head. *)
Definition three_spill_files : gmap string (list byte) :=
  <["out.f140.frag0.ts"%string := body_of 0]>
    (<["out.f140.frag1.ts"%string := body_of 1]>
       (<["out.f140.frag2.ts"%string := body_of 2]> ∅)).

Definition spilled (sq : Z) : Fragment :=
  mkFragment sq ("out.f140.frag" +:+ itoa sq +:+ ".ts") 1 None.

(** Fragments 0 and 1 arrive, then fragment 2: every request sent has been
    answered, and the head known, 1, allows no more. *)
Definition rounds_until_idle : list Round :=
  [mkRound two_jobs_started three_spill_files [spilled 0; spilled 1] false;
   mkRound two_jobs_started three_spill_files [spilled 2] false].

(** The shared record of the scenarios on a stream that is over, with one
    worker, and the request for the head itself. *)
Definition over_di : DownloadInfo := default NewDownloadInfo (scenario_di false 1).

Definition request_for_head : seqChanInfo := mkSeqChanInfo 4 4.

(** The expected image of a one-byte fragment in the output file, as the
    code writes it: the byte and the rest of the 8192-byte buffer. *)
Definition padded (b : byte) : list byte := b :: repeat x00 (BufferSize - 1).

Fixpoint bytes_eqb (a b : list byte) : bool :=
  match a, b with
  | [], [] => true
  | x :: a', y :: b' => Byte.eqb x y && bytes_eqb a' b'
  | _, _ => false
  end.

(** ** Calls on the shared record

    The methods of [*DownloadInfo] that write to the shared record, as values:
    a list of them is what any number of goroutines did to the record, in
    the order the mutexes let them through. *)
Inductive Call :=
| CallIncrementJobs (dataType : string)
| CallDecrementJobs (dataType : string)
| CallSetDownloadUrl (dataType dlURL : string)
| CallSetBaseFilePath (dataType fpath : string)
| CallSetFinished (dataType : string)
| CallStop.

(** The tracks a call locks. *)
Definition tracks_of (k : Call) : list string :=
  match k with
  | CallIncrementJobs dataType | CallDecrementJobs dataType
  | CallSetDownloadUrl dataType _ | CallSetBaseFilePath dataType _
  | CallSetFinished dataType => [dataType]
  | CallStop => [DtypeAudio; DtypeVideo]
  end.

Section Calls.
Context `{Collaborators}.

Definition call (k : Call) (di : DownloadInfo) : option DownloadInfo :=
  match k with
  | CallIncrementJobs dataType => IncrementJobs di dataType
  | CallDecrementJobs dataType => DecrementJobs di dataType
  | CallSetDownloadUrl dataType dlURL => SetDownloadUrl di dataType dlURL
  | CallSetBaseFilePath dataType fpath => SetBaseFilePath di dataType fpath
  | CallSetFinished dataType => SetFinished di dataType
  | CallStop => Stop di
  end.

Fixpoint calls (ks : list Call) (di : DownloadInfo) : option DownloadInfo :=
  match ks with
  | [] => Some di
  | k :: rest => di1 ← call k di; calls rest di1
  end.

(** What the calls [ks] leave in a track that held [m]: the job count moves
    by one per [IncrementJobs] and [DecrementJobs], the last base path and
    the last template written stay, and the host is that of the last
    template that [url.Parse] accepted. *)
Definition track_after_call (dataType : string) (k : Call) (m : MediaDLInfo) : MediaDLInfo :=
  match k with
  | CallIncrementJobs dt =>
      if String.eqb dt dataType then set_ActiveJobs (int_add (ActiveJobs m) 1) m else m
  | CallDecrementJobs dt =>
      if String.eqb dt dataType then set_ActiveJobs (int_sub (ActiveJobs m) 1) m else m
  | CallSetDownloadUrl dt dlURL =>
      if String.eqb dt dataType then
        set_DownloadURL dlURL
          (match url_Parse dlURL with Some host => set_URLHost host m | None => m end)
      else m
  | CallSetBaseFilePath dt fpath =>
      if String.eqb dt dataType then set_BasePath fpath m else m
  | CallSetFinished dt => if String.eqb dt dataType then set_Finished true m else m
  | CallStop =>
      if String.eqb DtypeAudio dataType || String.eqb DtypeVideo dataType
      then set_Finished true m else m
  end.

(** The host that [ks] leave in a track: that of the last template written
    to it that [url.Parse] accepted, [h] when there is none. *)
Fixpoint last_host (dataType : string) (ks : list Call) (h : string) : string :=
  match ks with
  | [] => h
  | CallSetDownloadUrl dt dlURL :: rest =>
      last_host dataType rest
        (if String.eqb dt dataType then default h (url_Parse dlURL) else h)
  | _ :: rest => last_host dataType rest h
  end.

End Calls.

(** The balance of a track's [IncrementJobs] and [DecrementJobs] among
    [ks]. *)
Fixpoint jobs_balance (dataType : string) (ks : list Call) : Z :=
  match ks with
  | [] => 0
  | CallIncrementJobs dt :: rest =>
      (if String.eqb dt dataType then 1 else 0) + jobs_balance dataType rest
  | CallDecrementJobs dt :: rest =>
      (if String.eqb dt dataType then -1 else 0) + jobs_balance dataType rest
  | _ :: rest => jobs_balance dataType rest
  end.

(** The last base path that [ks] write to a track, [p] when none does. *)
Fixpoint last_base_path (dataType : string) (ks : list Call) (p : string) : string :=
  match ks with
  | [] => p
  | CallSetBaseFilePath dt fpath :: rest =>
      last_base_path dataType rest (if String.eqb dt dataType then fpath else p)
  | _ :: rest => last_base_path dataType rest p
  end.

(** The last template that [ks] write to a track, [u] when none does. *)
Fixpoint last_template (dataType : string) (ks : list Call) (u : string) : string :=
  match ks with
  | [] => u
  | CallSetDownloadUrl dt dlURL :: rest =>
      last_template dataType rest (if String.eqb dt dataType then dlURL else u)
  | _ :: rest => last_template dataType rest u
  end.

(** Two workers start on the audio track, its template and base path are
    set, a template that [url.Parse] refuses follows, a worker leaves,
    everything is stopped and the other worker leaves. *)
Definition track_history : list Call :=
  [CallIncrementJobs DtypeAudio; CallIncrementJobs DtypeAudio;
   CallSetDownloadUrl DtypeAudio template; CallSetBaseFilePath DtypeAudio "out.f140";
   CallSetDownloadUrl DtypeAudio unparseable_url; CallDecrementJobs DtypeAudio;
   CallStop; CallDecrementJobs DtypeAudio].



(** ** What a run of the retry loop leaves behind

    [served script fname state fs r frag] tells that [frag] is the fragment
    for [state.SeqNum] made of an answer of [script]: a status below 400 and
    a body that is not empty, found while not stopping; spilled to [fname]
    when the worker spills, kept in memory otherwise. *)
Definition served (script : list Attempt) (fname : string) (state : fragThreadState)
    (fs : gmap string (list byte)) (r : FragResult) (frag : Fragment) : Prop :=
  exists (a : Attempt) (resp : Response),
    a ∈ script
    /\ IsStopping (a_di a) = false
    /\ a_fetch a = Fetched resp
    /\ StatusCode resp < 400
    /\ Body resp <> []
    /\ Seq frag = SeqNum state
    /\ FileName frag = fname
    /\ XHeadSeqNum frag = headerSeqnum_of resp
    /\ (if ToFile state
        then a_spill a = true /\ Data frag = None /\ r_fs r = <[fname := Body resp]> fs
        else Data frag = Some (Body resp) /\ r_fs r = fs).

(** A request for sequence 3 that is refused once and then served, and the
    same when the download is stopped before the second attempt. *)
Definition refused_then_served : list Attempt :=
  [mkAttempt live_di (Fetched (mkResponse 403 ∅ [])) true;
   mkAttempt live_di (ok_response 3) true].

Definition refused_then_stopped : list Attempt :=
  [mkAttempt live_di (Fetched (mkResponse 403 ∅ [])) true;
   mkAttempt (default live_di (Stop live_di)) (ok_response 3) true].

(** Two workers on a live stream that keep their fragments in memory: the
    shared record before and after the start-up loop, and rounds in which
    fragment 1 arrives before fragment 0. *)
Definition memory_di : DownloadInfo :=
  mkDownloadInfo false true false false 2 5 (MDLInfo two_jobs_di).

Definition memory_started : DownloadInfo :=
  mkDownloadInfo false true false false 2 5 (MDLInfo two_jobs_started).

Definition in_memory (sq : Z) : Fragment :=
  mkFragment sq ("out.f140.frag" +:+ itoa sq +:+ ".ts") 4 (Some (body_of sq)).

Definition memory_rounds : list Round :=
  [mkRound memory_started ∅ [in_memory 1] false;
   mkRound memory_started ∅ [in_memory 0] false].

(** ** What the coordinator needs to go on

    [ready fragFiles c]: the count of downloads is an [int], the tries are
    at most the ten they are reset to, and, when fragments are kept in
    memory, every pending fragment has its buffer. *)
Definition ready (fragFiles : bool) (c : Coord) : Prop :=
  MinInt <= activeDownloads c <= MaxInt
  /\ tries c <= 10
  /\ (fragFiles = false -> Forall (fun d => is_Some (Data d)) (dataToWrite c)).

Section Rounds.
Context `{Collaborators}.

(** A round the main loop can go through: the track and the two tracks that
    [Stop] marks are in the shared record, before and after [GetVideoInfo];
    the counts are [int]s; fragments arrive with their buffer when they are
    kept in memory. *)
Definition round_sane (dataType : string) (fragFiles : bool) (r : Round) : Prop :=
  FragFiles (rd_di r) = fragFiles
  /\ (exists m, MDLInfo (rd_di r) !! dataType = Some m
                /\ MinInt <= ActiveJobs m <= MaxInt)
  /\ Jobs (rd_di r) <= MaxInt
  /\ Forall (fun di => is_Some (MDLInfo di !! DtypeAudio)
                       /\ is_Some (MDLInfo di !! DtypeVideo))
            [rd_di r; GetVideoInfo (rd_di r)]
  /\ (fragFiles = false -> Forall (fun d => is_Some (Data d)) (rd_received r)).

End Rounds.

(** Once a round finds the download stopping, so does every later one. *)
Fixpoint stays_stopped (rounds : list Round) : Prop :=
  match rounds with
  | [] => True
  | r :: rest =>
      (IsStopping (rd_di r) = true -> Forall (fun r' => IsStopping (rd_di r') = true) rest)
      /\ stays_stopped rest
  end.

(** ** The tally of the write phase

    [tallied dataType c]: the output file has no fault in store and its
    position is its end; the tries are between 0 and 10; [curFrag] counts the
    progress messages; every message names the track and a head that is at
    most the highest known; and the file is made of one image per message,
    whose size is the byte count of the message. *)
Definition tallied (dataType : string) (c : Coord) : Prop :=
  f_faults (f c) = []
  /\ f_pos (f c) = Z.of_nat (length (f_bytes (f c)))
  /\ 0 <= tries c <= 10
  /\ curFrag c = wrap64 (Z.of_nat (length (progressChan c)))
  /\ Forall (fun p => DataType_p p = dataType /\ MaxSeq_p p <= maxSeqs c) (progressChan c)
  /\ -1 <= maxSeqs c
  /\ exists images : list (list byte),
       f_bytes (f c) = concat images
       /\ map ByteCount (progressChan c)
          = map (fun img => wrap64 (Z.of_nat (length img))) images.

(** The sum of the byte counts reported so far. *)
Definition bytes_reported (c : Coord) : Z :=
  foldr Z.add 0 (map ByteCount (progressChan c)).

(** ** Download URLs: [GetDownloadUrls]

    The fields of an entry of [pr.StreamingData.AdaptiveFormats] that
    [Info.go] reads. *)
Record AdaptiveFormat := mkAdaptiveFormat {
  af_URL : string;
  af_Itag : Z;
  af_MimeType : string;
  af_QualityLabel : string;
  af_TargetDurationSec : Z
}.

(** A [map[int]string]: the nil map reads as an empty one and panics when
    written to. *)
Inductive UrlMap :=
| NilMap
| MadeMap (m : gmap Z string).

Definition UrlMap_len (urls : UrlMap) : nat :=
  match urls with
  | NilMap => 0%nat
  | MadeMap m => size m
  end.

Definition UrlMap_get (urls : UrlMap) (itag : Z) : option string :=
  match urls with
  | NilMap => None
  | MadeMap m => m !! itag
  end.

(** [urls[itag] = v]. *)
Definition UrlMap_set (urls : UrlMap) (itag : Z) (v : string) : option UrlMap :=
  match urls with
  | NilMap => None
  | MadeMap m => Some (MadeMap (<[itag := v]> m))
  end.

(** [strings.ReplaceAll(s, "%", "%%")]. *)
Fixpoint escape_percent (s : string) : string :=
  match s with
  | EmptyString => EmptyString
  | String c r =>
      if Ascii.eqb c "%" then String "%" (String "%" (escape_percent r))
      else String c (escape_percent r)
  end.

Section DownloadUrls.
(** [DownloadData] fetches a URL; [GetUrlsFromManifest] reads the URLs of a
    DASH manifest. Both live outside [Info.go]. *)
Variable DownloadData : string -> list byte.
Variable GetUrlsFromManifest : list byte -> UrlMap.

(** The loop over the adaptive formats (lines 488-492). *)
Fixpoint urls_of_formats (formats : list AdaptiveFormat) (urls : UrlMap) : option UrlMap :=
  match formats with
  | [] => Some urls
  | fmt :: rest =>
      if (0 <? String.length (af_URL fmt))%nat then
        urls1 ← UrlMap_set urls (af_Itag fmt) (escape_percent (af_URL fmt) +:+ "&sq=%d");
        urls_of_formats rest urls1
      else urls_of_formats rest urls
  end.

(** [GetDownloadUrls] (lines 474-495) for a record whose [DashURL] is
    [dashURL] and a player response whose adaptive formats are [formats]. *)
Definition GetDownloadUrls (dashURL : string) (formats : list AdaptiveFormat)
    : option UrlMap :=
  let urls := MadeMap ∅ in
  let urls1 :=
    if (0 <? String.length dashURL)%nat then
      let manifest := DownloadData dashURL in
      if (0 <? length manifest)%nat then GetUrlsFromManifest manifest else urls
    else urls in
  if (0 <? String.length dashURL)%nat && (0 <? UrlMap_len urls1)%nat then Some urls1
  else urls_of_formats formats urls1.

End DownloadUrls.

(** The last URL that is not empty among the formats with a given itag. *)
Fixpoint last_url_of (itag : Z) (formats : list AdaptiveFormat) (found : option string)
    : option string :=
  match formats with
  | [] => found
  | fmt :: rest =>
      last_url_of itag rest
        (if (0 <? String.length (af_URL fmt))%nat && (af_Itag fmt =? itag)
         then Some (af_URL fmt) else found)
  end.

(** ** The whole of [DownloadInfo]

    [engine] holds the fields that the download engine uses, modelled
    above; the others are the rest of the struct. [LastUpdated] is a time, in
    nanoseconds. *)
Record FullInfo := mkFullInfo {
  engine : DownloadInfo;
  FormatInfo : gmap string string;
  Metadata : gmap string string;
  InProgress : bool;
  VP9 : bool;
  GVideoDDL : bool;
  LiveURL : bool;
  Thumbnail : string;
  VideoID : string;
  URL : string;
  SelectedQuality : string;
  Status : string;
  DashURL : string;
  Wait : Z;
  Quality : Z;
  RetrySecs : Z;
  LastUpdated : Z
}.

Definition set_engine (v : DownloadInfo) (i : FullInfo) : FullInfo :=
  mkFullInfo v (FormatInfo i) (Metadata i) (InProgress i) (VP9 i) (GVideoDDL i) (LiveURL i)
    (Thumbnail i) (VideoID i) (URL i) (SelectedQuality i) (Status i) (DashURL i) (Wait i)
    (Quality i) (RetrySecs i) (LastUpdated i).
Definition set_FormatInfo (v : gmap string string) (i : FullInfo) : FullInfo :=
  mkFullInfo (engine i) v (Metadata i) (InProgress i) (VP9 i) (GVideoDDL i) (LiveURL i)
    (Thumbnail i) (VideoID i) (URL i) (SelectedQuality i) (Status i) (DashURL i) (Wait i)
    (Quality i) (RetrySecs i) (LastUpdated i).
Definition set_GVideoDDL (v : bool) (i : FullInfo) : FullInfo :=
  mkFullInfo (engine i) (FormatInfo i) (Metadata i) (InProgress i) (VP9 i) v (LiveURL i)
    (Thumbnail i) (VideoID i) (URL i) (SelectedQuality i) (Status i) (DashURL i) (Wait i)
    (Quality i) (RetrySecs i) (LastUpdated i).
Definition set_LiveURL (v : bool) (i : FullInfo) : FullInfo :=
  mkFullInfo (engine i) (FormatInfo i) (Metadata i) (InProgress i) (VP9 i) (GVideoDDL i) v
    (Thumbnail i) (VideoID i) (URL i) (SelectedQuality i) (Status i) (DashURL i) (Wait i)
    (Quality i) (RetrySecs i) (LastUpdated i).
Definition set_VideoID (v : string) (i : FullInfo) : FullInfo :=
  mkFullInfo (engine i) (FormatInfo i) (Metadata i) (InProgress i) (VP9 i) (GVideoDDL i)
    (LiveURL i) (Thumbnail i) v (URL i) (SelectedQuality i) (Status i) (DashURL i) (Wait i)
    (Quality i) (RetrySecs i) (LastUpdated i).
Definition set_Quality (v : Z) (i : FullInfo) : FullInfo :=
  mkFullInfo (engine i) (FormatInfo i) (Metadata i) (InProgress i) (VP9 i) (GVideoDDL i)
    (LiveURL i) (Thumbnail i) (VideoID i) (URL i) (SelectedQuality i) (Status i) (DashURL i)
    (Wait i) v (RetrySecs i) (LastUpdated i).
Definition set_RetrySecs (v : Z) (i : FullInfo) : FullInfo :=
  mkFullInfo (engine i) (FormatInfo i) (Metadata i) (InProgress i) (VP9 i) (GVideoDDL i)
    (LiveURL i) (Thumbnail i) (VideoID i) (URL i) (SelectedQuality i) (Status i) (DashURL i)
    (Wait i) (Quality i) v (LastUpdated i).

Definition AudioItag : Z := 140.

(** ** Pieces of Go's [strings] *)

(** [strings.HasPrefix(s, p)] and [strings.HasSuffix(s, p)]. *)
Definition HasPrefix (s p : string) : bool := String.prefix p s.

Definition HasSuffix (s p : string) : bool :=
  (String.length p <=? String.length s)%nat
  && String.eqb (String.substring (String.length s - String.length p) (String.length p) s) p.

(** [strings.TrimPrefix(s, p)] and [strings.TrimSuffix(s, p)]. *)
Definition TrimPrefix (s p : string) : string :=
  if HasPrefix s p
  then String.substring (String.length p) (String.length s - String.length p) s
  else s.

Definition TrimSuffix (s p : string) : string :=
  if HasSuffix s p then String.substring 0 (String.length s - String.length p) s else s.

(** [strings.TrimLeft(s, "/")]. *)
Fixpoint TrimLeft_slash (s : string) : string :=
  match s with
  | String "/" r => TrimLeft_slash r
  | _ => s
  end.

(** [strings.ReplaceAll(s, "-", "")]. *)
Fixpoint remove_dashes (s : string) : string :=
  match s with
  | EmptyString => EmptyString
  | String c r => if Ascii.eqb c "-" then remove_dashes r else String c (remove_dashes r)
  end.

(** [s[:n]]: a panic when [s] is shorter than [n] bytes. *)
Definition slice_to (n : nat) (s : string) : option string :=
  if (n <=? String.length s)%nat then Some (String.substring 0 n s) else None.

(** [Get] of a [url.Values]: the first value of the key, or the empty
    string. *)
Definition Values_Get (q : gmap string (list string)) (key : string) : string :=
  match q !! key with
  | Some (v :: _) => v
  | _ => EmptyString
  end.

(** ** The formatting fields: [FormatInfo.SetInfo], [MetaInfo.SetInfo]

    The fields of a [PlayerResponse] that [Info.go] reads. *)
Record PlayerResponse := mkPlayerResponse {
  pr_StartTimestamp : string;
  pr_EndTimestamp : string;
  pr_IsLiveNow : bool;
  pr_PublishDate : string;
  pr_Thumbnails : list string;
  pr_VideoID : string;
  pr_Title : string;
  pr_ChannelID : string;
  pr_Author : string;
  pr_ShortDescription : string;
  pr_AdaptiveFormats : list AdaptiveFormat;
  pr_DashManifestURL : string
}.

Section Formatting.
(** [strings.TrimSpace], and [FormatPythonMapString] of the program, which
    is outside [Info.go]: [None] is its error. *)
Variable strings_TrimSpace : string -> string.
Variable FormatPythonMapString : string -> gmap string string -> option string.

(** [FormatInfo.SetInfo] (lines 295-311). *)
Definition FormatInfo_SetInfo (fi : gmap string string) (pr : PlayerResponse)
    : option (gmap string string) :=
  let vid := pr_VideoID pr in
  startDate ← slice_to 8 (remove_dashes (pr_StartTimestamp pr));
  let publishDate := remove_dashes (pr_PublishDate pr) in
  let url := "https://www.youtube.com/watch?v=" +:+ vid in
  Some (<["description" := strings_TrimSpace (pr_ShortDescription pr)]>
        (<["publish_date" := publishDate]>
         (<["start_date" := startDate]>
          (<["upload_date" := startDate]>
           (<["channel" := pr_Author pr]>
            (<["channel_id" := pr_ChannelID pr]>
             (<["title" := strings_TrimSpace (pr_Title pr)]>
              (<["url" := url]>
               (<["id" := vid]> fi))))))))).

(** [MetaInfo.SetInfo] (lines 313-323): every value is formatted on its
    own, so the order of the iteration does not matter. *)
Definition MetaInfo_SetInfo (mi fi : gmap string string) : gmap string string :=
  (fun v => default v (FormatPythonMapString v fi)) <$> mi.

End Formatting.

(** [NewFormatInfo] and [NewMetaInfo]. *)
Definition NewFormatInfo : gmap string string :=
  list_to_map
    [("id", EmptyString); ("title", EmptyString); ("channel_id", EmptyString);
     ("channel", EmptyString); ("upload_date", EmptyString); ("start_date", EmptyString);
     ("publish_date", EmptyString); ("description", EmptyString)]%string.

Definition NewMetaInfo : gmap string string :=
  list_to_map
    [("title", "%(title)s"); ("artist", "%(channel)s"); ("date", "%(upload_date)s");
     ("comment", "%(url)s" +:+ String "010" (String "010" "%(description)s"))]%string.

(** ** Talking to the user and reading the input URL

    [GetUserInput] hands over the next line the user types: [inputs] holds
    the lines to come, and running out of them is [None]. *)
Inductive InputError :=
| ErrUrlParse
| ErrMissingVideoID
| ErrNotFragmentedStream
| ErrItagParse
| ErrNoSq
| ErrNotYoutube.

Section Prompts.
Context `{Collaborators}.
(** [strings.ToLower]; [DefaultPollTime], a constant of the program outside
    [Info.go]; [ParseGvideoUrl], a function of the program outside
    [Info.go]; the path and the query of the URL that [url.Parse] makes of
    a string. *)
Variable strings_ToLower : string -> string.
Variable DefaultPollTime : Z.
Variable ParseGvideoUrl : string -> string -> string * Z.
Variable url_EscapedPath : string -> string.
Variable url_Query : string -> gmap string (list string).

(** [AskWaitForStream] (lines 344-365). *)
Definition AskWaitForStream (inputs : list string) (i : FullInfo)
    : option (bool * FullInfo * list string) :=
  match inputs with
  | [] => None
  | line :: rest =>
      let choice := strings_ToLower line in
      if HasPrefix choice "wait" then Some (true, i, rest)
      else if HasPrefix choice "poll" then
        match rest with
        | [] => None
        | secs :: rest1 =>
            let '(s, err) := Atoi secs in
            let s1 :=
              if match err with Some _ => true | None => false end || (s <? DefaultPollTime)
              then DefaultPollTime else s in
            Some (true, set_RetrySecs s1 i, rest1)
        end
      else Some (false, i, rest)
  end.

(** [GetGvideoUrl] (lines 367-396), one line of input per pass. *)
Fixpoint GetGvideoUrl (inputs : list string) (dataType : string) (i : FullInfo)
    : option (FullInfo * list string) :=
  match inputs with
  | [] => None
  | gvUrl :: rest =>
      if (String.length gvUrl =? 0)%nat then
        if negb (String.eqb dataType DtypeAudio) then Some (i, rest)
        else GetGvideoUrl rest dataType i
      else
        let '(newUrl, itag) := ParseGvideoUrl gvUrl dataType in
        if (String.length newUrl =? 0)%nat then GetGvideoUrl rest dataType i
        else
          let i1 := if String.eqb dataType DtypeVideo then set_Quality itag i else i in
          if (String.eqb dataType DtypeAudio && (itag =? AudioItag))
             || (String.eqb dataType DtypeVideo && negb (itag =? AudioItag)) then
            e ← SetDownloadUrl (engine i1) dataType newUrl;
            Some (set_engine e i1, rest)
          else GetGvideoUrl rest dataType i1
  end.

(** The branch of [ParseInputUrl] for a Google Video URL, from the test of
    [noclen] on (lines 427-464). *)
Definition ParseInputUrl_gvideo (inputs : list string) (i : FullInfo)
    : option (FullInfo * option InputError * list string) :=
  let parsedQuery := url_Query (URL i) in
  match parsedQuery !! "noclen"%string with
  | None => Some (i, Some ErrNotFragmentedStream, inputs)
  | Some _ =>
      let i1 := set_GVideoDDL true i in
      let i2 := set_VideoID (TrimSuffix (Values_Get parsedQuery "id") ".1") i1 in
      let i3 := set_FormatInfo (<["id"%string := VideoID i2]> (FormatInfo i2)) i2 in
      let sqIdx := String.index 0 "&sq=" (URL i3) in
      let '(itag, err) := Atoi (Values_Get parsedQuery "itag") in
      match err, sqIdx with
      | Some _, _ => Some (i3, Some ErrItagParse, inputs)
      | None, None => Some (i3, Some ErrNoSq, inputs)
      | None, Some idx =>
          let template := String.substring 0 idx (URL i3) +:+ "&sq=%d" in
          '(i6, inputs6) ←
            (if itag =? AudioItag then
               audioUrl ← GetDownloadUrl (engine i3) DtypeAudio;
               i4 ← (if (String.length audioUrl =? 0)%nat
                     then e ← SetDownloadUrl (engine i3) DtypeAudio template;
                          Some (set_engine e i3)
                     else Some i3);
               videoUrl ← GetDownloadUrl (engine i4) DtypeVideo;
               if (String.length videoUrl =? 0)%nat && (Quality i4 <? 0)
               then GetGvideoUrl inputs DtypeVideo i4
               else Some (i4, inputs)
             else
               videoUrl ← GetDownloadUrl (engine i3) DtypeVideo;
               i4 ← (if (String.length videoUrl =? 0)%nat
                     then e ← SetDownloadUrl (engine i3) DtypeVideo template;
                          Some (set_engine e i3)
                     else Some i3);
               audioUrl ← GetDownloadUrl (engine i4) DtypeAudio;
               if (String.length audioUrl =? 0)%nat
               then GetGvideoUrl inputs DtypeAudio i4
               else Some (i4, inputs));
          Some (set_Quality itag i6, None, inputs6)
      end
  end.

(** The record as a Google Video URL marks it before its itag is read. *)
Definition marked_gvideo (i : FullInfo) : FullInfo :=
  let vid := TrimSuffix (Values_Get (url_Query (URL i)) "id") ".1" in
  set_FormatInfo (<["id"%string := vid]> (FormatInfo i))
    (set_VideoID vid (set_GVideoDDL true i)).

(** [ParseInputUrl] (lines 398-468). *)
Definition ParseInputUrl (inputs : list string) (i : FullInfo)
    : option (FullInfo * option InputError * list string) :=
  match url_Parse (URL i) with
  | None => Some (i, Some ErrUrlParse, inputs)
  | Some host =>
      let lowerHost := TrimPrefix (strings_ToLower host) "www." in
      let lowerPath := strings_ToLower (url_EscapedPath (URL i)) in
      let parsedQuery := url_Query (URL i) in
      if String.eqb lowerHost "youtube.com" then
        if HasPrefix lowerPath "/watch" then
          match parsedQuery !! "v"%string with
          | None => Some (i, Some ErrMissingVideoID, inputs)
          | Some _ => Some (set_VideoID (Values_Get parsedQuery "v") i, None, inputs)
          end
        else if HasPrefix lowerPath "/channel" && HasSuffix lowerPath "live" then
          Some (set_LiveURL true i, None, inputs)
        else Some (i, Some ErrNotYoutube, inputs)
      else if String.eqb lowerHost "youtu.be" then
        Some (set_VideoID (TrimLeft_slash (url_EscapedPath (URL i))) i, None, inputs)
      else if HasSuffix lowerHost ".googlevideo.com" then ParseInputUrl_gvideo inputs i
      else Some (i, Some ErrNotYoutube, inputs)
  end.

End Prompts.

(** ** Scenarios at the prompt

    [lower_ascii] is [strings.ToLower] on ASCII strings. The stand-in for
    [ParseGvideoUrl] takes every line as a URL of the track asked for. The
    record is a new one: [ActionAsk], a constant outside [Info.go], is taken
    as 0. *)
Definition lower_ascii_char (c : ascii) : ascii :=
  let n := N_of_ascii c in
  if ((65 <=? n) && (n <=? 90))%N then ascii_of_N (n + 32) else c.

Fixpoint lower_ascii (s : string) : string :=
  match s with
  | EmptyString => EmptyString
  | String c r => String (lower_ascii_char c) (lower_ascii r)
  end.

Definition any_gvideo_url (gvUrl dataType : string) : string * Z :=
  (gvUrl +:+ "&sq=%d", if String.eqb dataType DtypeAudio then AudioItag else 137).

Definition gvideo_url : string :=
  "https://r1.googlevideo.com/videoplayback?noclen=1&id=abc.1&itag=140&sq=5".

Definition gvideo_query (u : string) : gmap string (list string) :=
  if String.eqb u gvideo_url
  then list_to_map [("noclen", ["1"]); ("id", ["abc.1"]); ("itag", ["140"]);
                    ("sq", ["5"])]%string
  else ∅.

Definition gvideo_path (u : string) : string := "/videoplayback".

Definition new_info (url : string) : FullInfo :=
  mkFullInfo NewDownloadInfo NewFormatInfo NewMetaInfo false false false false
    EmptyString EmptyString url EmptyString EmptyString EmptyString 0 (-1) 0 0.


(* ===================================================================== *)
(** * Part II: properties                                                 *)
(* ===================================================================== *)


(** ** Machine integers *)

Lemma wrap64_id (z : Z) : MinInt <= z <= MaxInt -> wrap64 z = z.
Proof.
  unfold wrap64, MinInt, MaxInt. intros Hz.
  rewrite Z.mod_small by lia. lia.
Qed.

Lemma wrap64_range (z : Z) : MinInt <= wrap64 z <= MaxInt.
Proof.
  unfold wrap64, MinInt, MaxInt.
  pose proof (Z.mod_pos_bound (z + 2 ^ 63) (2 ^ 64) ltac:(lia)). lia.
Qed.

Lemma int_add_exact (a b : Z) : MinInt <= a + b <= MaxInt -> int_add a b = a + b.
Proof. apply wrap64_id. Qed.

Lemma int_sub_exact (a b : Z) : MinInt <= a - b <= MaxInt -> int_sub a b = a - b.
Proof. apply wrap64_id. Qed.

(** ** The shared record *)

Lemma Dtype_distinct : DtypeAudio <> DtypeVideo.
Proof. discriminate. Qed.

Section SharedFacts.
Context `{Collaborators}.

Lemma update_track_present (g : MediaDLInfo -> MediaDLInfo) (di : DownloadInfo)
    (dataType : string) (m : MediaDLInfo) :
  MDLInfo di !! dataType = Some m ->
  update_track g di dataType = Some (set_MDLInfo (<[dataType := g m]> (MDLInfo di)) di).
Proof. intros Hm. unfold update_track. rewrite Hm. reflexivity. Qed.

Lemma update_track_inv (g : MediaDLInfo -> MediaDLInfo) (di di' : DownloadInfo)
    (dataType : string) :
  update_track g di dataType = Some di' ->
  exists m, MDLInfo di !! dataType = Some m
    /\ di' = set_MDLInfo (<[dataType := g m]> (MDLInfo di)) di.
Proof.
  unfold update_track. destruct (MDLInfo di !! dataType) as [m|] eqn:Hm; simpl.
  - intros [= <-]. eauto.
  - discriminate.
Qed.

(** C9, as the code has it: [SetDownloadUrl] always stores the new
    template; it stores the host of that template when [url.Parse] accepts
    it, and keeps the host it had when [url.Parse] refuses it. Nothing else
    of the track, and no other track, changes. *)
Theorem SetDownloadUrl_host_follows_parse (di : DownloadInfo)
    (dataType dlURL : string) (m : MediaDLInfo) :
  MDLInfo di !! dataType = Some m ->
  exists di' m',
    SetDownloadUrl di dataType dlURL = Some di'
    /\ MDLInfo di' !! dataType = Some m'
    /\ DownloadURL m' = dlURL
    /\ URLHost m' = match url_Parse dlURL with
                    | Some host => host
                    | None => URLHost m
                    end
    /\ (ActiveJobs m', BasePath m', Finished m') = (ActiveJobs m, BasePath m, Finished m)
    /\ forall other, other <> dataType -> MDLInfo di' !! other = MDLInfo di !! other.
Proof.
  intros Hm. unfold SetDownloadUrl.
  rewrite (update_track_present _ _ _ _ Hm).
  eexists. eexists. split; [reflexivity|]. simpl.
  split; [apply lookup_insert_eq|].
  split; [reflexivity|].
  split; [destruct (url_Parse dlURL); reflexivity|].
  split; [destruct (url_Parse dlURL); reflexivity|].
  intros other Hne. apply lookup_insert_ne. congruence.
Qed.


End SharedFacts.

Lemma SetDownloadUrl_host_follows_parse_witness :
  exists di' m',
    SetDownloadUrl NewDownloadInfo DtypeAudio template = Some di'
    /\ MDLInfo di' !! DtypeAudio = Some m'
    /\ DownloadURL m' = template
    /\ URLHost m' = "r1.example.com"%string.
Proof.
  destruct (SetDownloadUrl_host_follows_parse NewDownloadInfo DtypeAudio template
              zeroMediaDLInfo ltac:(reflexivity))
    as (di' & m' & H1 & H2 & H3 & H4 & _).
  exists di', m'. repeat split; assumption.
Defined.

(** C9, as the claim has it, fails: after a template that parses, a
    template that [url.Parse] refuses is stored with the host of the first. *)
Lemma SetDownloadUrl_stale_host :
  exists di1 di2,
    SetDownloadUrl NewDownloadInfo DtypeAudio template = Some di1
    /\ SetDownloadUrl di1 DtypeAudio unparseable_url = Some di2
    /\ url_Parse unparseable_url = None
    /\ GetDownloadUrl di2 DtypeAudio = Some unparseable_url
    /\ GetDownloadUrlHost di2 DtypeAudio = Some "r1.example.com"%string
    /\ url_Parse template = Some "r1.example.com"%string.
Proof.
  eexists. eexists.
  split; [vm_compute; reflexivity|].
  split; [vm_compute; reflexivity|].
  repeat split; vm_compute; reflexivity.
Qed.


(** ** The worker *)

Section WorkerFacts.
Context `{Collaborators}.

Lemma requests_app (t u : list Event) : requests (t ++ u) = requests t ++ requests u.
Proof. apply omap_app. Qed.

Lemma continues_app (t u : list Event) : continues (t ++ u) = continues t ++ continues u.
Proof. apply omap_app. Qed.

Lemma published_app (t u : list Event) : published (t ++ u) = published t ++ published u.
Proof. apply omap_app. Qed.








Lemma retry_or_return_url (di : DownloadInfo) (state state1 : fragThreadState)
    (trace : list Event) (onGiveUp : gmap string (list byte))
    (next : fragThreadState -> list Event -> option FragResult) (r : FragResult)
    (u : string) :
  hooks_keep_request ->
  keeps_request state state1 ->
  (forall state2 trace2 r2,
     keeps_request state state2 -> next state2 trace2 = Some r2 ->
     exists t, r_trace r2 = trace2 ++ t /\ Forall (fun x => x = u) (requests t)) ->
  retry_or_return di state1 trace onGiveUp next = Some r ->
  exists t, r_trace r = trace ++ t /\ Forall (fun x => x = u) (requests t).
Proof.
  intros Hhooks (K1 & K2) Hnext. unfold retry_or_return, retry_decision.
  destruct (Hhooks di (set_Tries (int_add (Tries state1) 1) state1) 0)
    as (_ & _ & (C1 & C2)).
  destruct (ContinueFragmentDownload di (set_Tries (int_add (Tries state1) 1) state1))
    as [state2 cont].
  simpl in C1, C2.
  assert (K : keeps_request state state2) by (split; congruence).
  destruct cont.
  - intros Hr. destruct (Hnext _ _ _ K Hr) as (t & Ht & Hall).
    eexists. split; [rewrite Ht, <- app_assoc; reflexivity|].
    rewrite requests_app. simpl. exact Hall.
  - intros [= <-]. eexists. split; [reflexivity|]. simpl. constructor.
Qed.

Lemma downloadFragment_loop_url (fname : string) (fs : gmap string (list byte))
    (script : list Attempt) :
  hooks_keep_request ->
  forall (state : fragThreadState) (trace : list Event) (r : FragResult),
    downloadFragment_loop script fname state fs trace = Some r ->
    exists t, r_trace r = trace ++ t
      /\ Forall (fun x => x = Sprintf_d (Url state) (SeqNum state)) (requests t).
Proof.
  intros Hhooks. induction script as [|a rest IH]; intros state trace r.
  - simpl. destruct (negb (Tries state <? FragMaxTries)); [|discriminate].
    intros [= <-]. exists []. split; [symmetry; apply app_nil_r|constructor].
  - cbn [downloadFragment_loop].
    destruct (negb (Tries state <? FragMaxTries)).
    { intros [= <-]. exists []. split; [symmetry; apply app_nil_r|constructor]. }
    destruct (IsStopping (a_di a)).
    { intros [= <-]. exists []. split; [symmetry; apply app_nil_r|constructor]. }
    set (u := Sprintf_d (Url state) (SeqNum state)).
    destruct (match url_Parse u with
              | Some _ =>
                  host ← GetDownloadUrlHost (a_di a) (DataType state);
                  Some (if (0 <? String.length host)%nat then Some host else None)
              | None => Some None
              end) as [hostHdr|]; [|discriminate].
    cbn [mbind option_bind].
    assert (Hnext : forall state2 trace2 r2,
               keeps_request state state2 ->
               downloadFragment_loop rest fname state2 fs trace2 = Some r2 ->
               exists t, r_trace r2 = trace2 ++ t /\ Forall (fun x => x = u) (requests t)).
    { intros state2 trace2 r2 (K1 & K2) Hr2.
      destruct (IH _ _ _ Hr2) as (t & Ht & Hall). exists t. split; [exact Ht|].
      unfold u. rewrite <- K1, <- K2. exact Hall. }
    assert (Hstep : forall state1 onGiveUp,
               keeps_request state state1 ->
               retry_or_return (a_di a) state1 (trace ++ [EvGet u hostHdr]) onGiveUp
                 (fun state2 => downloadFragment_loop rest fname state2 fs) = Some r ->
               exists t, r_trace r = trace ++ t /\ Forall (fun x => x = u) (requests t)).
    { intros state1 onGiveUp K Hr.
      destruct (retry_or_return_url _ _ _ _ _ _ _ u Hhooks K Hnext Hr) as (t & Ht & Hall).
      exists (EvGet u hostHdr :: t). split.
      - rewrite Ht, <- app_assoc. reflexivity.
      - simpl. constructor; [reflexivity|exact Hall]. }
    assert (Hpub : forall fs' frag,
               Some (mkFragResult state fs' ((trace ++ [EvGet u hostHdr]) ++ [EvPublish frag]))
               = Some r ->
               exists t, r_trace r = trace ++ t /\ Forall (fun x => x = u) (requests t)).
    { intros fs' frag [= <-]. exists [EvGet u hostHdr; EvPublish frag]. split.
      - simpl. rewrite <- app_assoc. reflexivity.
      - simpl. constructor; [reflexivity|constructor]. }
    assert (Krefl : keeps_request state state) by (split; reflexivity).
    destruct (Hhooks (a_di a) state 0) as (KE & _ & _).
    destruct (a_fetch a) as [| |resp]; try (apply Hstep; assumption).
    destruct (400 <=? StatusCode resp).
    { apply Hstep. destruct (Hhooks (a_di a) state (StatusCode resp)) as (_ & KH & _).
      exact KH. }
    destruct (length (Body resp) =? 0)%nat; [apply Hstep; assumption|].
    destruct (ToFile state); [destruct (a_spill a)|];
      first [apply Hpub | apply Hstep; assumption].
Qed.

(** C7, as the code has it: every request of [downloadFragment] is for the
    URL formatted from the template that [DownloadFrags] read, once, when the
    worker started (hooks that leave [state.Url] alone assumed), whatever
    the shared record holds at the moment of the request. *)
Theorem requests_use_template_read_at_start (di0 : DownloadInfo) (dataType name : string)
    (state0 : fragThreadState) (sq mx : Z) (script : list Attempt)
    (fs : gmap string (list byte)) (r : FragResult) :
  hooks_keep_request ->
  DownloadFrags_init di0 dataType name = Some state0 ->
  downloadFragment script (set_MaxSeq mx (set_SeqNum sq state0)) fs = Some r ->
  exists tmpl,
    GetDownloadUrl di0 dataType = Some tmpl
    /\ Forall (fun u => u = Sprintf_d tmpl sq) (requests (r_trace r)).
Proof.
  intros Hhooks Hinit Hrun. unfold DownloadFrags_init in Hinit.
  destruct (GetBaseFilePath di0 dataType) as [base|]; [|discriminate].
  destruct (GetDownloadUrl di0 dataType) as [tmpl|]; [|discriminate].
  simpl in Hinit. injection Hinit as <-.
  exists tmpl. split; [reflexivity|].
  unfold downloadFragment in Hrun.
  destruct (downloadFragment_loop_url _ _ _ Hhooks _ _ _ Hrun) as (t & Ht & Hall).
  simpl in Ht. rewrite Ht. exact Hall.
Qed.

End WorkerFacts.

Lemma scenario_hooks_keep_pace : hooks_keep_pace.
Proof.
  intros di s status. unfold keeps_pace. simpl.
  destruct (status =? 403); simpl; auto 10.
Qed.

Lemma scenario_hooks_keep_request : hooks_keep_request.
Proof.
  intros di s status. unfold keeps_request. simpl.
  destruct (status =? 403); simpl; auto.
Qed.


Lemma requests_use_template_read_at_start_witness :
  exists r tmpl,
    run_refresh_between_attempts = Some r
    /\ GetDownloadUrl live_di DtypeAudio = Some tmpl
    /\ Forall (fun u => u = Sprintf_d tmpl 3) (requests (r_trace r)).
Proof.
  assert (Hrun : exists r, downloadFragment
     [mkAttempt live_di (Fetched (mkResponse 403 ∅ [])) true;
      mkAttempt (default live_di (SetDownloadUrl live_di DtypeAudio template_refreshed))
        (ok_response 3) true]
     (set_MaxSeq 4 (set_SeqNum 3 live_worker)) ∅ = Some r).
  { vm_compute. eexists. reflexivity. }
  destruct Hrun as [r Hr].
  destruct (requests_use_template_read_at_start live_di DtypeAudio "audio1" live_worker
              3 4 _ ∅ r scenario_hooks_keep_request ltac:(vm_compute; reflexivity) Hr)
    as (tmpl & Htmpl & Hall).
  exists r, tmpl. split; [|split; assumption].
  rewrite <- Hr. vm_compute. reflexivity.
Defined.

(** C7, as the claim has it, fails: the track is given a new URL between the
    two attempts of a worker, which the accessor returns from then on; the
    second request is still for the old URL, with the new host in its [Host]
    header. *)
Lemma retry_requests_the_old_url :
  exists di2 r,
    SetDownloadUrl live_di DtypeAudio template_refreshed = Some di2
    /\ run_refresh_between_attempts = Some r
    /\ GetDownloadUrl di2 DtypeAudio = Some template_refreshed
    /\ r_trace r =
       [EvGet "https://r1.example.com/videoplayback?id=1&sq=3" (Some "r1.example.com"%string);
        EvContinue 1 true; EvSleep 5000000000;
        EvGet "https://r1.example.com/videoplayback?id=1&sq=3" (Some "r7.example.com"%string);
        EvPublish (mkFragment 3 "out.f140.frag3.ts" 4 None)]
    /\ Sprintf_d template_refreshed 3
       = "https://r7.example.com/videoplayback?id=1&sq=3"%string.
Proof.
  eexists. eexists.
  split; [vm_compute; reflexivity|].
  split; [vm_compute; reflexivity|].
  repeat split; vm_compute; reflexivity.
Qed.

(** C8, at the failing input: an answer whose [X-Head-Seqnum] is [abc],
    which [strconv.Atoi] refuses, is published with [XHeadSeqNum = 0], not
    -1. *)
Theorem garbled_head_seq_is_published_as_zero :
  snd (Atoi "abc") = Some ErrSyntax
  /\ (fun r => published (r_trace r)) <$> run_garbled_header
     = Some [mkFragment 7 "out.f140.frag7.ts" 0 None].
Proof. split; vm_compute; reflexivity. Qed.

(** ** The coordinator: dispatch *)

Lemma MaxInt_value : MaxInt = 9223372036854775807.
Proof. reflexivity. Qed.

Lemma MinInt_value : MinInt = -9223372036854775808.
Proof. reflexivity. Qed.

Lemma two_63_value : 2 ^ 63 = 9223372036854775808.
Proof. reflexivity. Qed.


Lemma numbered_snoc (l : list seqChanInfo) (m : Z) :
  map CurSequence l = map Z.of_nat (seq 0 (length l)) ->
  map CurSequence (l ++ [mkSeqChanInfo (Z.of_nat (length l)) m])
  = map Z.of_nat (seq 0 (length (l ++ [mkSeqChanInfo (Z.of_nat (length l)) m]))).
Proof.
  intros Hl. rewrite map_app, length_app. simpl.
  rewrite Nat.add_1_r, seq_S, map_app, Hl. reflexivity.
Qed.

(** One enqueue: the request carries [curSeq] and [maxSeqs]; both counters
    go up by exactly one; nothing else changes. *)
Lemma dispatch_accounted (received : nat) (c c' : Coord) :
  accounted received c ->
  Z.of_nat (length (seqChan c)) < MaxInt ->
  Z.of_nat received <= MaxInt ->
  dispatch c = Some c' ->
  accounted received c'
  /\ seqChan c' = seqChan c ++ [mkSeqChanInfo (curSeq c) (maxSeqs c)]
  /\ curSeq c' = curSeq c + 1
  /\ activeDownloads c' = activeDownloads c + 1
  /\ maxSeqs c' = maxSeqs c
  /\ closed c' = closed c
  /\ dataToWrite c' = dataToWrite c
  /\ curFrag c' = curFrag c.
Proof.
  intros ((Hnum & Hcur) & Had) Hlen Hrecv. unfold dispatch.
  destruct (closed c) eqn:Hclosed; [discriminate|]. intros [= <-]. simpl.
  rewrite MaxInt_value in *.
  assert (Hc1 : int_add (curSeq c) 1 = curSeq c + 1).
  { apply int_add_exact. rewrite MaxInt_value, MinInt_value. lia. }
  assert (Ha1 : int_add (activeDownloads c) 1 = activeDownloads c + 1).
  { apply int_add_exact. rewrite MaxInt_value, MinInt_value. lia. }
  rewrite Hc1, Ha1. repeat split; auto.
  - simpl. rewrite Hcur. apply numbered_snoc. exact Hnum.
  - simpl. rewrite length_app. simpl. lia.
  - simpl. rewrite length_app. simpl. lia.
Qed.






(** ** The coordinator: the write phase leaves the dispatch state alone *)

Section CoordinatorFacts.
Context `{Collaborators}.

Lemma write_buffer_frame (dataType : string) (fragFiles : bool) (i i' : nat)
    (data : Fragment) (unread : list byte) (fs fs' : gmap string (list byte))
    (c c' : Coord) :
  write_buffer dataType fragFiles i data unread fs c = Some (i', fs', c') ->
  seqChan c' = seqChan c /\ curSeq c' = curSeq c
  /\ activeDownloads c' = activeDownloads c.
Proof.
  unfold write_buffer. cbv zeta.
  destruct (Buffer_Read unread zero_buffer) as [[[unread1 buf1] n] eof].
  destruct (File_Write (f c) (RemoveSidx buf1)) as [[file1 count] err].
  destruct err.
  { intros [= <- <- <-]. auto. }
  destruct (write_rest _ _ _ _ _) as [[[[file2 unread2] bytesWritten2] err2]|];
    [|discriminate].
  cbn [mbind option_bind]. destruct err2; intros [= <- <- <-]; auto.
Qed.

Lemma write_found_frame (dataType : string) (fragFiles : bool) (i i' : nat)
    (data : Fragment) (fs fs' : gmap string (list byte)) (c c' : Coord) :
  write_found dataType fragFiles i data fs c = Some (i', fs', c') ->
  seqChan c' = seqChan c /\ curSeq c' = curSeq c
  /\ activeDownloads c' = activeDownloads c.
Proof.
  unfold write_found. destruct fragFiles.
  - destruct (fs !! FileName data) as [readBytes|].
    + apply write_buffer_frame.
    + intros [= <- <- <-]. auto.
  - destruct (Data data) as [unread|]; [|discriminate].
    apply write_buffer_frame.
Qed.

Lemma write_loop_frame (dataType : string) (fragFiles : bool) (fuel : nat) :
  forall (i : nat) (fs fs' : gmap string (list byte)) (c c' : Coord),
    write_loop fuel dataType fragFiles i fs c = Some (fs', c') ->
    seqChan c' = seqChan c /\ curSeq c' = curSeq c
    /\ activeDownloads c' = activeDownloads c.
Proof.
  induction fuel as [|fuel IH]; intros i fs fs' c c'; simpl;
    destruct ((i <? length (dataToWrite c))%nat && (0 <? tries c));
    try discriminate; try (intros [= <- <-]; auto).
  destruct (dataToWrite c !! i) as [data|]; [|discriminate]. simpl.
  destruct (negb (Seq data =? curFrag c)).
  - apply IH.
  - destruct (write_found dataType fragFiles i data fs c) as [[[i1 fs1] c1]|] eqn:Hw;
      [|discriminate].
    simpl. intros Hl.
    destruct (write_found_frame _ _ _ _ _ _ _ _ _ Hw) as (H1 & H2 & H3).
    destruct (IH _ _ _ _ _ Hl) as (H4 & H5 & H6).
    repeat split; congruence.
Qed.












End CoordinatorFacts.

(** ** The fuel of the loops is enough *)

Lemma dispatch_open (received : nat) (c : Coord) :
  closed c = false ->
  accounted received c ->
  Z.of_nat (length (seqChan c)) < MaxInt ->
  Z.of_nat received <= MaxInt ->
  exists c', dispatch c = Some c' /\ closed c' = false
             /\ activeDownloads c' = activeDownloads c + 1 /\ accounted received c'.
Proof.
  intros Hopen Hacc Hlen Hrecv.
  assert (Hd : exists c', dispatch c = Some c').
  { unfold dispatch. rewrite Hopen. eauto. }
  destruct Hd as [c' Hd]. exists c'.
  destruct (dispatch_accounted received c c' Hacc Hlen Hrecv Hd)
    as (Hacc' & _ & _ & Ha & _ & Hcl & _).
  repeat split; try apply Hacc'; congruence.
Qed.

(** The window loop stops within [jobs - activeDownloads] passes. *)
Lemma dispatch_window_total (jobs : Z) (received : nat) (fuel : nat) :
  forall c,
    closed c = false ->
    accounted received c ->
    activeDownloads c <= jobs ->
    0 <= jobs ->
    Z.of_nat received + jobs < 2 ^ 63 ->
    jobs - activeDownloads c <= Z.of_nat fuel ->
    exists c', dispatch_window fuel jobs c = Some c'.
Proof.
  induction fuel as [|fuel IH]; intros c Hopen Hacc Hle Hpos Hroom Hfuel; simpl;
    destruct ((curSeq c <=? int_add (maxSeqs c) 1) && (activeDownloads c <? jobs))
      eqn:Hguard; eauto;
    apply andb_true_iff in Hguard as [_ Hg]; apply Z.ltb_lt in Hg; [lia|].
  rewrite two_63_value in Hroom.
  assert (Hlen : Z.of_nat (length (seqChan c)) < MaxInt).
  { destruct Hacc as (_ & Ha). rewrite MaxInt_value. lia. }
  assert (Hrecv : Z.of_nat received <= MaxInt) by (rewrite MaxInt_value; lia).
  destruct (dispatch_open received c Hopen Hacc Hlen Hrecv)
    as (c1 & Hd & Hopen1 & Ha1 & Hacc1).
  rewrite Hd. cbn [mbind option_bind].
  apply IH; auto; try lia; rewrite two_63_value; lia.
Qed.


(** The copy loop of the write phase stops before its buffer is used up. *)
Lemma write_rest_total (fuel : nat) :
  forall (file : File) (unread buf : list byte) (bytesWritten : Z),
    (0 < length buf)%nat ->
    (length unread < fuel)%nat ->
    exists r, write_rest fuel file unread buf bytesWritten = Some r.
Proof.
  induction fuel as [|fuel IH]; intros file unread buf bytesWritten Hbuf Hfuel; [lia|].
  cbn [write_rest]. unfold Buffer_Read.
  destruct unread as [|b unread].
  - replace (length buf =? 0)%nat with false by (symmetry; apply Nat.eqb_neq; lia).
    simpl. eauto.
  - set (n := Nat.min (length buf) (length (b :: unread))).
    destruct (File_Write file (take n (take n (b :: unread) ++ drop n buf)))
      as [[file1 k] err].
    destruct err; [eauto|].
    apply IH.
    + rewrite length_app, length_take, length_drop. lia.
    + rewrite length_drop. simpl in *. lia.
Qed.


Section StallFacts.
Context `{Collaborators}.



End StallFacts.



(** ** The write phase: what a fragment becomes in the output file *)

Lemma BufferSize_pos : (0 < BufferSize)%nat.
Proof.
  apply Nat.ltb_lt. vm_compute. reflexivity.
Qed.

Lemma zero_buffer_repeat : zero_buffer = repeat x00 BufferSize.
Proof. with_strategy transparent [zero_buffer] reflexivity. Qed.

Lemma zero_buffer_length : length zero_buffer = BufferSize.
Proof. rewrite zero_buffer_repeat. apply repeat_length. Qed.

Lemma drop_repeat_zero (n k : nat) : drop n (repeat x00 k) = repeat x00 (k - n).
Proof.
  revert k. induction n as [|n IH]; intros k.
  - rewrite Nat.sub_0_r. reflexivity.
  - destruct k as [|k]; simpl; [reflexivity|apply IH].
Qed.

(** A write at the end of a file without faults appends. *)
Lemma File_Write_appends (file : File) (b : list byte) :
  f_faults file = [] ->
  f_pos file = Z.of_nat (length (f_bytes file)) ->
  File_Write file b
  = (mkFile (f_bytes file ++ b) (Z.of_nat (length (f_bytes file ++ b))) [],
     Z.of_nat (length b), false).
Proof.
  intros Hfaults Hpos. unfold File_Write. rewrite Hfaults, Hpos, Nat2Z.id.
  cbn [tail]. f_equal. f_equal.
  rewrite firstn_all. unfold write_at.
  rewrite Nat.sub_diag. simpl repeat. rewrite app_nil_r, firstn_all.
  rewrite drop_ge by lia. rewrite app_nil_r, length_app.
  f_equal. lia.
Qed.

(** The first read of a fragment's buffer into the zero buffer. *)
Lemma Buffer_Read_first (payload : list byte) :
  exists n eof,
    Buffer_Read payload zero_buffer
    = (drop BufferSize payload,
       take BufferSize payload ++ repeat x00 (BufferSize - length payload), n, eof).
Proof.
  unfold Buffer_Read. destruct payload as [|b rest] eqn:Hp.
  - eexists. eexists. rewrite zero_buffer_repeat at 2. rewrite drop_nil, take_nil.
    simpl length. rewrite Nat.sub_0_r. reflexivity.
  - rewrite <- Hp. rewrite zero_buffer_length.
    assert (Hne : payload <> []) by (rewrite Hp; discriminate).
    destruct payload as [|b' rest']; [congruence|].
    eexists. eexists. f_equal. f_equal. f_equal.
    + destruct (Nat.le_ge_cases BufferSize (length (b' :: rest'))) as [Hle|Hle].
      * rewrite Nat.min_l by exact Hle. reflexivity.
      * rewrite Nat.min_r by exact Hle. rewrite !drop_ge by lia. reflexivity.
    + rewrite zero_buffer_repeat, drop_repeat_zero.
      destruct (Nat.le_ge_cases BufferSize (length (b' :: rest'))) as [Hle|Hle].
      * rewrite Nat.min_l by exact Hle.
        replace (BufferSize - length (b' :: rest'))%nat with 0%nat by lia.
        rewrite Nat.sub_diag. reflexivity.
      * rewrite Nat.min_r by exact Hle. rewrite !take_ge by lia. reflexivity.
Qed.

(** The copy loop on a file without faults appends what is left of the
    buffer, and reports no failure. *)
Lemma write_rest_appends (fuel : nat) :
  forall (file : File) (unread buf : list byte) (bytesWritten : Z),
    f_faults file = [] ->
    f_pos file = Z.of_nat (length (f_bytes file)) ->
    (0 < length buf)%nat ->
    (length unread < fuel)%nat ->
    exists bytesWritten',
      write_rest fuel file unread buf bytesWritten
      = Some (mkFile (f_bytes file ++ unread)
                     (Z.of_nat (length (f_bytes file ++ unread))) [],
              [], bytesWritten', false).
Proof.
  induction fuel as [|fuel IH]; intros file unread buf bytesWritten Hfaults Hpos Hbuf Hfuel;
    [lia|].
  cbn [write_rest]. unfold Buffer_Read.
  destruct unread as [|b unread].
  - replace (length buf =? 0)%nat with false by (symmetry; apply Nat.eqb_neq; lia).
    cbn [negb]. exists bytesWritten. rewrite app_nil_r, <- Hpos, <- Hfaults.
    destruct file. reflexivity.
  - set (n := Nat.min (length buf) (length (b :: unread))).
    assert (Hn : (0 < n <= length (b :: unread))%nat) by (subst n; simpl in *; lia).
    assert (Htake : take n (take n (b :: unread) ++ drop n buf) = take n (b :: unread)).
    { rewrite take_app_le by (rewrite length_take; lia).
      apply take_ge. rewrite length_take. lia. }
    rewrite Htake, (File_Write_appends file _ Hfaults Hpos).
    destruct (IH (mkFile (f_bytes file ++ take n (b :: unread))
                    (Z.of_nat (length (f_bytes file ++ take n (b :: unread)))) [])
                 (drop n (b :: unread)) (take n (b :: unread) ++ drop n buf)
                 (int_add bytesWritten (Z.of_nat (length (take n (b :: unread))))))
      as (bw & Hrest).
    + reflexivity.
    + reflexivity.
    + rewrite length_app, length_take. lia.
    + rewrite length_drop. simpl in *. lia.
    + exists bw. rewrite Hrest. cbn [f_bytes].
      rewrite <- app_assoc, take_drop. reflexivity.
Qed.

Section WritePhaseFacts.
Context `{Collaborators}.

(** One fragment, written to a file without faults whose position is its
    end: the file grows by the image of the payload. *)
Lemma write_buffer_image (dataType : string) (fragFiles : bool) (i : nat)
    (data : Fragment) (payload : list byte) (fs : gmap string (list byte)) (c : Coord) :
  f_faults (f c) = [] ->
  f_pos (f c) = Z.of_nat (length (f_bytes (f c))) ->
  exists fs' c',
    write_buffer dataType fragFiles i data payload fs c = Some (0%nat, fs', c')
    /\ f_bytes (f c') = f_bytes (f c) ++ fragment_image payload
    /\ f_pos (f c') = Z.of_nat (length (f_bytes (f c')))
    /\ f_faults (f c') = []
    /\ curFrag c' = int_add (curFrag c) 1
    /\ tries c' = 10
    /\ dataToWrite c' = delete i (dataToWrite c)
    /\ length (progressChan c') = S (length (progressChan c)).
Proof.
  intros Hfaults Hpos. unfold write_buffer. cbv zeta.
  destruct (Buffer_Read_first payload) as (n & eof & ->).
  rewrite (File_Write_appends (f c) _ Hfaults Hpos).
  destruct (write_rest_appends (S (length (drop BufferSize payload)))
              (mkFile (f_bytes (f c)
                       ++ RemoveSidx (take BufferSize payload
                                      ++ repeat x00 (BufferSize - length payload)))
                 (Z.of_nat (length (f_bytes (f c)
                       ++ RemoveSidx (take BufferSize payload
                                      ++ repeat x00 (BufferSize - length payload))))) [])
              (drop BufferSize payload)
              (take BufferSize payload ++ repeat x00 (BufferSize - length payload))
              (int_add 0 (Z.of_nat (length (RemoveSidx
                 (take BufferSize payload ++ repeat x00 (BufferSize - length payload)))))))
    as (bw & Hrest).
  - reflexivity.
  - reflexivity.
  - rewrite length_app, repeat_length, length_take. pose proof BufferSize_pos. lia.
  - lia.
  - rewrite Hrest. cbn [mbind option_bind]. eexists. eexists.
    split; [reflexivity|].
    cbn [f f_bytes f_pos f_faults curFrag tries dataToWrite progressChan].
    split; [unfold fragment_image; rewrite app_assoc; reflexivity|].
    split; [reflexivity|]. split; [reflexivity|]. split; [reflexivity|].
    split; [reflexivity|]. split; [reflexivity|].
    rewrite length_app. simpl. lia.
Qed.

(** A payload of at least [BufferSize] bytes is written as the claim has
    it; a shorter one is followed by zero bytes up to [BufferSize] before
    [RemoveSidx] sees it. *)
Lemma fragment_image_long (payload : list byte) :
  (BufferSize <= length payload)%nat ->
  fragment_image payload = RemoveSidx (take BufferSize payload) ++ drop BufferSize payload.
Proof.
  intros Hlen. unfold fragment_image.
  replace (BufferSize - length payload)%nat with 0%nat by lia.
  simpl repeat. rewrite app_nil_r. reflexivity.
Qed.

Lemma fragment_image_short (payload : list byte) :
  (length payload < BufferSize)%nat ->
  fragment_image payload
  = RemoveSidx (payload ++ repeat x00 (BufferSize - length payload)).
Proof.
  intros Hlen. unfold fragment_image.
  rewrite take_ge, drop_ge by lia. apply app_nil_r.
Qed.

End WritePhaseFacts.

(** ** The write phase: fragments reach the output file in order *)

Lemma dispatch_written (c c' : Coord) :
  dispatch c = Some c' ->
  f c' = f c /\ dataToWrite c' = dataToWrite c /\ curFrag c' = curFrag c.
Proof.
  unfold dispatch. destruct (closed c); [discriminate|]. intros [= <-]. auto.
Qed.

Lemma dispatch_window_written (jobs : Z) (fuel : nat) :
  forall c c',
    dispatch_window fuel jobs c = Some c' ->
    f c' = f c /\ dataToWrite c' = dataToWrite c /\ curFrag c' = curFrag c.
Proof.
  induction fuel as [|fuel IH]; intros c c'; simpl;
    destruct ((curSeq c <=? int_add (maxSeqs c) 1) && (activeDownloads c <? jobs));
    try discriminate; try (intros [= <-]; auto).
  destruct (dispatch c) as [c1|] eqn:Hd; [|discriminate]. cbn [mbind option_bind].
  intros Hw. destruct (dispatch_written _ _ Hd) as (H1 & H2 & H3).
  destruct (IH _ _ Hw) as (H4 & H5 & H6). repeat split; congruence.
Qed.

Lemma redispatch_written (activeJobs : Z) (fuel : nat) :
  forall c c',
    redispatch fuel activeJobs c = Some c' ->
    f c' = f c /\ dataToWrite c' = dataToWrite c /\ curFrag c' = curFrag c.
Proof.
  induction fuel as [|fuel IH]; intros c c'; simpl;
    destruct (activeDownloads c <? activeJobs);
    try discriminate; try (intros [= <-]; auto).
  destruct (dispatch c) as [c1|] eqn:Hd; [|discriminate]. cbn [mbind option_bind].
  intros Hw. destruct (dispatch_written _ _ Hd) as (H1 & H2 & H3).
  destruct (IH _ _ Hw) as (H4 & H5 & H6). repeat split; congruence.
Qed.

Lemma bootstrap_written (dataType : string) (fuel : nat) :
  forall di di' c c',
    bootstrap fuel dataType di c = Some (di', c') ->
    f c' = f c /\ dataToWrite c' = dataToWrite c /\ curFrag c' = curFrag c.
Proof.
  induction fuel as [|fuel IH]; intros di di' c c'; cbn [bootstrap];
    destruct (GetActiveJobCount di dataType) as [n|]; try discriminate;
    cbn [mbind option_bind]; destruct (n <? Jobs di);
    try discriminate; try (intros [= <- <-]; auto).
  destruct (IncrementJobs di dataType) as [di1|]; [|discriminate].
  cbn [mbind option_bind].
  destruct (dispatch c) as [c1|] eqn:Hd; [|discriminate]. cbn [mbind option_bind].
  intros Hb. destruct (dispatch_written _ _ Hd) as (H1 & H2 & H3).
  destruct (IH _ _ _ _ Hb) as (H4 & H5 & H6). simpl in *. repeat split; congruence.
Qed.

Section InOrderFacts.
Context `{Collaborators}.

Lemma in_step_ext (known : list Fragment) (c c' : Coord) :
  f c' = f c -> dataToWrite c' = dataToWrite c -> curFrag c' = curFrag c ->
  in_step known c -> in_step known c'.
Proof.
  unfold in_step, holds_in_order. intros -> -> ->. auto.
Qed.

Lemma in_step_more (known more : list Fragment) (c : Coord) :
  in_step known c -> in_step (known ++ more) c.
Proof.
  intros (Hfaults & Hpos & Hpending & payloads & Hcur & Hbytes & Hcount & Hfrom).
  split; [exact Hfaults|]. split; [exact Hpos|]. split.
  - intros frag Hin. apply elem_of_app. left. auto.
  - exists payloads. split; [exact Hcur|]. split; [exact Hbytes|]. split.
    + rewrite length_app. lia.
    + intros k p Hk. destruct (Hfrom k p Hk) as (frag & Hin & Hseq & Hdata).
      exists frag. split; [apply elem_of_app; left; exact Hin|auto].
Qed.

Lemma receive_in_step (known : list Fragment) (downloading stopping : bool) (jobs : Z)
    (c c' : Coord) (data : Fragment) :
  in_step known c ->
  receive downloading stopping jobs c data = Some c' ->
  in_step (known ++ [data]) c'.
Proof.
  intros Hstep. unfold receive.
  set (c1 := set_activeDownloads (int_sub (activeDownloads c) 1)
               (set_dataToWrite (dataToWrite c ++ [data]) c)).
  assert (Hstep1 : in_step (known ++ [data]) c1).
  { destruct Hstep as (Hfaults & Hpos & Hpending & payloads & Hcur & Hbytes & Hcount & Hfrom).
    split; [exact Hfaults|]. split; [exact Hpos|]. split.
    - intros frag. unfold c1. simpl. rewrite !elem_of_app. intros [Hin|Hin]; auto.
    - exists payloads. split; [exact Hcur|]. split; [exact Hbytes|]. split.
      + unfold c1. simpl. rewrite !length_app. simpl. lia.
      + intros k p Hk. destruct (Hfrom k p Hk) as (frag & Hin & Hseq & Hdata).
        exists frag. split; [apply elem_of_app; left; exact Hin|auto]. }
  destruct (negb downloading || stopping); [intros [= <-]; exact Hstep1|].
  set (c2 := if maxSeqs c1 <? XHeadSeqNum data then set_maxSeqs (XHeadSeqNum data) c1
             else c1).
  assert (Hstep2 : in_step (known ++ [data]) c2).
  { unfold c2. destruct (maxSeqs c1 <? XHeadSeqNum data); [|exact Hstep1].
    eapply in_step_ext; [| | |exact Hstep1]; reflexivity. }
  destruct (0 <? maxSeqs c2).
  - intros Hw. destruct (dispatch_window_written _ _ _ _ Hw) as (H1 & H2 & H3).
    eapply in_step_ext; eauto.
  - intros Hd. destruct (dispatch_written _ _ Hd) as (H1 & H2 & H3).
    eapply in_step_ext; eauto.
Qed.

Lemma drain_in_step (downloading stopping : bool) (jobs : Z) (incoming : list Fragment) :
  forall (known : list Fragment) (c c' : Coord),
    in_step known c ->
    drain downloading stopping jobs incoming c = Some c' ->
    in_step (known ++ incoming) c'.
Proof.
  induction incoming as [|data rest IH]; intros known c c' Hstep; simpl.
  - intros [= <-]. rewrite app_nil_r. exact Hstep.
  - destruct (receive downloading stopping jobs c data) as [c1|] eqn:Hr; [|discriminate].
    cbn [mbind option_bind]. intros Hd.
    pose proof (receive_in_step _ _ _ _ _ _ _ Hstep Hr) as Hstep1.
    pose proof (IH _ _ _ Hstep1 Hd) as Hstep'.
    rewrite <- app_assoc in Hstep'. exact Hstep'.
Qed.

(** Writing the fragment that is due, from memory: the file grows by its
    image, and it was the fragment numbered [curFrag]. *)
Lemma write_found_in_step (known : list Fragment) (dataType : string) (i i' : nat)
    (data : Fragment) (fs fs' : gmap string (list byte)) (c c' : Coord) :
  in_step known c ->
  Z.of_nat (length known) < 2 ^ 63 ->
  dataToWrite c !! i = Some data ->
  Seq data = curFrag c ->
  write_found dataType false i data fs c = Some (i', fs', c') ->
  in_step known c'.
Proof.
  intros (Hfaults & Hpos & Hpending & payloads & Hcur & Hbytes & Hcount & Hfrom)
         Hroom Hi Hseq.
  unfold write_found. destruct (Data data) as [unread|] eqn:Hdata; [|discriminate].
  cbn [mbind option_bind].
  destruct (write_buffer_image dataType false i data unread fs c Hfaults Hpos)
    as (fs1 & c1 & Hw & Hb1 & Hp1 & Hf1 & Hc1 & Ht1 & Hd1 & _).
  rewrite Hw. intros [= <- <- <-].
  assert (Hlt : (i < length (dataToWrite c))%nat) by (eapply lookup_lt_Some; eauto).
  split; [exact Hf1|]. split; [exact Hp1|]. split.
  - intros frag. rewrite Hd1. intros Hin. apply Hpending.
    eapply list_elem_of_delete_inv. exact Hin.
  - exists (payloads ++ [unread]). rewrite two_63_value in Hroom. split.
    + rewrite Hc1, Hcur, length_app. simpl.
      rewrite int_add_exact by (rewrite MaxInt_value, MinInt_value; lia). lia.
    + split.
      * rewrite Hb1, Hbytes, map_app, concat_app. simpl. rewrite app_nil_r. reflexivity.
      * split.
        -- rewrite Hd1, length_app, length_delete by eauto. simpl. lia.
        -- intros k p Hk. apply lookup_snoc_Some in Hk as [[Hlt' Hk]|[-> <-]].
           ++ apply Hfrom. exact Hk.
           ++ exists data. split; [|split; [congruence|exact Hdata]].
              apply Hpending. eapply list_elem_of_lookup_2. exact Hi.
Qed.

Lemma write_loop_in_step (known : list Fragment) (dataType : string) (fuel : nat) :
  Z.of_nat (length known) < 2 ^ 63 ->
  forall (i : nat) (fs fs' : gmap string (list byte)) (c c' : Coord),
    in_step known c ->
    write_loop fuel dataType false i fs c = Some (fs', c') ->
    in_step known c'.
Proof.
  intros Hroom. induction fuel as [|fuel IH]; intros i fs fs' c c' Hstep;
    cbn [write_loop];
    destruct ((i <? length (dataToWrite c))%nat && (0 <? tries c));
    try discriminate; try (intros [= <- <-]; exact Hstep).
  destruct (dataToWrite c !! i) as [data|] eqn:Hi; [|discriminate].
  cbn [mbind option_bind].
  destruct (negb (Seq data =? curFrag c)) eqn:Hseq.
  - apply IH. exact Hstep.
  - destruct (write_found dataType false i data fs c) as [[[i1 fs1] c1]|] eqn:Hw;
      [|discriminate].
    cbn [mbind option_bind]. apply IH.
    apply negb_false_iff, Z.eqb_eq in Hseq.
    eapply write_found_in_step; eauto.
Qed.

Lemma iteration_in_step (known : list Fragment) (dataType : string)
    (incoming : list Fragment) (hour : bool) (di di' : DownloadInfo)
    (fs fs' : gmap string (list byte)) (c c' : Coord) (exit : bool) :
  FragFiles di = false ->
  Z.of_nat (length (known ++ incoming)) < 2 ^ 63 ->
  in_step known c ->
  iteration dataType incoming hour di fs c = Some (exit, di', fs', c') ->
  in_step (known ++ incoming) c'.
Proof.
  intros Hmem Hroom Hstep. unfold iteration.
  destruct (IsFinished di dataType) as [fin|]; [|discriminate]. cbn [mbind option_bind].
  destruct (if negb fin then Some true
            else n ← GetActiveJobCount di dataType; Some (0 <? n))
    as [downloading|]; [|discriminate].
  cbn [mbind option_bind].
  assert (Hstep1 : in_step known (close_if_done (IsStopping di) downloading c)).
  { unfold close_if_done.
    destruct ((IsStopping di || negb downloading) && negb (closed c)); [|exact Hstep].
    eapply in_step_ext; [| | |exact Hstep]; reflexivity. }
  destruct (drain downloading (IsStopping di) (Jobs di) incoming
              (close_if_done (IsStopping di) downloading c)) as [c2|] eqn:Hdrain;
    [|discriminate].
  cbn [mbind option_bind].
  pose proof (drain_in_step _ _ _ _ _ _ _ Hstep1 Hdrain) as Hstep2.
  destruct (negb downloading); [intros [= <- <- <- <-]; exact Hstep2|].
  destruct ((length (dataToWrite c2) =? 0)%nat || negb (negb (length incoming =? 0)%nat)).
  - destruct (negb (IsStopping di) && (activeDownloads c2 <=? 0)).
    + destruct (GetActiveJobCount di dataType) as [aj|]; [|discriminate].
      cbn [mbind option_bind].
      destruct (redispatch (Z.to_nat (aj - activeDownloads c2)) aj c2) as [c3|] eqn:Hre;
        [|discriminate].
      cbn [mbind option_bind]. intros [= <- <- <- <-].
      destruct (redispatch_written _ _ _ _ Hre) as (H1 & H2 & H3).
      eapply in_step_ext; [| | |exact Hstep2]; simpl; congruence.
    + cbn [mbind option_bind]. intros [= <- <- <- <-].
      eapply in_step_ext; [| | |exact Hstep2]; reflexivity.
  - rewrite Hmem.
    destruct (write_loop (write_fuel c2) dataType false 0 fs c2)
      as [[fs4 c4]|] eqn:Hw; [|discriminate].
    cbn [mbind option_bind].
    pose proof (write_loop_in_step _ _ _ Hroom _ _ _ _ _ Hstep2 Hw) as Hstep4.
    destruct (tries c4 <=? 0).
    + destruct (Stop _); [|discriminate]. cbn [mbind option_bind].
      intros [= <- <- <- <-]. exact Hstep4.
    + cbn [mbind option_bind]. intros [= <- <- <- <-]. exact Hstep4.
Qed.

Lemma main_loop_in_step (dataType : string) (rounds : list Round) :
  forall (known : list Fragment) (di di' : DownloadInfo)
         (fs fs' : gmap string (list byte)) (c c' : Coord) (exit : bool),
    Forall (fun r => FragFiles (rd_di r) = false) rounds ->
    Z.of_nat (length (known ++ all_received rounds)) < 2 ^ 63 ->
    in_step known c ->
    main_loop rounds dataType di fs c = Some (exit, di', fs', c') ->
    in_step (known ++ all_received rounds) c'.
Proof.
  induction rounds as [|r rest IH];
    intros known di di' fs fs' c c' exit Hmem Hroom Hstep.
  - simpl. intros [= <- <- <- <-]. unfold all_received. simpl.
    rewrite app_nil_r. exact Hstep.
  - cbn [main_loop].
    destruct (iteration dataType (rd_received r) (rd_hour r) (rd_di r) (rd_fs r) c)
      as [[[[exit1 di1] fs1] c1]|] eqn:Hit; [|discriminate].
    cbn [mbind option_bind].
    inversion Hmem as [|? ? Hr Hrest]; subst.
    assert (Hall : all_received (r :: rest) = rd_received r ++ all_received rest)
      by reflexivity.
    rewrite Hall in *. rewrite app_assoc in Hroom.
    assert (Hroom1 : Z.of_nat (length (known ++ rd_received r)) < 2 ^ 63).
    { rewrite length_app in Hroom. lia. }
    pose proof (iteration_in_step _ _ _ _ _ _ _ _ _ _ _ Hr Hroom1 Hstep Hit) as Hstep1.
    destruct exit1.
    + intros [= <- <- <- <-]. rewrite app_assoc. apply in_step_more. exact Hstep1.
    + intros Hloop. rewrite app_assoc. eapply IH; eauto.
Qed.

(** X7: the ordering guarantee, as the code has it. With fragments kept in
    memory and an output file that never fails, after any number of passes
    the output file is the concatenation of the images of [curFrag]
    payloads, and the payload at place [k] is that of a fragment received
    with sequence number [k]: fragments are written once each, in the order
    of their sequence numbers from 0, whatever the order they arrived in. *)
Theorem output_holds_fragments_in_order (dataType : string) (fuel : nat)
    (di di1 di' : DownloadInfo) (fs fs' : gmap string (list byte))
    (rounds : list Round) (c0 c : Coord) (exit : bool) :
  Forall (fun r => FragFiles (rd_di r) = false) rounds ->
  Z.of_nat (length (all_received rounds)) < 2 ^ 63 ->
  bootstrap fuel dataType di (initCoord new_file) = Some (di1, c0) ->
  main_loop rounds dataType di1 fs c0 = Some (exit, di', fs', c) ->
  exists payloads : list (list byte),
    curFrag c = Z.of_nat (length payloads)
    /\ f_bytes (f c) = concat (map fragment_image payloads)
    /\ forall (k : nat) (p : list byte),
         payloads !! k = Some p ->
         exists frag,
           frag ∈ all_received rounds /\ Seq frag = Z.of_nat k /\ Data frag = Some p.
Proof.
  intros Hmem Hroom Hboot Hloop.
  assert (Hstep0 : in_step [] c0).
  { destruct (bootstrap_written _ _ _ _ _ _ Hboot) as (H1 & H2 & H3).
    apply (in_step_ext [] (initCoord new_file)); auto.
    split; [reflexivity|]. split; [reflexivity|]. split.
    - intros frag Hin. simpl in Hin. inversion Hin.
    - exists []. simpl. repeat split; auto.
      intros k p Hk. rewrite lookup_nil in Hk. discriminate. }
  destruct (main_loop_in_step dataType rounds [] di1 di' fs fs' c0 c exit Hmem Hroom
              Hstep0 Hloop)
    as (_ & _ & _ & payloads & Hcur & Hbytes & _ & Hfrom).
  exists payloads. auto.
Qed.

End InOrderFacts.

Section FinishFacts.
Context `{Collaborators}.

Lemma drain_not_downloading (stopping : bool) (jobs : Z) (incoming : list Fragment) :
  forall c,
    exists c',
      drain false stopping jobs incoming c = Some c'
      /\ curFrag c' = curFrag c /\ f c' = f c /\ progressChan c' = progressChan c
      /\ seqChan c' = seqChan c /\ dataToWrite c' = dataToWrite c ++ incoming.
Proof.
  induction incoming as [|data rest IH]; intros c.
  - exists c. simpl. rewrite app_nil_r. auto 10.
  - cbn [drain]. unfold receive. cbn [negb orb mbind option_bind].
    destruct (IH (set_activeDownloads (int_sub (activeDownloads c) 1)
                    (set_dataToWrite (dataToWrite c ++ [data]) c)))
      as (c' & Hd & H1 & H2 & H3 & H4 & H5).
    exists c'. split; [exact Hd|]. simpl in *.
    rewrite H5, <- app_assoc. auto 10.
Qed.

(** C3, as the code has it. A worker handed a request whose sequence has
    reached a known head, on a stream that is no longer live, marks the
    track finished and leaves its loop: it makes no request and publishes
    nothing for that sequence. And a pass of the coordinator that finds the
    track finished with no active job leaves the main loop before the
    write phase: whatever it has received, [curFrag] and the output file
    stay as they were. *)
Theorem finished_at_head_without_fetching (di : DownloadInfo) (dataType : string)
    (script : list Attempt) (state : fragThreadState) (fs : gmap string (list byte))
    (seqInfo : seqChanInfo) (m : MediaDLInfo) :
  MDLInfo di !! dataType = Some m ->
  Finished m = false ->
  IsStopping di = false ->
  IsLive di = false ->
  -1 < MaxSequence seqInfo <= CurSequence seqInfo ->
  (exists di',
     DownloadFrags_body di script dataType state fs seqInfo
     = Some (false, di', mkFragResult state fs [])
     /\ IsFinished di' dataType = Some true)
  /\ forall (di2 : DownloadInfo) (fs2 : gmap string (list byte))
            (incoming : list Fragment) (hour : bool) (c : Coord) (aj : Z),
       IsFinished di2 dataType = Some true ->
       GetActiveJobCount di2 dataType = Some aj ->
       aj <= 0 ->
       exists c',
         iteration dataType incoming hour di2 fs2 c = Some (true, di2, fs2, c')
         /\ curFrag c' = curFrag c /\ f c' = f c
         /\ progressChan c' = progressChan c /\ seqChan c' = seqChan c.
Proof.
  intros Hm Hfin Hstop Hlive Hhead. split.
  - unfold DownloadFrags_body, IsFinished. rewrite Hstop, Hm.
    cbn [fmap option_fmap option_map mbind option_bind]. rewrite Hfin, Hlive. cbn [negb].
    replace (-1 <? MaxSequence seqInfo) with true by (symmetry; apply Z.ltb_lt; lia).
    replace (MaxSequence seqInfo <=? CurSequence seqInfo) with true
      by (symmetry; apply Z.leb_le; lia).
    cbn [andb]. unfold SetFinished. rewrite (update_track_present _ _ _ _ Hm).
    cbn [mbind option_bind]. eexists. split; [reflexivity|].
    simpl. rewrite lookup_insert_eq. reflexivity.
  - intros di2 fs2 incoming hour c aj Hfin2 Haj Hle.
    unfold iteration. rewrite Hfin2, Haj. cbn [mbind option_bind negb].
    replace (0 <? aj) with false by (symmetry; apply Z.ltb_ge; lia).
    destruct (drain_not_downloading (IsStopping di2) (Jobs di2) incoming
                (close_if_done (IsStopping di2) false c))
      as (c' & Hd & H1 & H2 & H3 & H4 & _).
    rewrite Hd. cbn [mbind option_bind negb].
    exists c'. split; [reflexivity|].
    unfold close_if_done in *.
    destruct ((IsStopping di2 || negb false) && negb (closed c)); simpl in *; auto.
Qed.

End FinishFacts.

Lemma finished_at_head_without_fetching_witness :
  exists di',
    DownloadFrags_body over_di (attempts_for over_di server_abcde 4) DtypeAudio
      live_worker ∅ request_for_head
    = Some (false, di', mkFragResult live_worker ∅ [])
    /\ IsFinished di' DtypeAudio = Some true.
Proof.
  apply (finished_at_head_without_fetching over_di DtypeAudio
           (attempts_for over_di server_abcde 4) live_worker ∅ request_for_head
           (default zeroMediaDLInfo (MDLInfo over_di !! DtypeAudio))).
  - vm_compute. reflexivity.
  - reflexivity.
  - reflexivity.
  - reflexivity.
  - vm_compute. split; [reflexivity|discriminate].
Defined.

(** C3, as the claim has it, fails: one worker, every answer advertising
    the head 4, the stream not live. The worker fetches sequences 0 to 3, is
    handed the request for sequence 4, marks the track finished and leaves;
    the coordinator leaves its loop with [curFrag = 4], not 5, and the output
    file holds four fragments. *)
Lemma one_worker_stops_short_of_the_head :
  (fun p => (p_exited p, curFrag (p_coord p), seqChan (p_coord p), p_workers p,
             requests (p_trace p), map Seq (published (p_trace p)),
             map XHeadSeqNum (published (p_trace p)),
             IsFinished (p_di p) DtypeAudio, IsLive (p_di p),
             GetActiveJobCount (p_di p) DtypeAudio,
             bytes_eqb (f_bytes (f (p_coord p)))
               (padded "a" ++ padded "b" ++ padded "c" ++ padded "d")))
    <$> run_K4_one_job
  = Some (true, 4,
          [mkSeqChanInfo 0 (-1); mkSeqChanInfo 1 4; mkSeqChanInfo 2 4; mkSeqChanInfo 3 4;
           mkSeqChanInfo 4 4],
          [WExited],
          ["https://r1.example.com/videoplayback?id=1&sq=0";
           "https://r1.example.com/videoplayback?id=1&sq=1";
           "https://r1.example.com/videoplayback?id=1&sq=2";
           "https://r1.example.com/videoplayback?id=1&sq=3"]%string,
          [0; 1; 2; 3], [4; 4; 4; 4], Some true, false, Some 0, true).
Proof. vm_compute. reflexivity. Qed.

(** C1, at the failing input: five workers fetch the one-byte fragments a,
    b, c, d, e and the coordinator writes them in one pass. [curFrag] is 5
    and the fragments are in order, but each fragment takes 8192 bytes of the
    output file, its byte followed by zero bytes, and each progress message
    counts 8192 bytes: the file is not the five bytes [abcde]. *)
Theorem one_byte_fragments_are_written_padded :
  (fun p => (curFrag (p_coord p),
             map ByteCount (progressChan (p_coord p)),
             map MaxSeq_p (progressChan (p_coord p)),
             map Seq (published (p_trace p)),
             Z.of_nat (length (f_bytes (f (p_coord p)))),
             bytes_eqb (f_bytes (f (p_coord p)))
               (padded "a" ++ padded "b" ++ padded "c" ++ padded "d" ++ padded "e"),
             bytes_eqb (f_bytes (f (p_coord p)))
               ["a"%byte; "b"%byte; "c"%byte; "d"%byte; "e"%byte]))
    <$> run_abcde_five_jobs
  = Some (5, [8192; 8192; 8192; 8192; 8192], [4; 4; 4; 4; 4], [0; 1; 2; 3; 4], 40960,
          true, false).
Proof. vm_compute. reflexivity. Qed.

(** C4, at the failing input: the write of fragment 2 fails nine times, each
    time after five bytes, then succeeds. [curFrag] becomes 3 as it does
    without failures, but every failure left the position ten bytes further
    (five written, five more by [Seek(bytesWritten, 1)]), so the file position
    at success is 90 bytes past the one reached without failures, and
    fragment 2 starts 90 bytes late. A tenth failure uses up the tries and
    [Stop] is called. *)
Theorem failed_writes_move_the_position_forward :
  (fun p => (curFrag (p_coord p), tries (p_coord p), f_pos (f (p_coord p)),
             f_bytes (f (p_coord p)) !! Z.to_nat (2 * 8192), IsStopping (p_di p)))
    <$> run_three_fragments new_file
  = Some (3, 10, 3 * 8192, Some "c"%byte, false)
  /\ (fun p => (curFrag (p_coord p), tries (p_coord p), f_pos (f (p_coord p)),
                f_bytes (f (p_coord p)) !! Z.to_nat (2 * 8192),
                f_bytes (f (p_coord p)) !! Z.to_nat (2 * 8192 + 90),
                IsStopping (p_di p)))
       <$> run_three_fragments faulty_file
     = Some (3, 10, 3 * 8192 + 90, Some "c"%byte, Some "c"%byte, false)
  /\ (fun p => (curFrag (p_coord p), tries (p_coord p), IsStopping (p_di p),
                IsFinished (p_di p) DtypeAudio, IsFinished (p_di p) DtypeVideo))
       <$> run_three_fragments failing_file
     = Some (2, 0, true, Some true, Some true).
Proof. repeat split; vm_compute; reflexivity. Qed.

Lemma wrap64_wrap64_add (a b : Z) : wrap64 (wrap64 a + b) = wrap64 (a + b).
Proof.
  unfold wrap64. f_equal.
  replace ((a + 2 ^ 63) mod 2 ^ 64 - 2 ^ 63 + b + 2 ^ 63)
    with ((a + 2 ^ 63) mod 2 ^ 64 + b) by lia.
  rewrite Zplus_mod_idemp_l. f_equal. lia.
Qed.

Section CallFacts.
Context `{Collaborators}.

Lemma update_track_other (g : MediaDLInfo -> MediaDLInfo) (di di' : DownloadInfo)
    (dataType other : string) :
  update_track g di dataType = Some di' ->
  other <> dataType ->
  MDLInfo di' !! other = MDLInfo di !! other.
Proof.
  intros Hup Hne. destruct (update_track_inv _ _ _ _ Hup) as (m & Hm & ->).
  simpl. apply lookup_insert_ne. congruence.
Qed.

Lemma update_track_same (g : MediaDLInfo -> MediaDLInfo) (di di' : DownloadInfo)
    (dataType : string) (m : MediaDLInfo) :
  update_track g di dataType = Some di' ->
  MDLInfo di !! dataType = Some m ->
  MDLInfo di' !! dataType = Some (g m).
Proof.
  intros Hup Hm. destruct (update_track_inv _ _ _ _ Hup) as (m' & Hm' & ->).
  simpl. rewrite lookup_insert_eq. congruence.
Qed.

Lemma update_track_rest (g : MediaDLInfo -> MediaDLInfo) (di di' : DownloadInfo)
    (dataType : string) :
  update_track g di dataType = Some di' ->
  (Stopping di', Live di', Unavailable di', FragFiles di', Jobs di', TargetDuration di')
  = (Stopping di, Live di, Unavailable di, FragFiles di, Jobs di, TargetDuration di)
  /\ dom (MDLInfo di') = dom (MDLInfo di).
Proof.
  intros Hup. destruct (update_track_inv _ _ _ _ Hup) as (m & Hm & ->). simpl.
  split; [reflexivity|].
  rewrite dom_insert_L. apply subseteq_union_1_L, singleton_subseteq_l, elem_of_dom.
  eauto.
Qed.

(** One track through an update of a track. *)
Lemma update_track_at (g : MediaDLInfo -> MediaDLInfo) (di di' : DownloadInfo)
    (dataType dt : string) (m : MediaDLInfo) :
  update_track g di dataType = Some di' ->
  MDLInfo di !! dt = Some m ->
  MDLInfo di' !! dt = Some (if String.eqb dataType dt then g m else m).
Proof.
  intros Hup Hm. destruct (String.eqb_spec dataType dt) as [->|Hne].
  - eapply update_track_same; eauto.
  - rewrite (update_track_other _ _ _ _ _ Hup) by congruence. exact Hm.
Qed.

Lemma Stop_inv (di di' : DownloadInfo) :
  Stop di = Some di' ->
  exists di1,
    SetFinished (set_Stopping true di) DtypeAudio = Some di1
    /\ SetFinished di1 DtypeVideo = Some di'.
Proof.
  unfold Stop. destruct (SetFinished (set_Stopping true di) DtypeAudio) as [di1|] eqn:H1;
    [|discriminate].
  cbn [mbind option_bind]. eauto.
Qed.

(** One track through one call. *)
Lemma call_at (k : Call) (di di' : DownloadInfo) (dt : string) (m : MediaDLInfo) :
  call k di = Some di' ->
  MDLInfo di !! dt = Some m ->
  MDLInfo di' !! dt = Some (track_after_call dt k m).
Proof.
  intros Hcall Hm.
  destruct k as [d|d|d u|d p|d|]; cbn [call track_after_call] in *;
    try (rewrite (update_track_at _ _ _ _ _ _ Hcall Hm); reflexivity).
  apply Stop_inv in Hcall as (di1 & H1 & H2).
  assert (Hm1 : MDLInfo di1 !! dt
                = Some (if String.eqb DtypeAudio dt then set_Finished true m else m)).
  { apply (update_track_at _ _ _ _ _ _ H1). exact Hm. }
  rewrite (update_track_at _ _ _ _ _ _ H2 Hm1).
  destruct (String.eqb DtypeAudio dt), (String.eqb DtypeVideo dt); reflexivity.
Qed.

Lemma call_rest (k : Call) (di di' : DownloadInfo) :
  call k di = Some di' ->
  (Stopping di = true -> Stopping di' = true)
  /\ (Live di', Unavailable di', FragFiles di', Jobs di', TargetDuration di')
     = (Live di, Unavailable di, FragFiles di, Jobs di, TargetDuration di)
  /\ dom (MDLInfo di') = dom (MDLInfo di).
Proof.
  intros Hcall.
  destruct k as [d|d|d u|d p|d|]; cbn [call] in Hcall;
    try (apply update_track_rest in Hcall as [[= -> -> -> -> -> ->] ->];
         split; [auto|split; reflexivity]).
  apply Stop_inv in Hcall as (di1 & H1 & H2).
  apply update_track_rest in H1 as [[= E1 E2 E3 E4 E5 E6] D1].
  apply update_track_rest in H2 as [[= -> -> -> -> -> ->] ->].
  rewrite E1, E2, E3, E4, E5, E6, D1. simpl. auto.
Qed.

Lemma call_total (k : Call) (di : DownloadInfo) :
  is_Some (call k di) <-> Forall (fun dt => is_Some (MDLInfo di !! dt)) (tracks_of k).
Proof.
  assert (Hup : forall g d, is_Some (update_track g di d) <-> is_Some (MDLInfo di !! d)).
  { intros g d. unfold update_track. destruct (MDLInfo di !! d); simpl; split; eauto;
      intros [? ?]; discriminate. }
  destruct k as [d|d|d u|d p|d|]; cbn [call tracks_of];
    try (rewrite Forall_singleton; apply Hup).
  unfold Stop. split.
  - intros [di' Hs].
    destruct (SetFinished (set_Stopping true di) DtypeAudio) as [di1|] eqn:H1;
      [|discriminate].
    cbn [mbind option_bind] in Hs.
    destruct (update_track_inv _ _ _ _ H1) as (ma & Hma & _).
    destruct (update_track_inv _ _ _ _ Hs) as (mv & Hmv & _).
    rewrite (update_track_other _ _ _ _ _ H1) in Hmv by (symmetry; apply Dtype_distinct).
    repeat constructor; simpl in *; eauto.
  - intros Hall. inversion Hall as [|? ? [ma Hma] Hall']; subst.
    inversion Hall' as [|? ? [mv Hmv] _]; subst.
    assert (H1 : SetFinished (set_Stopping true di) DtypeAudio
                 = Some (set_MDLInfo (<[DtypeAudio := set_Finished true ma]> (MDLInfo di))
                           (set_Stopping true di)))
      by (apply (update_track_present _ (set_Stopping true di)); exact Hma).
    rewrite H1. cbn [mbind option_bind]. unfold SetFinished, update_track. simpl.
    rewrite lookup_insert_ne by apply Dtype_distinct. rewrite Hmv. simpl. eauto.
Qed.

(** X1: any sequence of calls on the shared record goes through when every
    track it names is in the record, and panics otherwise; it adds and
    removes no track; the stopping flag and the finished flag of a
    track, once set, stay set; and the other settings are not touched. *)
Theorem calls_keep_tracks_and_flags (ks : list Call) (di : DownloadInfo) :
  (is_Some (calls ks di)
   <-> Forall (fun k => Forall (fun dt => is_Some (MDLInfo di !! dt)) (tracks_of k)) ks)
  /\ forall di',
       calls ks di = Some di' ->
       dom (MDLInfo di') = dom (MDLInfo di)
       /\ (Stopping di = true -> Stopping di' = true)
       /\ (forall dt, IsFinished di dt = Some true -> IsFinished di' dt = Some true)
       /\ (Live di', Unavailable di', FragFiles di', Jobs di', TargetDuration di')
          = (Live di, Unavailable di, FragFiles di, Jobs di, TargetDuration di).
Proof.
  revert di. induction ks as [|k rest IH]; intros di.
  - split.
    + simpl. split; [constructor|eauto].
    + simpl. intros di' [= <-]. auto.
  - cbn [calls]. split.
    + rewrite Forall_cons, <- call_total.
      destruct (call k di) as [di1|] eqn:Hk; cbn [mbind option_bind].
      * destruct (IH di1) as [Htot _]. rewrite Htot.
        destruct (call_rest _ _ _ Hk) as (_ & _ & Hdom).
        assert (Hsame : forall dt, is_Some (MDLInfo di1 !! dt) <-> is_Some (MDLInfo di !! dt)).
        { intros dt. rewrite <- !elem_of_dom, Hdom. reflexivity. }
        split.
        -- intros Hall. split; [eauto|].
           eapply Forall_impl; [exact Hall|]. intros k' Hk'.
           eapply Forall_impl; [exact Hk'|]. intros dt. apply Hsame.
        -- intros [_ Hall].
           eapply Forall_impl; [exact Hall|]. intros k' Hk'.
           eapply Forall_impl; [exact Hk'|]. intros dt. apply Hsame.
      * split; [intros [? ?]; discriminate|]. intros [[? ?] _]. discriminate.
    + intros di'. destruct (call k di) as [di1|] eqn:Hk; [|discriminate].
      cbn [mbind option_bind]. intros Hrest.
      destruct (IH di1) as [_ Hkeep]. destruct (Hkeep _ Hrest) as (Hd & Hs & Hf & Ho).
      destruct (call_rest _ _ _ Hk) as (Hs1 & Ho1 & Hd1).
      split; [congruence|]. split; [auto|]. split; [|congruence].
      intros dt Hfin. apply Hf. unfold IsFinished in *.
      destruct (MDLInfo di !! dt) as [m|] eqn:Hm; [|discriminate].
      rewrite (call_at _ _ _ _ _ Hk Hm). simpl in *.
      injection Hfin as Hfin.
      destruct k as [d|d|d u|d p|d|]; cbn [track_after_call];
        repeat match goal with
               | |- context [if ?b then _ else _] => destruct b
               end; try destruct (url_Parse u); simpl; try rewrite Hfin; reflexivity.
Qed.

Lemma calls_at (ks : list Call) :
  forall (di di' : DownloadInfo) (dt : string) (m : MediaDLInfo),
    calls ks di = Some di' ->
    MDLInfo di !! dt = Some m ->
    MDLInfo di' !! dt = Some (fold_left (fun m k => track_after_call dt k m) ks m).
Proof.
  induction ks as [|k rest IH]; intros di di' dt m.
  - simpl. intros [= <-] Hm. exact Hm.
  - cbn [calls]. destruct (call k di) as [di1|] eqn:Hk; [|discriminate].
    cbn [mbind option_bind]. intros Hrest Hm. simpl.
    eapply IH; [exact Hrest|]. eapply call_at; eauto.
Qed.

(** X2: the count of active jobs is exact. After any calls it is the count
    before plus the track's increments minus its decrements, in 64-bit
    arithmetic: nothing keeps it from going below zero, and as many
    decrements as increments give the count back, even across an
    overflow. *)
Theorem job_count_is_the_balance (ks : list Call) (di di' : DownloadInfo)
    (dataType : string) (n : Z) :
  GetActiveJobCount di dataType = Some n ->
  MinInt <= n <= MaxInt ->
  calls ks di = Some di' ->
  GetActiveJobCount di' dataType = Some (wrap64 (n + jobs_balance dataType ks))
  /\ (jobs_balance dataType ks = 0 -> GetActiveJobCount di' dataType = Some n).
Proof.
  intros Hn Hrange Hcalls. unfold GetActiveJobCount in *.
  destruct (MDLInfo di !! dataType) as [m|] eqn:Hm; [|discriminate].
  injection Hn as <-.
  rewrite (calls_at _ _ _ _ _ Hcalls Hm). cbn [fmap option_fmap option_map].
  assert (Hfold : forall ks m,
            MinInt <= ActiveJobs m <= MaxInt ->
            ActiveJobs (fold_left (fun m k => track_after_call dataType k m) ks m)
            = wrap64 (ActiveJobs m + jobs_balance dataType ks)).
  { clear. induction ks as [|k rest IH]; intros m Hm.
    - simpl. rewrite Z.add_0_r. symmetry. apply wrap64_id. exact Hm.
    - cbn [fold_left].
      assert (Hstep : ActiveJobs (track_after_call dataType k m)
                      = wrap64 (ActiveJobs m
                                + (jobs_balance dataType (k :: rest)
                                   - jobs_balance dataType rest))).
      { destruct k as [d|d|d u|d p|d|]; cbn [track_after_call jobs_balance];
          repeat match goal with
                 | |- context [if ?b then _ else _] => destruct b
                 end; try destruct (url_Parse u); simpl; unfold int_add, int_sub;
          try (f_equal; lia);
          rewrite Z.sub_diag, Z.add_0_r; symmetry; apply wrap64_id; exact Hm. }
      rewrite IH by (rewrite Hstep; apply wrap64_range).
      rewrite Hstep, wrap64_wrap64_add. f_equal. lia. }
  rewrite (Hfold ks m Hrange). split; [reflexivity|].
  intros ->. rewrite Z.add_0_r, (wrap64_id _ Hrange). reflexivity.
Qed.

(** X3: the last write wins. After any calls a track's base path is the
    last one written to it, its template the last one written to it, and
    its host that of the last template written to it that [url.Parse]
    accepted; each is what it was when the calls write none. *)
Theorem last_write_wins (ks : list Call) (di di' : DownloadInfo)
    (dataType : string) (m : MediaDLInfo) :
  MDLInfo di !! dataType = Some m ->
  calls ks di = Some di' ->
  GetBaseFilePath di' dataType = Some (last_base_path dataType ks (BasePath m))
  /\ GetDownloadUrl di' dataType = Some (last_template dataType ks (DownloadURL m))
  /\ GetDownloadUrlHost di' dataType = Some (last_host dataType ks (URLHost m)).
Proof.
  intros Hm Hcalls.
  unfold GetBaseFilePath, GetDownloadUrl, GetDownloadUrlHost.
  rewrite (calls_at _ _ _ _ _ Hcalls Hm). cbn [fmap option_fmap option_map].
  clear. revert m. induction ks as [|k rest IH]; intros m; [auto|].
  cbn [fold_left]. destruct (IH (track_after_call dataType k m)) as (E1 & E2 & E3).
  rewrite E1, E2, E3.
  destruct k as [d|d|d u|d p|d|];
    cbn [track_after_call last_base_path last_template last_host];
    repeat match goal with
           | |- context [if ?b then _ else _] => destruct b
           end; simpl; auto.
  destruct (url_Parse u); simpl; auto.
Qed.

End CallFacts.

Lemma job_count_is_the_balance_witness :
  exists di',
    calls track_history NewDownloadInfo = Some di'
    /\ GetActiveJobCount di' DtypeAudio = Some 0.
Proof.
  exists (default NewDownloadInfo (calls track_history NewDownloadInfo)).
  assert (E : calls track_history NewDownloadInfo
              = Some (default NewDownloadInfo (calls track_history NewDownloadInfo)))
    by (vm_compute; reflexivity).
  split; [exact E|].
  apply (job_count_is_the_balance track_history NewDownloadInfo _ DtypeAudio 0).
  - reflexivity.
  - vm_compute. split; discriminate.
  - exact E.
  - reflexivity.
Defined.

Lemma last_write_wins_witness :
  exists di',
    calls track_history NewDownloadInfo = Some di'
    /\ GetBaseFilePath di' DtypeAudio = Some "out.f140"%string
    /\ GetDownloadUrl di' DtypeAudio = Some unparseable_url
    /\ GetDownloadUrlHost di' DtypeAudio = Some "r1.example.com"%string.
Proof.
  exists (default NewDownloadInfo (calls track_history NewDownloadInfo)).
  assert (E : calls track_history NewDownloadInfo
              = Some (default NewDownloadInfo (calls track_history NewDownloadInfo)))
    by (vm_compute; reflexivity).
  split; [exact E|].
  exact (last_write_wins track_history NewDownloadInfo _ DtypeAudio zeroMediaDLInfo
           eq_refl E).
Defined.

(** ** Decimal numbers: [%d] and [strconv.Atoi] *)

Lemma digits_value_of_uint_acc (d : Decimal.uint) :
  forall p : positive,
    digits_value (NilEmpty.string_of_uint d) (Z.pos p) = Some (Z.pos (Pos.of_uint_acc d p)).
Proof.
  induction d; intros p; cbn [NilEmpty.string_of_uint digits_value Pos.of_uint_acc];
    [reflexivity|..];
    match goal with
    | |- context [is_digit ?c] => change (is_digit c) with true
    end; cbv iota;
    match goal with
    | |- digits_value _ ?a = Some (Z.pos (Pos.of_uint_acc _ ?q)) =>
        replace a with (Z.pos q) by (cbn; lia)
    end; apply IHd.
Qed.

Lemma digits_value_of_uint (d : Decimal.uint) :
  digits_value (NilEmpty.string_of_uint d) 0 = Some (Z.of_N (Pos.of_uint d)).
Proof.
  induction d; cbn [NilEmpty.string_of_uint digits_value Pos.of_uint];
    [reflexivity|..];
    match goal with
    | |- context [is_digit ?c] => change (is_digit c) with true
    end; cbv iota;
    [exact IHd|..];
    match goal with
    | |- digits_value _ ?a = Some (Z.of_N (N.pos (Pos.of_uint_acc _ ?q))) =>
        replace a with (Z.pos q) by (cbn; lia)
    end; rewrite digits_value_of_uint_acc; reflexivity.
Qed.

Lemma digit_is_no_sign (c : ascii) (r : string) :
  is_digit c = true ->
  match String c r with
  | String "-" r' => (true, r')
  | String "+" r' => (false, r')
  | _ => (false, String c r)
  end = (false, String c r).
Proof.
  destruct c as [[] [] [] [] [] [] [] []]; intros Hd; try reflexivity;
    vm_compute in Hd; discriminate.
Qed.

Lemma string_of_uint_digits (d : Decimal.uint) :
  d <> Decimal.Nil ->
  exists c r, NilEmpty.string_of_uint d = String c r /\ is_digit c = true.
Proof.
  destruct d; [congruence|..]; intros _; eexists; eexists; split; reflexivity.
Qed.

Lemma itoa_pos (p : positive) : itoa (Z.pos p) = NilEmpty.string_of_uint (Pos.to_uint p).
Proof.
  unfold itoa. cbn [Z.to_int NilZero.string_of_int].
  unfold NilZero.string_of_uint.
  pose proof (DecimalPos.Unsigned.to_uint_nonnil p) as Hne.
  destruct (Pos.to_uint p); [congruence|reflexivity..].
Qed.

Lemma itoa_neg (p : positive) :
  itoa (Z.neg p) = String "-" (NilEmpty.string_of_uint (Pos.to_uint p)).
Proof.
  unfold itoa. cbn [Z.to_int NilZero.string_of_int].
  unfold NilZero.string_of_uint.
  pose proof (DecimalPos.Unsigned.to_uint_nonnil p) as Hne.
  destruct (Pos.to_uint p); [congruence|reflexivity..].
Qed.

Lemma Atoi_unsigned (c : ascii) (r : string) (v : Z) :
  is_digit c = true ->
  digits_value (String c r) 0 = Some v ->
  Atoi (String c r) = if 2 ^ 63 <=? v then (MaxInt, Some ErrRange) else (v, None).
Proof.
  intros Hc Hv. unfold Atoi. rewrite (digit_is_no_sign c r Hc), Hv. reflexivity.
Qed.

Lemma Atoi_negative (c : ascii) (r : string) (v : Z) :
  digits_value (String c r) 0 = Some v ->
  Atoi (String "-" (String c r))
  = if 2 ^ 63 <? v then (MinInt, Some ErrRange) else (- v, None).
Proof.
  intros Hv. unfold Atoi.
  change (match String "-" (String c r) with
          | String "-" r' => (true, r')
          | String "+" r' => (false, r')
          | _ => (false, String "-" (String c r))
          end) with (true, String c r).
  cbv iota beta. rewrite Hv. reflexivity.
Qed.

(** [strconv.Atoi] reads back what [%d] prints, for every [int]. *)
Lemma Atoi_itoa (n : Z) : MinInt <= n <= MaxInt -> Atoi (itoa n) = (n, None).
Proof.
  intros Hn. destruct n as [|p|p].
  - reflexivity.
  - rewrite itoa_pos.
    destruct (string_of_uint_digits (Pos.to_uint p) (DecimalPos.Unsigned.to_uint_nonnil p))
      as (c & r & Hs & Hc).
    pose proof (digits_value_of_uint (Pos.to_uint p)) as Hv.
    rewrite DecimalPos.Unsigned.of_to, Hs in Hv. cbn [Z.of_N] in Hv.
    rewrite Hs, (Atoi_unsigned c r _ Hc Hv).
    replace (2 ^ 63 <=? Z.pos p) with false; [reflexivity|].
    symmetry. apply Z.leb_gt. unfold MaxInt in Hn. lia.
  - rewrite itoa_neg.
    destruct (string_of_uint_digits (Pos.to_uint p) (DecimalPos.Unsigned.to_uint_nonnil p))
      as (c & r & Hs & Hc).
    pose proof (digits_value_of_uint (Pos.to_uint p)) as Hv.
    rewrite DecimalPos.Unsigned.of_to, Hs in Hv. cbn [Z.of_N] in Hv.
    rewrite Hs, (Atoi_negative c r _ Hv).
    replace (2 ^ 63 <? Z.pos p) with false; [reflexivity|].
    symmetry. apply Z.ltb_ge. unfold MinInt in Hn. lia.
Qed.

Section WorkerOutcomeFacts.
Context `{Collaborators}.

Lemma served_more (a : Attempt) (script : list Attempt) (fname : string)
    (state state2 : fragThreadState) (fs : gmap string (list byte)) (r : FragResult)
    (frag : Fragment) :
  SeqNum state2 = SeqNum state ->
  ToFile state2 = ToFile state ->
  served script fname state2 fs r frag ->
  served (a :: script) fname state fs r frag.
Proof.
  intros E1 E2 (a' & resp & Hin & H1 & H2 & H3 & H4 & H5 & H6 & H7 & H8).
  exists a', resp. rewrite <- E1, <- E2.
  split; [apply list_elem_of_further; exact Hin|]. auto 10.
Qed.

(** What the loop adds to the trace holds no fragment, and the spill files
    are as they were or lack only [fname]; or it holds one fragment, served
    by the script. *)
Definition loop_outcome (script : list Attempt) (fname : string) (state : fragThreadState)
    (fs : gmap string (list byte)) (trace : list Event) (r : FragResult) : Prop :=
  exists t,
    r_trace r = trace ++ t
    /\ ((published t = [] /\ (r_fs r = fs \/ r_fs r = TryDelete fname fs))
        \/ exists frag, published t = [frag] /\ served script fname state fs r frag).

Lemma retry_or_return_outcome (a : Attempt) (rest : list Attempt) (fname : string)
    (state state1 : fragThreadState) (fs onGiveUp : gmap string (list byte))
    (trace : list Event) (ev : Event) (r : FragResult) :
  hooks_keep_pace ->
  hooks_keep_request ->
  (forall state2 trace2 r2,
     downloadFragment_loop rest fname state2 fs trace2 = Some r2 ->
     loop_outcome rest fname state2 fs trace2 r2) ->
  keeps_pace state state1 -> keeps_request state state1 ->
  (forall frag, ev <> EvPublish frag) ->
  onGiveUp = fs \/ onGiveUp = TryDelete fname fs ->
  retry_or_return (a_di a) state1 (trace ++ [ev]) onGiveUp
    (fun state2 => downloadFragment_loop rest fname state2 fs) = Some r ->
  loop_outcome (a :: rest) fname state fs trace r.
Proof.
  intros Hpace Hreq IH (P1 & P2 & P3 & P4) (R1 & R2) Hev Hgive.
  unfold retry_or_return, retry_decision.
  destruct (Hpace (a_di a) (set_Tries (int_add (Tries state1) 1) state1) 0)
    as (_ & _ & (C1 & C2 & C3 & C4)).
  destruct (Hreq (a_di a) (set_Tries (int_add (Tries state1) 1) state1) 0)
    as (_ & _ & (D1 & D2)).
  destruct (ContinueFragmentDownload (a_di a) (set_Tries (int_add (Tries state1) 1) state1))
    as [state2 cont].
  simpl in C1, C2, C3, C4, D1, D2.
  assert (Hpub : published [ev] = []).
  { destruct ev; try reflexivity. exfalso. eapply Hev. reflexivity. }
  destruct cont.
  - intros Hr. destruct (IH _ _ _ Hr) as (t & Ht & Hcases).
    exists (ev :: EvContinue (int_add (Tries state1) 1) true :: EvSleep (SleepTime state2) :: t).
    split.
    { rewrite Ht. rewrite <- !app_assoc. reflexivity. }
    assert (Hpt : published (ev :: EvContinue (int_add (Tries state1) 1) true
                             :: EvSleep (SleepTime state2) :: t) = published t).
    { change (ev :: EvContinue (int_add (Tries state1) 1) true
              :: EvSleep (SleepTime state2) :: t)
        with ([ev] ++ [EvContinue (int_add (Tries state1) 1) true;
                       EvSleep (SleepTime state2)] ++ t).
      rewrite !published_app, Hpub. reflexivity. }
    rewrite Hpt. destruct Hcases as [Hnone|(frag & Hf & Hserved)].
    + left. exact Hnone.
    + right. exists frag. split; [exact Hf|].
      eapply served_more; [| |exact Hserved]; congruence.
  - intros [= <-]. cbn [r_trace r_fs].
    exists [ev; EvContinue (int_add (Tries state1) 1) false]. split.
    { rewrite <- app_assoc. reflexivity. }
    left. split; [|exact Hgive].
    change [ev; EvContinue (int_add (Tries state1) 1) false]
      with ([ev] ++ [EvContinue (int_add (Tries state1) 1) false]).
    rewrite published_app, Hpub. reflexivity.
Qed.

Lemma downloadFragment_loop_outcome (fname : string) (fs : gmap string (list byte))
    (script : list Attempt) :
  hooks_keep_pace ->
  hooks_keep_request ->
  forall (state : fragThreadState) (trace : list Event) (r : FragResult),
    downloadFragment_loop script fname state fs trace = Some r ->
    loop_outcome script fname state fs trace r.
Proof.
  intros Hpace Hreq. induction script as [|a rest IH]; intros state trace r.
  - simpl. destruct (negb (Tries state <? FragMaxTries)); [|discriminate].
    intros [= <-]. exists []. split; [symmetry; apply app_nil_r|]. left. auto.
  - cbn [downloadFragment_loop].
    destruct (negb (Tries state <? FragMaxTries)).
    { intros [= <-]. exists []. split; [symmetry; apply app_nil_r|]. left. auto. }
    destruct (IsStopping (a_di a)) eqn:Hstop.
    { intros [= <-]. exists []. split; [symmetry; apply app_nil_r|]. left. auto. }
    set (u := Sprintf_d (Url state) (SeqNum state)).
    destruct (match url_Parse u with
              | Some _ =>
                  host ← GetDownloadUrlHost (a_di a) (DataType state);
                  Some (if (0 <? String.length host)%nat then Some host else None)
              | None => Some None
              end) as [hostHdr|]; [|discriminate].
    cbn [mbind option_bind].
    assert (Hstep : forall state1 onGiveUp,
               keeps_pace state state1 -> keeps_request state state1 ->
               onGiveUp = fs \/ onGiveUp = TryDelete fname fs ->
               retry_or_return (a_di a) state1 (trace ++ [EvGet u hostHdr]) onGiveUp
                 (fun state2 => downloadFragment_loop rest fname state2 fs) = Some r ->
               loop_outcome (a :: rest) fname state fs trace r).
    { intros state1 onGiveUp KP KR Hgive Hr.
      eapply retry_or_return_outcome; eauto. intros frag. discriminate. }
    assert (KPrefl : keeps_pace state state) by (repeat split; reflexivity).
    assert (KRrefl : keeps_request state state) by (split; reflexivity).
    destruct (Hpace (a_di a) state 0) as (PE & _ & _).
    destruct (Hreq (a_di a) state 0) as (RE & _ & _).
    destruct (a_fetch a) as [| |resp] eqn:Hfetch; try (apply Hstep; auto; fail).
    destruct (400 <=? StatusCode resp) eqn:Hstatus.
    { apply Hstep; auto.
      - destruct (Hpace (a_di a) state (StatusCode resp)) as (_ & KH & _). exact KH.
      - destruct (Hreq (a_di a) state (StatusCode resp)) as (_ & KH & _). exact KH. }
    destruct (length (Body resp) =? 0)%nat eqn:Hbody; [apply Hstep; auto|].
    assert (Hne : Body resp <> []).
    { intros E. rewrite E in Hbody. discriminate. }
    assert (Hlt : StatusCode resp < 400) by (apply Z.leb_gt; exact Hstatus).
    destruct (ToFile state) eqn:HtoFile; [destruct (a_spill a) eqn:Hspill|].
    + intros [= <-]. cbn [r_trace r_fs].
      exists [EvGet u hostHdr; EvPublish (mkFragment (SeqNum state) fname
                                             (headerSeqnum_of resp) None)].
      split; [rewrite <- app_assoc; reflexivity|].
      right. eexists. split; [reflexivity|].
      exists a, resp. rewrite HtoFile. cbn [Seq FileName XHeadSeqNum Data r_fs].
      split; [apply list_elem_of_here|]. auto 10.
    + apply Hstep; auto.
    + intros [= <-]. cbn [r_trace r_fs].
      exists [EvGet u hostHdr; EvPublish (mkFragment (SeqNum state) fname
                                             (headerSeqnum_of resp) (Some (Body resp)))].
      split; [rewrite <- app_assoc; reflexivity|].
      right. eexists. split; [reflexivity|].
      exists a, resp. rewrite HtoFile. cbn [Seq FileName XHeadSeqNum Data r_fs].
      split; [apply list_elem_of_here|]. auto 10.
Qed.

(** X4: what a worker publishes. With hooks that leave the request, the
    pace and the spill mode of the worker state alone, a run of
    [downloadFragment] publishes nothing, and then leaves the spill files as
    they were or after [TryDelete] of its own spill file; or it publishes one
    fragment, made of an answer it received while not stopping, with a status
    below 400 and a body that is not empty: the fragment carries the sequence
    number asked for, the name [<base>.frag<seq>.ts] and the head that the
    answer's header gives; when the worker spills, the body is in that file
    and the fragment has no buffer, otherwise the buffer is the body and no
    file is written. *)
Theorem published_fragment_is_a_served_answer (script : list Attempt)
    (state : fragThreadState) (fs : gmap string (list byte)) (r : FragResult) :
  hooks_keep_pace ->
  hooks_keep_request ->
  downloadFragment script state fs = Some r ->
  let fname := BaseFilePath state +:+ ".frag" +:+ itoa (SeqNum state) +:+ ".ts" in
  (published (r_trace r) = [] /\ (r_fs r = fs \/ r_fs r = TryDelete fname fs))
  \/ exists frag, published (r_trace r) = [frag] /\ served script fname state fs r frag.
Proof.
  intros Hpace Hreq Hrun fname. unfold downloadFragment in Hrun.
  destruct (downloadFragment_loop_outcome _ _ _ Hpace Hreq _ _ _ Hrun)
    as (t & Ht & Hcases).
  simpl in Ht. rewrite Ht. destruct Hcases as [Hnone|(frag & Hf & Hserved)].
  - left. exact Hnone.
  - right. exists frag. split; [exact Hf|].
    destruct Hserved as (a & resp & Hin & H1 & H2 & H3 & H4 & H5 & H6 & H7 & H8).
    exists a, resp. auto 10.
Qed.

(** What follows a failure, taken apart: events that hold no request and no
    fragment, then the next pass or the return. *)
Lemma retry_or_return_inv (di : DownloadInfo) (state : fragThreadState)
    (trace : list Event) (onGiveUp : gmap string (list byte))
    (next : fragThreadState -> list Event -> option FragResult) (r : FragResult) :
  retry_or_return di state trace onGiveUp next = Some r ->
  exists state2 evs,
    requests evs = [] /\ published evs = []
    /\ (next state2 (trace ++ evs) = Some r
        \/ r = mkFragResult state2 onGiveUp (trace ++ evs)).
Proof.
  unfold retry_or_return, retry_decision.
  destruct (ContinueFragmentDownload di (set_Tries (int_add (Tries state) 1) state))
    as [state2 cont].
  destruct cont.
  - intros Hr. eexists. eexists. split; [|split; [|left; exact Hr]]; reflexivity.
  - intros [= <-]. eexists. eexists. split; [|split; [|right; reflexivity]]; reflexivity.
Qed.

Lemma downloadFragment_loop_stopping (fname : string) (fs : gmap string (list byte))
    (script : list Attempt) :
  forall (state : fragThreadState) (trace : list Event) (r : FragResult) (k : nat)
         (a : Attempt),
    script !! k = Some a ->
    IsStopping (a_di a) = true ->
    downloadFragment_loop script fname state fs trace = Some r ->
    exists t, r_trace r = trace ++ t /\ (length (requests t) <= k)%nat.
Proof.
  induction script as [|a0 rest IH]; intros state trace r k a Hk Hstop.
  - rewrite lookup_nil in Hk. discriminate.
  - cbn [downloadFragment_loop].
    destruct (negb (Tries state <? FragMaxTries)).
    { intros [= <-]. exists []. split; [symmetry; apply app_nil_r|simpl; lia]. }
    destruct (IsStopping (a_di a0)) eqn:Hstop0.
    { intros [= <-]. exists []. split; [symmetry; apply app_nil_r|simpl; lia]. }
    destruct k as [|k].
    { simpl in Hk. injection Hk as ->. congruence. }
    simpl in Hk.
    set (u := Sprintf_d (Url state) (SeqNum state)).
    destruct (match url_Parse u with
              | Some _ =>
                  host ← GetDownloadUrlHost (a_di a0) (DataType state);
                  Some (if (0 <? String.length host)%nat then Some host else None)
              | None => Some None
              end) as [hostHdr|]; [|discriminate].
    cbn [mbind option_bind].
    assert (Hstep : forall state1 onGiveUp,
               retry_or_return (a_di a0) state1 (trace ++ [EvGet u hostHdr]) onGiveUp
                 (fun state2 => downloadFragment_loop rest fname state2 fs) = Some r ->
               exists t, r_trace r = trace ++ t /\ (length (requests t) <= S k)%nat).
    { intros state1 onGiveUp Hr.
      destruct (retry_or_return_inv _ _ _ _ _ _ Hr) as (state2 & evs & Hq & _ & [Hn| ->]).
      - destruct (IH _ _ _ _ _ Hk Hstop Hn) as (t & Ht & Hlen).
        exists ([EvGet u hostHdr] ++ evs ++ t). split.
        + rewrite Ht, <- !app_assoc. reflexivity.
        + rewrite !requests_app, Hq. simpl. lia.
      - exists ([EvGet u hostHdr] ++ evs). split.
        + simpl. rewrite <- app_assoc. reflexivity.
        + rewrite requests_app, Hq. simpl. lia. }
    assert (Hpub : forall fs' frag,
               Some (mkFragResult state fs' ((trace ++ [EvGet u hostHdr]) ++ [EvPublish frag]))
               = Some r ->
               exists t, r_trace r = trace ++ t /\ (length (requests t) <= S k)%nat).
    { intros fs' frag [= <-]. exists [EvGet u hostHdr; EvPublish frag]. split.
      - simpl. rewrite <- app_assoc. reflexivity.
      - simpl. lia. }
    destruct (a_fetch a0) as [| |resp]; try (apply Hstep).
    destruct (400 <=? StatusCode resp); [apply Hstep|].
    destruct (length (Body resp) =? 0)%nat; [apply Hstep|].
    destruct (ToFile state); [destruct (a_spill a0)|];
      first [apply Hpub | apply Hstep].
Qed.

(** X6: no request once [Stop] is seen. When the pass [k] of the retry loop
    (counted from 0) finds the download stopping, the run has made at most
    [k] requests: the pass that sees the flag returns before it asks, and
    no later pass exists. *)
Theorem no_request_once_stopping (script : list Attempt) (state : fragThreadState)
    (fs : gmap string (list byte)) (r : FragResult) (k : nat) (a : Attempt) :
  script !! k = Some a ->
  IsStopping (a_di a) = true ->
  downloadFragment script state fs = Some r ->
  (length (requests (r_trace r)) <= k)%nat.
Proof.
  intros Hk Hstop Hrun. unfold downloadFragment in Hrun.
  destruct (downloadFragment_loop_stopping _ _ _ _ _ _ _ _ Hk Hstop Hrun) as (t & Ht & Hlen).
  simpl in Ht. rewrite Ht. exact Hlen.
Qed.

Lemma Atoi_range (s : string) : MinInt <= fst (Atoi s) <= MaxInt.
Proof.
  assert (H0 : MinInt <= 0 <= MaxInt) by (unfold MinInt, MaxInt; lia).
  assert (Hmax : MinInt <= MaxInt <= MaxInt) by (unfold MinInt, MaxInt; lia).
  assert (Hmin : MinInt <= MinInt <= MaxInt) by (unfold MinInt, MaxInt; lia).
  assert (Hpos : forall s acc v, 0 <= acc -> digits_value s acc = Some v -> 0 <= v).
  { clear. induction s as [|c r IH]; intros acc v Hacc; simpl.
    - intros [= <-]. exact Hacc.
    - destruct (is_digit c) eqn:Hc; [|discriminate]. apply IH.
      unfold is_digit in Hc. apply andb_true_iff in Hc as [Hlo _].
      apply N.leb_le in Hlo. lia. }
  unfold Atoi.
  destruct (match s with
            | String "-" r => (true, r)
            | String "+" r => (false, r)
            | _ => (false, s)
            end) as [neg body].
  destruct body as [|c r]; [exact H0|].
  destruct (digits_value (String c r) 0) as [v|] eqn:Hv; [|exact H0].
  pose proof (Hpos _ _ _ (Z.le_refl 0) Hv) as Hv0.
  destruct neg.
  - destruct (2 ^ 63 <? v) eqn:Hc; [exact Hmin|].
    apply Z.ltb_ge in Hc. simpl. unfold MinInt, MaxInt. lia.
  - destruct (2 ^ 63 <=? v) eqn:Hc; [exact Hmax|].
    apply Z.leb_gt in Hc. simpl. unfold MinInt, MaxInt. lia.
Qed.

(** X5: the head of a fragment. Without the header [X-Head-Seqnum], or with
    an empty one, the head is -1; with the decimal form of an [int] it is
    that number; and whatever the header holds, the head is an [int]. *)
Theorem headerSeqnum_of_header (resp : Response) :
  (Header_Get (Header resp) "X-Head-Seqnum" = EmptyString -> headerSeqnum_of resp = -1)
  /\ (forall n : Z,
        MinInt <= n <= MaxInt ->
        Header_Get (Header resp) "X-Head-Seqnum" = itoa n ->
        headerSeqnum_of resp = n)
  /\ MinInt <= headerSeqnum_of resp <= MaxInt.
Proof.
  unfold headerSeqnum_of. split; [|split].
  - intros ->. reflexivity.
  - intros n Hn ->. pose proof (Atoi_itoa n Hn) as Hround.
    destruct (itoa n) as [|c s] eqn:Hi.
    + vm_compute in Hround. discriminate.
    + cbn [String.length Nat.ltb Nat.leb]. rewrite Hround. reflexivity.
  - destruct (0 <? String.length (Header_Get (Header resp) "X-Head-Seqnum"))%nat.
    + apply Atoi_range.
    + unfold MinInt, MaxInt. lia.
Qed.

End WorkerOutcomeFacts.

Lemma published_fragment_is_a_served_answer_witness :
  exists r frag,
    downloadFragment refused_then_served (set_MaxSeq 4 (set_SeqNum 3 live_worker)) ∅ = Some r
    /\ published (r_trace r) = [frag]
    /\ Seq frag = 3
    /\ FileName frag = "out.f140.frag3.ts"%string.
Proof.
  pose (state := set_MaxSeq 4 (set_SeqNum 3 live_worker)).
  pose (r := default (mkFragResult state ∅ [])
                     (downloadFragment refused_then_served state ∅)).
  assert (E : downloadFragment refused_then_served state ∅ = Some r)
    by (vm_compute; reflexivity).
  destruct (published_fragment_is_a_served_answer refused_then_served state ∅ r
              scenario_hooks_keep_pace scenario_hooks_keep_request E)
    as [[Hnone _]|(frag & Hf & a & resp & _ & _ & _ & _ & _ & Hseq & Hname & _)].
  - vm_compute in Hnone. discriminate.
  - exists r, frag. split; [exact E|]. split; [exact Hf|]. split; [exact Hseq|].
    rewrite Hname. vm_compute. reflexivity.
Defined.

Lemma no_request_once_stopping_witness :
  exists r,
    downloadFragment refused_then_stopped (set_MaxSeq 4 (set_SeqNum 3 live_worker)) ∅ = Some r
    /\ (length (requests (r_trace r)) <= 1)%nat.
Proof.
  pose (state := set_MaxSeq 4 (set_SeqNum 3 live_worker)).
  pose (r := default (mkFragResult state ∅ [])
                     (downloadFragment refused_then_stopped state ∅)).
  assert (E : downloadFragment refused_then_stopped state ∅ = Some r)
    by (vm_compute; reflexivity).
  exists r. split; [exact E|].
  apply (no_request_once_stopping refused_then_stopped state ∅ r 1
           (mkAttempt (default live_di (Stop live_di)) (ok_response 3) true)).
  - reflexivity.
  - vm_compute. reflexivity.
  - exact E.
Defined.

Lemma output_holds_fragments_in_order_witness :
  exists (c : Coord) (payloads : list (list byte)),
    (snd <$> (bootstrap 2 DtypeAudio memory_di (initCoord new_file)
              ≫= fun '(di1, c0) => main_loop memory_rounds DtypeAudio di1 ∅ c0)) = Some c
    /\ curFrag c = Z.of_nat (length payloads)
    /\ f_bytes (f c) = concat (map fragment_image payloads).
Proof.
  pose (start := default (memory_di, initCoord new_file)
                   (bootstrap 2 DtypeAudio memory_di (initCoord new_file))).
  assert (E0 : bootstrap 2 DtypeAudio memory_di (initCoord new_file)
               = Some (start.1, start.2)) by (vm_compute; reflexivity).
  destruct (main_loop memory_rounds DtypeAudio start.1 ∅ start.2)
    as [[[[exit di'] fs'] c]|] eqn:E1.
  - destruct (output_holds_fragments_in_order DtypeAudio 2 memory_di start.1 di' ∅ fs'
                memory_rounds start.2 c exit)
      as (payloads & H1 & H2 & _).
    + repeat constructor.
    + vm_compute. reflexivity.
    + exact E0.
    + exact E1.
    + exists c, payloads. split; [|split; assumption].
      rewrite E0. cbn [mbind option_bind]. rewrite E1. reflexivity.
  - exfalso.
    assert (A : is_Some (main_loop memory_rounds DtypeAudio start.1 ∅ start.2)).
    { assert (B : (fun _ => tt) <$> main_loop memory_rounds DtypeAudio start.1 ∅ start.2
                  = Some tt) by (vm_compute; reflexivity).
      destruct (main_loop memory_rounds DtypeAudio start.1 ∅ start.2); [eauto|discriminate]. }
    rewrite E1 in A. destruct A as [? A]. discriminate.
Defined.

(** ** The main loop does not panic *)

Lemma Buffer_Read_length (unread buf unread1 buf1 : list byte) (n : nat) (eof : bool) :
  Buffer_Read unread buf = (unread1, buf1, n, eof) ->
  length buf1 = length buf.
Proof.
  unfold Buffer_Read. destruct unread as [|b unread].
  - intros [= <- <- <- <-]. reflexivity.
  - remember (b :: unread) as u. intros [= <- <- <- <-].
    rewrite length_app, length_take, length_drop. lia.
Qed.

Lemma dispatch_runs (c : Coord) :
  closed c = false ->
  MinInt <= activeDownloads c < MaxInt ->
  exists c',
    dispatch c = Some c'
    /\ closed c' = false
    /\ activeDownloads c' = activeDownloads c + 1
    /\ tries c' = tries c
    /\ dataToWrite c' = dataToWrite c
    /\ maxSeqs c' = maxSeqs c.
Proof.
  intros Hopen Had. unfold dispatch. rewrite Hopen. eexists. split; [reflexivity|].
  cbn [closed activeDownloads tries dataToWrite maxSeqs].
  rewrite int_add_exact by lia. auto 10.
Qed.

Lemma dispatch_window_runs (jobs : Z) (fuel : nat) :
  forall c,
    closed c = false ->
    MinInt <= activeDownloads c <= MaxInt ->
    jobs <= MaxInt ->
    jobs - activeDownloads c <= Z.of_nat fuel ->
    exists c',
      dispatch_window fuel jobs c = Some c'
      /\ closed c' = false
      /\ MinInt <= activeDownloads c' <= MaxInt
      /\ tries c' = tries c
      /\ dataToWrite c' = dataToWrite c.
Proof.
  induction fuel as [|fuel IH]; intros c Hopen Had Hjobs Hfuel; simpl;
    destruct ((curSeq c <=? int_add (maxSeqs c) 1) && (activeDownloads c <? jobs))
      eqn:Hguard; eauto 10;
    apply andb_true_iff in Hguard as [_ Hg]; apply Z.ltb_lt in Hg; [lia|].
  destruct (dispatch_runs c Hopen ltac:(lia)) as (c1 & Hd & H1 & H2 & H3 & H4 & _).
  rewrite Hd. cbn [mbind option_bind].
  destruct (IH c1 H1 ltac:(lia) Hjobs ltac:(lia)) as (c' & Hw & K1 & K2 & K3 & K4).
  exists c'. repeat split; try congruence; lia.
Qed.

Lemma redispatch_runs (activeJobs : Z) (fuel : nat) :
  forall c,
    closed c = false ->
    MinInt <= activeDownloads c <= MaxInt ->
    activeJobs <= MaxInt ->
    activeJobs - activeDownloads c <= Z.of_nat fuel ->
    exists c',
      redispatch fuel activeJobs c = Some c'
      /\ closed c' = false
      /\ MinInt <= activeDownloads c' <= MaxInt
      /\ tries c' = tries c
      /\ dataToWrite c' = dataToWrite c.
Proof.
  induction fuel as [|fuel IH]; intros c Hopen Had Hjobs Hfuel; simpl;
    destruct (activeDownloads c <? activeJobs) eqn:Hguard; eauto 10;
    apply Z.ltb_lt in Hguard; [lia|].
  destruct (dispatch_runs c Hopen ltac:(lia)) as (c1 & Hd & H1 & H2 & H3 & H4 & _).
  rewrite Hd. cbn [mbind option_bind].
  destruct (IH c1 H1 ltac:(lia) Hjobs ltac:(lia)) as (c' & Hw & K1 & K2 & K3 & K4).
  exists c'. repeat split; try congruence; lia.
Qed.

Section PassFacts.
Context `{Collaborators}.

(** An attempt to write a fragment returns: it fails and costs a try, or
    it succeeds, removes the fragment and restores the tries. *)
Lemma write_buffer_runs (dataType : string) (fragFiles : bool) (i : nat)
    (data : Fragment) (unread : list byte) (fs : gmap string (list byte)) (c : Coord) :
  0 < tries c <= 10 ->
  exists i' fs' c',
    write_buffer dataType fragFiles i data unread fs c = Some (i', fs', c')
    /\ activeDownloads c' = activeDownloads c /\ closed c' = closed c
    /\ ((i' = i /\ tries c' = tries c - 1
         /\ exists left, dataToWrite c' = <[i := with_Data (Some left) data]> (dataToWrite c))
        \/ (i' = 0%nat /\ tries c' = 10 /\ dataToWrite c' = delete i (dataToWrite c))).
Proof.
  intros Htries. unfold write_buffer. cbv zeta.
  destruct (Buffer_Read unread zero_buffer) as [[[unread1 buf1] n] eof] eqn:Hread.
  pose proof (Buffer_Read_length _ _ _ _ _ _ Hread) as Hlen.
  rewrite zero_buffer_length in Hlen.
  destruct (File_Write (f c) (RemoveSidx buf1)) as [[file1 count] err].
  destruct err.
  { eexists. eexists. eexists. split; [reflexivity|].
    cbn [activeDownloads closed tries dataToWrite].
    split; [reflexivity|]. split; [reflexivity|]. left.
    split; [reflexivity|]. split; [apply int_sub_exact; unfold MinInt, MaxInt; lia|].
    eauto. }
  destruct (write_rest_total (S (length unread1)) file1 unread1 buf1 (int_add 0 count))
    as ([[[file2 unread2] bytesWritten2] err2] & Hrest).
  { rewrite Hlen. apply BufferSize_pos. }
  { lia. }
  rewrite Hrest. cbn [mbind option_bind]. destruct err2.
  - eexists. eexists. eexists. split; [reflexivity|].
    cbn [activeDownloads closed tries dataToWrite].
    split; [reflexivity|]. split; [reflexivity|]. left.
    split; [reflexivity|]. split; [apply int_sub_exact; unfold MinInt, MaxInt; lia|].
    eauto.
  - eexists. eexists. eexists. split; [reflexivity|].
    cbn [activeDownloads closed tries dataToWrite].
    split; [reflexivity|]. split; [reflexivity|]. right. auto.
Qed.

Lemma write_found_runs (dataType : string) (fragFiles : bool) (i : nat)
    (data : Fragment) (fs : gmap string (list byte)) (c : Coord) :
  0 < tries c <= 10 ->
  (fragFiles = false -> is_Some (Data data)) ->
  exists i' fs' c',
    write_found dataType fragFiles i data fs c = Some (i', fs', c')
    /\ activeDownloads c' = activeDownloads c /\ closed c' = closed c
    /\ ((i' = i /\ tries c' = tries c - 1
         /\ (dataToWrite c' = dataToWrite c
             \/ exists left, dataToWrite c' = <[i := with_Data (Some left) data]> (dataToWrite c)))
        \/ (i' = 0%nat /\ tries c' = 10 /\ dataToWrite c' = delete i (dataToWrite c))).
Proof.
  intros Htries Hdata. unfold write_found. destruct fragFiles.
  - destruct (fs !! FileName data) as [readBytes|].
    + destruct (write_buffer_runs dataType true i data readBytes fs c Htries)
        as (i' & fs' & c' & Hw & H1 & H2 & [(K1 & K2 & K3)|K]);
        exists i', fs', c'; auto 10.
    + eexists. eexists. eexists. split; [reflexivity|].
      cbn [activeDownloads closed tries dataToWrite].
      split; [reflexivity|]. split; [reflexivity|]. left.
      split; [reflexivity|]. split; [apply int_sub_exact; unfold MinInt, MaxInt; lia|].
      auto.
  - destruct (Hdata eq_refl) as [unread ->]. cbn [mbind option_bind].
    destruct (write_buffer_runs dataType false i data unread fs c Htries)
      as (i' & fs' & c' & Hw & H1 & H2 & [(K1 & K2 & K3)|K]);
      exists i', fs', c'; auto 10.
Qed.

(** The write loop returns within [(n - i) + tries + 11 * n * n] passes, for
    [n] pending fragments. *)
Lemma write_loop_runs (dataType : string) (fragFiles : bool) (fuel : nat) :
  forall (i : nat) (fs : gmap string (list byte)) (c : Coord),
    tries c <= 10 ->
    (fragFiles = false -> Forall (fun d => is_Some (Data d)) (dataToWrite c)) ->
    (length (dataToWrite c) - i + Z.to_nat (tries c)
     + 11 * length (dataToWrite c) * length (dataToWrite c) <= fuel)%nat ->
    exists fs' c',
      write_loop fuel dataType fragFiles i fs c = Some (fs', c')
      /\ activeDownloads c' = activeDownloads c /\ closed c' = closed c
      /\ tries c' <= 10
      /\ (fragFiles = false -> Forall (fun d => is_Some (Data d)) (dataToWrite c')).
Proof.
  induction fuel as [|fuel IH]; intros i fs c Htries Hdata Hfuel; cbn [write_loop];
    destruct ((i <? length (dataToWrite c))%nat && (0 <? tries c)) eqn:Hguard;
    eauto 10;
    apply andb_true_iff in Hguard as [Hi Ht];
    apply Nat.ltb_lt in Hi; apply Z.ltb_lt in Ht; [lia|].
  destruct (lookup_lt_is_Some_2 (dataToWrite c) i Hi) as [data Hdata_i].
  rewrite Hdata_i. cbn [mbind option_bind].
  destruct (negb (Seq data =? curFrag c)).
  - apply IH; auto. lia.
  - assert (Hhas : fragFiles = false -> is_Some (Data data)).
    { intros Hmem. specialize (Hdata Hmem). rewrite Forall_forall in Hdata.
      apply Hdata. eapply list_elem_of_lookup_2. exact Hdata_i. }
    destruct (write_found_runs dataType fragFiles i data fs c ltac:(lia) Hhas)
      as (i' & fs' & c' & Hw & H1 & H2 & Hcases).
    rewrite Hw. cbn [mbind option_bind].
    assert (Hgoal : exists fs'' c'',
               write_loop fuel dataType fragFiles i' fs' c' = Some (fs'', c'')
               /\ activeDownloads c'' = activeDownloads c' /\ closed c'' = closed c'
               /\ tries c'' <= 10
               /\ (fragFiles = false -> Forall (fun d => is_Some (Data d)) (dataToWrite c''))).
    { destruct Hcases as [(-> & K2 & K3)|(-> & K2 & K3)].
      - apply IH.
        + lia.
        + intros Hmem. specialize (Hdata Hmem).
          destruct K3 as [->|(left & ->)]; [exact Hdata|].
          apply Forall_insert; [exact Hdata|]. simpl. eauto.
        + assert (Hlen : length (dataToWrite c') = length (dataToWrite c)).
          { destruct K3 as [->|(left & ->)]; [reflexivity|apply length_insert]. }
          rewrite Hlen, K2. replace (Z.to_nat (tries c - 1)) with (Z.to_nat (tries c) - 1)%nat
            by lia.
          lia.
      - apply IH.
        + lia.
        + intros Hmem. rewrite K3. apply Forall_delete. auto.
        + rewrite K3, K2, length_delete by eauto.
          destruct (length (dataToWrite c)) as [|n]; [lia|].
          replace (S n - 1)%nat with n by lia. nia. }
    destruct Hgoal as (fs'' & c'' & Hl & G1 & G2 & G3 & G4).
    exists fs'', c''. repeat split; try congruence; auto.
Qed.

Lemma receive_runs (fragFiles downloading stopping : bool) (jobs : Z) (c : Coord)
    (data : Fragment) :
  (downloading = true -> stopping = false -> closed c = false) ->
  jobs <= MaxInt ->
  (fragFiles = false -> is_Some (Data data)) ->
  ready fragFiles c ->
  exists c',
    receive downloading stopping jobs c data = Some c'
    /\ closed c' = closed c /\ ready fragFiles c'.
Proof.
  intros Hopen Hjobs Hdata (Had & Htries & Hpending). unfold receive.
  set (c1 := set_activeDownloads (int_sub (activeDownloads c) 1)
               (set_dataToWrite (dataToWrite c ++ [data]) c)).
  assert (Hready1 : ready fragFiles c1).
  { split; [apply wrap64_range|]. split; [exact Htries|].
    intros Hmem. simpl. apply Forall_app. split; [auto|]. constructor; [auto|constructor]. }
  destruct (negb downloading || stopping) eqn:Hidle.
  { exists c1. auto. }
  apply orb_false_iff in Hidle as [Hd Hs]. apply negb_false_iff in Hd.
  specialize (Hopen Hd Hs).
  set (c2 := if maxSeqs c1 <? XHeadSeqNum data then set_maxSeqs (XHeadSeqNum data) c1
             else c1).
  assert (Hc2 : closed c2 = false /\ activeDownloads c2 = activeDownloads c1
                /\ tries c2 = tries c1 /\ dataToWrite c2 = dataToWrite c1).
  { unfold c2. destruct (maxSeqs c1 <? XHeadSeqNum data); simpl; auto. }
  destruct Hc2 as (Hcl2 & Had2 & Htr2 & Hdw2).
  destruct Hready1 as (Had1 & Htries1 & Hpending1).
  destruct (0 <? maxSeqs c2).
  - destruct (dispatch_window_runs jobs (Z.to_nat (jobs - activeDownloads c2)) c2)
      as (c' & Hw & K1 & K2 & K3 & K4); auto; try lia.
    exists c'. split; [exact Hw|]. split; [congruence|].
    split; [exact K2|]. split; [congruence|]. rewrite K4, Hdw2. exact Hpending1.
  - unfold dispatch. rewrite Hcl2. eexists. split; [reflexivity|].
    cbn [closed]. split; [congruence|].
    split; [apply wrap64_range|]. cbn [tries dataToWrite].
    split; [congruence|]. rewrite Hdw2. exact Hpending1.
Qed.

Lemma drain_runs (fragFiles downloading stopping : bool) (jobs : Z)
    (received : list Fragment) :
  forall c,
    (downloading = true -> stopping = false -> closed c = false) ->
    jobs <= MaxInt ->
    (fragFiles = false -> Forall (fun d => is_Some (Data d)) received) ->
    ready fragFiles c ->
    exists c',
      drain downloading stopping jobs received c = Some c'
      /\ closed c' = closed c /\ ready fragFiles c'.
Proof.
  induction received as [|data rest IH]; intros c Hopen Hjobs Hdata Hready.
  - simpl. eauto.
  - cbn [drain].
    destruct (receive_runs fragFiles downloading stopping jobs c data)
      as (c1 & Hr & Hcl & Hready1); auto.
    { intros Hmem. specialize (Hdata Hmem). inversion Hdata. assumption. }
    rewrite Hr. cbn [mbind option_bind].
    destruct (IH c1) as (c' & Hd & Hcl' & Hready'); auto.
    { rewrite Hcl. exact Hopen. }
    { intros Hmem. specialize (Hdata Hmem). inversion Hdata. assumption. }
    exists c'. split; [exact Hd|]. split; [congruence|exact Hready'].
Qed.

Lemma Stop_runs (di : DownloadInfo) :
  is_Some (MDLInfo di !! DtypeAudio) ->
  is_Some (MDLInfo di !! DtypeVideo) ->
  is_Some (Stop di).
Proof.
  intros [ma Hma] [mv Hmv]. unfold Stop.
  assert (H1 : SetFinished (set_Stopping true di) DtypeAudio
               = Some (set_MDLInfo (<[DtypeAudio := set_Finished true ma]> (MDLInfo di))
                         (set_Stopping true di)))
    by (apply (update_track_present _ (set_Stopping true di)); exact Hma).
  rewrite H1. cbn [mbind option_bind]. unfold SetFinished, update_track. simpl.
  rewrite lookup_insert_ne by apply Dtype_distinct. rewrite Hmv. simpl. eauto.
Qed.

(** A pass of the main loop does not panic. With the track and the
    tracks of [Stop] in the shared record, counts that are [int]s, the
    buffers of the fragments kept in memory at hand, and a request channel
    that is closed only if the download is stopping, the pass returns: no
    request is sent on a closed channel, no loop runs out of passes. What it
    leaves is ready for the next pass, and the channel is closed only if
    the download is stopping or the pass left the loop. *)
Lemma a_pass_does_not_panic (dataType : string) (hour : bool) (r : Round)
    (fs : gmap string (list byte)) (c : Coord) (fragFiles : bool) :
  round_sane dataType fragFiles r ->
  ready fragFiles c ->
  (closed c = true -> IsStopping (rd_di r) = true) ->
  exists exit di' fs' c',
    iteration dataType (rd_received r) hour (rd_di r) fs c = Some (exit, di', fs', c')
    /\ ready fragFiles c'
    /\ (closed c' = true -> IsStopping (rd_di r) = true \/ exit = true).
Proof.
  intros (Hff & (m & Hm & Hjobs) & HJ & Htracks & Hdata) Hready Hclosed.
  unfold iteration. unfold IsFinished, GetActiveJobCount. rewrite Hm.
  cbn [fmap option_fmap option_map mbind option_bind].
  set (downloading := if negb (Finished m) then true else 0 <? ActiveJobs m).
  assert (Hdl : (if negb (Finished m) then Some true else Some (0 <? ActiveJobs m))
                = Some downloading).
  { unfold downloading. destruct (negb (Finished m)); reflexivity. }
  rewrite Hdl. cbn [mbind option_bind].
  set (stopping := IsStopping (rd_di r)) in *.
  set (c1 := close_if_done stopping downloading c).
  assert (Hc1 : ready fragFiles c1
                /\ (downloading = true -> stopping = false -> closed c1 = false)
                /\ (closed c1 = true -> stopping = true \/ downloading = false)).
  { unfold c1, close_if_done.
    destruct ((stopping || negb downloading) && negb (closed c)) eqn:Hclose.
    - apply andb_true_iff in Hclose as [Hwhy _].
      split; [exact Hready|]. split.
      + intros -> ->. discriminate.
      + intros _. apply orb_true_iff in Hwhy as [?|Hn]; [auto|].
        right. apply negb_true_iff in Hn. exact Hn.
    - split; [exact Hready|]. split.
      + intros Hd Hs. destruct (closed c) eqn:Hcl; [|reflexivity].
        specialize (Hclosed eq_refl). congruence.
      + intros Hcl. left. auto. }
  destruct Hc1 as (Hready1 & Hopen1 & Hwhy1).
  destruct (drain_runs fragFiles downloading stopping (Jobs (rd_di r)) (rd_received r) c1)
    as (c2 & Hdrain & Hcl2 & Hready2); auto.
  rewrite Hdrain. cbn [mbind option_bind].
  destruct downloading eqn:Hd; cbn [negb].
  2:{ eexists. eexists. eexists. eexists. split; [reflexivity|]. split; [exact Hready2|].
      auto. }
  destruct ((length (dataToWrite c2) =? 0)%nat || negb (negb (length (rd_received r) =? 0)%nat)).
  - destruct (negb stopping && (activeDownloads c2 <=? 0)) eqn:Hstall.
    + apply andb_true_iff in Hstall as [Hs _]. apply negb_true_iff in Hs.
      destruct Hready2 as (Had2 & Htr2 & Hp2).
      destruct (redispatch_runs (ActiveJobs m)
                  (Z.to_nat (ActiveJobs m - activeDownloads c2)) c2)
        as (c3 & Hre & K1 & K2 & K3 & K4); auto; try lia.
      { rewrite Hcl2. auto. }
      rewrite Hre. cbn [mbind option_bind].
      eexists. eexists. eexists. eexists. split; [reflexivity|]. split.
      * split; [exact K2|]. split; [simpl; congruence|]. simpl. rewrite K4. exact Hp2.
      * simpl. rewrite K1. discriminate.
    + cbn [mbind option_bind].
      eexists. eexists. eexists. eexists. split; [reflexivity|]. split.
      * exact Hready2.
      * simpl. rewrite Hcl2. intros Hcl. destruct (Hwhy1 Hcl); [auto|discriminate].
  - destruct Hready2 as (Had2 & Htr2 & Hp2).
    destruct (write_loop_runs dataType (FragFiles (rd_di r)) (write_fuel c2) 0
                fs c2) as (fs4 & c4 & Hw & W1 & W2 & W3 & W4); auto.
    { rewrite Hff. exact Hp2. }
    { unfold write_fuel. nia. }
    rewrite Hw. cbn [mbind option_bind].
    set (di5 := if negb stopping && negb (IsUnavailable (rd_di r)) && hour
                then GetVideoInfo (rd_di r) else rd_di r).
    assert (Hstop : is_Some (Stop di5)).
    { inversion Htracks as [|? ? [Ha Hv] Htracks']; subst.
      inversion Htracks' as [|? ? [Ha' Hv'] _]; subst.
      unfold di5. destruct (negb stopping && negb (IsUnavailable (rd_di r)) && hour);
        apply Stop_runs; assumption. }
    assert (Hready4 : ready fragFiles c4).
    { split; [rewrite W1; exact Had2|]. split; [exact W3|]. rewrite <- Hff. exact W4. }
    assert (Hcl4 : closed c4 = true -> stopping = true \/ false = true).
    { rewrite W2, Hcl2. intros Hcl. destruct (Hwhy1 Hcl); [auto|discriminate]. }
    destruct (tries c4 <=? 0).
    + destruct Hstop as [di6 ->]. cbn [mbind option_bind].
      eexists. eexists. eexists. eexists. split; [reflexivity|]. auto.
    + cbn [mbind option_bind].
      eexists. eexists. eexists. eexists. split; [reflexivity|]. auto.
Qed.

Lemma bootstrap_exact (dataType : string) (fuel : nat) :
  forall (di : DownloadInfo) (c : Coord) (m : MediaDLInfo),
    MDLInfo di !! dataType = Some m ->
    fuel = Z.to_nat (Jobs di - ActiveJobs m) ->
    MinInt <= ActiveJobs m ->
    Jobs di <= MaxInt ->
    closed c = false ->
    0 <= curSeq c /\ curSeq c + Z.of_nat fuel <= MaxInt ->
    0 <= activeDownloads c /\ activeDownloads c + Z.of_nat fuel <= MaxInt ->
    0 <= jobNum c /\ jobNum c + Z.of_nat fuel <= MaxInt ->
    exists di1 c1 m1,
      bootstrap fuel dataType di c = Some (di1, c1)
      /\ spawned c1
         = spawned c ++ map (fun i => dataType +:+ itoa (jobNum c + Z.of_nat i)) (seq 0 fuel)
      /\ seqChan c1 = seqChan c ++ fresh_requests c (maxSeqs c) fuel
      /\ curSeq c1 = curSeq c + Z.of_nat fuel
      /\ activeDownloads c1 = activeDownloads c + Z.of_nat fuel
      /\ (closed c1, tries c1, maxSeqs c1, curFrag c1, dataToWrite c1, f c1,
          progressChan c1, deletingFrags c1)
         = (closed c, tries c, maxSeqs c, curFrag c, dataToWrite c, f c,
            progressChan c, deletingFrags c)
      /\ MDLInfo di1 !! dataType = Some m1
      /\ m1 = set_ActiveJobs (ActiveJobs m + Z.of_nat fuel) m
      /\ (forall other, other <> dataType -> MDLInfo di1 !! other = MDLInfo di !! other)
      /\ (Stopping di1, Live di1, Unavailable di1, FragFiles di1, Jobs di1,
          TargetDuration di1)
         = (Stopping di, Live di, Unavailable di, FragFiles di, Jobs di, TargetDuration di).
Proof.
  induction fuel as [|fuel IH]; intros di c m Hm Hfuel Hlow HJ Hopen Hcs Had Hjn;
    cbn [bootstrap]; unfold GetActiveJobCount; rewrite Hm;
    cbn [fmap option_fmap option_map mbind option_bind].
  - replace (ActiveJobs m <? Jobs di) with false by (symmetry; apply Z.ltb_ge; lia).
    exists di, c, m. split; [reflexivity|].
    unfold fresh_requests. simpl. rewrite !app_nil_r, !Z.add_0_r.
    destruct m. auto 12.
  - replace (ActiveJobs m <? Jobs di) with true by (symmetry; apply Z.ltb_lt; lia).
    unfold IncrementJobs. rewrite (update_track_present _ _ _ _ Hm).
    cbn [mbind option_bind]. unfold dispatch. rewrite Hopen. cbn [mbind option_bind].
    set (di1 := set_MDLInfo _ di).
    set (c1 := spawn _ _).
    assert (Hm1 : MDLInfo di1 !! dataType
                  = Some (set_ActiveJobs (ActiveJobs m + 1) m)).
    { unfold di1. simpl. rewrite lookup_insert_eq, int_add_exact by lia. reflexivity. }
    assert (Hc1 : curSeq c1 = curSeq c + 1 /\ activeDownloads c1 = activeDownloads c + 1
                  /\ jobNum c1 = jobNum c + 1).
    { unfold c1, spawn. simpl. rewrite !int_add_exact by (unfold MinInt; lia). auto. }
    destruct Hc1 as (E1 & E2 & E3).
    destruct (IH di1 c1 _ Hm1) as (di2 & c2 & m2 & Hb & S1 & S2 & S3 & S4 & S5 & S6 & S7 & S8 & S9).
    + simpl. lia.
    + simpl. lia.
    + exact HJ.
    + reflexivity.
    + lia.
    + lia.
    + lia.
    + exists di2, c2, m2. split; [exact Hb|].
      split.
      { rewrite S1. unfold c1 at 1. cbn [spawn spawned]. rewrite <- app_assoc. f_equal.
        cbn [seq map]. rewrite Z.add_0_r. f_equal. rewrite <- seq_shift, map_map.
        apply map_ext. intros i. rewrite E3. do 2 f_equal. lia. }
      split.
      { rewrite S2. unfold c1 at 1. cbn [spawn seqChan]. rewrite <- app_assoc. f_equal.
        unfold fresh_requests. cbn [seq map]. rewrite Z.add_0_r. f_equal.
        rewrite <- seq_shift, map_map. apply map_ext. intros i. rewrite E1.
        unfold c1. simpl. f_equal. lia. }
      split; [lia|]. split; [lia|].
      split; [rewrite S5; reflexivity|].
      split; [exact S6|].
      split.
      { rewrite S7. unfold set_ActiveJobs.
        cbn [ActiveJobs DownloadURL BasePath DataType_m Finished URLHost]. f_equal. lia. }
      split.
      { intros other Hne. rewrite (S8 other Hne). unfold di1. simpl.
        apply lookup_insert_ne. congruence. }
      rewrite S9. reflexivity.
Qed.

Lemma main_loop_runs (dataType : string) (fragFiles : bool) (rounds : list Round) :
  forall (di : DownloadInfo) (fs : gmap string (list byte)) (c : Coord),
    Forall (round_sane dataType fragFiles) rounds ->
    stays_stopped rounds ->
    ready fragFiles c ->
    (closed c = true -> Forall (fun r => IsStopping (rd_di r) = true) rounds) ->
    exists exit di' fs' c', main_loop rounds dataType di fs c = Some (exit, di', fs', c').
Proof.
  induction rounds as [|r rest IH]; intros di fs c Hsane Hsticky Hready Hclosed.
  - simpl. eauto.
  - cbn [main_loop].
    inversion Hsane as [|? ? Hr Hrest]; subst. destruct Hsticky as [Hfirst Hsticky].
    destruct (a_pass_does_not_panic dataType (rd_hour r) r (rd_fs r) c fragFiles Hr Hready)
      as (exit & di1 & fs1 & c1 & Hit & Hready1 & Hcl1).
    { intros Hcl. specialize (Hclosed Hcl). inversion Hclosed. assumption. }
    rewrite Hit. cbn [mbind option_bind]. destruct exit; [eauto|].
    apply IH; auto.
    intros Hcl. destruct (Hcl1 Hcl) as [Hs|?]; [auto|discriminate].
Qed.

(** X8: the start-up loop starts the missing workers. On a track that has
    [n] active jobs out of [Jobs], it starts [Jobs - n] workers named after
    the track and numbered from 1, primes each with one request, numbered
    from 0 and with no known head, and leaves the track with [Jobs] active
    jobs; with [n] at [Jobs] or more it starts none. Other tracks, the
    output file and the settings are not touched. *)
Theorem start_up_starts_the_missing_workers (dataType : string) (file : File)
    (di : DownloadInfo) (m : MediaDLInfo) :
  MDLInfo di !! dataType = Some m ->
  0 <= ActiveJobs m ->
  Jobs di < MaxInt ->
  exists di1 c0,
    bootstrap (Z.to_nat (Jobs di - ActiveJobs m)) dataType di (initCoord file)
    = Some (di1, c0)
    /\ spawned c0
       = map (fun i => dataType +:+ itoa (Z.of_nat i))
             (seq 1 (Z.to_nat (Jobs di - ActiveJobs m)))
    /\ seqChan c0
       = map (fun i => mkSeqChanInfo (Z.of_nat i) (-1))
             (seq 0 (Z.to_nat (Jobs di - ActiveJobs m)))
    /\ activeDownloads c0 = Z.max 0 (Jobs di - ActiveJobs m)
    /\ GetActiveJobCount di1 dataType = Some (Z.max (ActiveJobs m) (Jobs di))
    /\ (forall other, other <> dataType -> MDLInfo di1 !! other = MDLInfo di !! other)
    /\ (closed c0, tries c0, curFrag c0, dataToWrite c0, f c0, progressChan c0)
       = (false, 10, 0, [], file, [])
    /\ (Stopping di1, Live di1, Unavailable di1, FragFiles di1, Jobs di1,
        TargetDuration di1)
       = (Stopping di, Live di, Unavailable di, FragFiles di, Jobs di, TargetDuration di).
Proof.
  intros Hm Hn HJ.
  destruct (bootstrap_exact dataType (Z.to_nat (Jobs di - ActiveJobs m)) di
              (initCoord file) m Hm eq_refl)
    as (di1 & c0 & m1 & Hb & S1 & S2 & S3 & S4 & S5 & S6 & S7 & S8 & S9);
    try (simpl; unfold MinInt, MaxInt in *; lia); try reflexivity.
  exists di1, c0. split; [exact Hb|].
  split.
  { rewrite S1. simpl. rewrite <- seq_shift, map_map. apply map_ext. intros i.
    do 2 f_equal. lia. }
  split.
  { rewrite S2. unfold fresh_requests. simpl. reflexivity. }
  split; [rewrite S4; simpl; lia|].
  split.
  { unfold GetActiveJobCount. rewrite S6, S7. simpl. f_equal. lia. }
  split; [exact S8|].
  split; [|exact S9].
  injection S5 as E1 E2 E3 E4 E5 E6 E7 E8. simpl in *. congruence.
Qed.

Lemma start_up_runs (dataType : string) (file : File) (di : DownloadInfo)
    (m : MediaDLInfo) :
  MDLInfo di !! dataType = Some m ->
  0 <= ActiveJobs m ->
  Jobs di < MaxInt ->
  exists di1 c0,
    bootstrap (Z.to_nat (Jobs di - ActiveJobs m)) dataType di (initCoord file)
    = Some (di1, c0)
    /\ ready (FragFiles di) c0 /\ closed c0 = false.
Proof.
  intros Hm Hn HJ.
  destruct (bootstrap_exact dataType (Z.to_nat (Jobs di - ActiveJobs m)) di
              (initCoord file) m Hm eq_refl)
    as (di1 & c0 & m1 & Hb & S1 & S2 & S3 & S4 & S5 & _);
    try (simpl; unfold MinInt, MaxInt in *; lia); try reflexivity.
  exists di1, c0. split; [exact Hb|].
  injection S5 as E1 E2 E3 E4 E5 E6 E7 E8. simpl in *.
  split; [|exact E1].
  split; [rewrite S4; unfold MinInt, MaxInt in *; lia|].
  split; [lia|]. intros _. rewrite E5. constructor.
Qed.

(** X9: [DownloadStream] does not panic. On a created file, with a track
    that has between 0 and [Jobs] active jobs to start with, rounds that
    are sane and that stay stopped once stopped, [DownloadStream] sends no
    request on a closed channel, dereferences no nil pointer and none of its
    loops runs away: it returns, or its main loop is still going when the
    rounds end. *)
Theorem DownloadStream_does_not_panic (dataType : string) (file : File)
    (rounds : list Round) (di : DownloadInfo) (fs : gmap string (list byte))
    (m : MediaDLInfo) :
  MDLInfo di !! dataType = Some m ->
  0 <= ActiveJobs m ->
  0 <= Jobs di < MaxInt ->
  Forall (round_sane dataType (FragFiles di)) rounds ->
  stays_stopped rounds ->
  (exists o, DownloadStream dataType (Some file) rounds di fs = Some o)
  \/ exists di1 c0 di' fs' c',
       bootstrap (Z.to_nat (Jobs di - ActiveJobs m)) dataType di (initCoord file)
       = Some (di1, c0)
       /\ main_loop rounds dataType di1 fs c0 = Some (false, di', fs', c').
Proof.
  intros Hm Hn HJ Hsane Hsticky.
  destruct (start_up_runs dataType file di m Hm Hn ltac:(lia))
    as (di1 & c0 & Hb & Hready & Hopen).
  destruct (main_loop_runs dataType (FragFiles di) rounds di1 fs c0 Hsane Hsticky Hready)
    as (exit & di' & fs' & c' & Hloop).
  { rewrite Hopen. discriminate. }
  destruct exit.
  - left. unfold DownloadStream.
    replace (Jobs di <? 0) with false by (symmetry; apply Z.ltb_ge; lia).
    unfold GetActiveJobCount. rewrite Hm.
    cbn [fmap option_fmap option_map mbind option_bind].
    rewrite Hb. cbn [mbind option_bind]. rewrite Hloop. cbn [mbind option_bind]. eauto.
  - right. exists di1, c0, di', fs', c'. auto.
Qed.

End PassFacts.

Lemma start_up_starts_the_missing_workers_witness :
  exists di1 c0,
    bootstrap 2 DtypeAudio two_jobs_di (initCoord new_file) = Some (di1, c0)
    /\ spawned c0 = ["audio1"; "audio2"]%string
    /\ seqChan c0 = [mkSeqChanInfo 0 (-1); mkSeqChanInfo 1 (-1)]
    /\ GetActiveJobCount di1 DtypeAudio = Some 2.
Proof.
  pose (m := default zeroMediaDLInfo (MDLInfo two_jobs_di !! DtypeAudio)).
  assert (Hm : MDLInfo two_jobs_di !! DtypeAudio = Some m) by (vm_compute; reflexivity).
  destruct (start_up_starts_the_missing_workers DtypeAudio new_file two_jobs_di m Hm)
    as (di1 & c0 & Hb & H1 & H2 & _ & H4 & _).
  - vm_compute. discriminate.
  - vm_compute. reflexivity.
  - exists di1, c0. split; [exact Hb|]. split; [exact H1|]. split; [exact H2|exact H4].
Defined.

Lemma DownloadStream_does_not_panic_witness :
  (exists o, DownloadStream DtypeAudio (Some new_file) rounds_until_idle two_jobs_di ∅ = Some o)
  \/ exists di1 c0 di' fs' c',
       bootstrap 2 DtypeAudio two_jobs_di (initCoord new_file) = Some (di1, c0)
       /\ main_loop rounds_until_idle DtypeAudio di1 ∅ c0 = Some (false, di', fs', c').
Proof.
  pose (m := default zeroMediaDLInfo (MDLInfo two_jobs_di !! DtypeAudio)).
  assert (Hm : MDLInfo two_jobs_di !! DtypeAudio = Some m) by (vm_compute; reflexivity).
  assert (Hsane : forall received,
             round_sane DtypeAudio true (mkRound two_jobs_started three_spill_files received false)).
  { intros received. split; [reflexivity|]. split.
    - exists (default zeroMediaDLInfo (MDLInfo two_jobs_started !! DtypeAudio)).
      split; [vm_compute; reflexivity|]. vm_compute. split; discriminate.
    - split; [vm_compute; discriminate|]. split.
      + repeat constructor; vm_compute; eauto.
      + discriminate. }
  apply (DownloadStream_does_not_panic DtypeAudio new_file rounds_until_idle two_jobs_di ∅ m Hm).
  - vm_compute. discriminate.
  - vm_compute. split; [discriminate|reflexivity].
  - unfold rounds_until_idle.
    constructor; [apply Hsane|constructor; [apply Hsane|constructor]].
  - simpl. repeat split; discriminate.
Defined.

(** ** The tally of the write phase *)

Lemma tallied_ext (dataType : string) (c c' : Coord) :
  tallied dataType c ->
  (f c', tries c', curFrag c', progressChan c') = (f c, tries c, curFrag c, progressChan c) ->
  maxSeqs c <= maxSeqs c' ->
  tallied dataType c'.
Proof.
  intros (H1 & H2 & H3 & H4 & H5 & H6 & H7) [= E1 E2 E3 E4] Hmax.
  unfold tallied. rewrite E1, E2, E3, E4. split; [exact H1|]. split; [exact H2|]. split; [exact H3|].
  split; [exact H4|]. split.
  - eapply Forall_impl; [exact H5|]. simpl. intros p [? ?]. split; [assumption|lia].
  - split; [lia|exact H7].
Qed.

Lemma dispatch_kept (c c' : Coord) :
  dispatch c = Some c' ->
  (f c', tries c', curFrag c', progressChan c', maxSeqs c', closed c', dataToWrite c')
  = (f c, tries c, curFrag c, progressChan c, maxSeqs c, closed c, dataToWrite c).
Proof.
  unfold dispatch. destruct (closed c) eqn:Hc; [discriminate|]. intros [= <-].
  simpl. reflexivity.
Qed.

Lemma dispatch_window_kept (jobs : Z) (fuel : nat) :
  forall c c',
    dispatch_window fuel jobs c = Some c' ->
    (f c', tries c', curFrag c', progressChan c', maxSeqs c', closed c', dataToWrite c')
    = (f c, tries c, curFrag c, progressChan c, maxSeqs c, closed c, dataToWrite c).
Proof.
  induction fuel as [|fuel IH]; intros c c'; simpl;
    destruct ((curSeq c <=? int_add (maxSeqs c) 1) && (activeDownloads c <? jobs));
    try discriminate; try (intros [= <-]; reflexivity).
  destruct (dispatch c) as [c1|] eqn:Hd; [|discriminate]. cbn [mbind option_bind].
  intros Hw. rewrite (IH _ _ Hw). apply dispatch_kept. exact Hd.
Qed.

Lemma redispatch_kept (activeJobs : Z) (fuel : nat) :
  forall c c',
    redispatch fuel activeJobs c = Some c' ->
    (f c', tries c', curFrag c', progressChan c', maxSeqs c', closed c', dataToWrite c')
    = (f c, tries c, curFrag c, progressChan c, maxSeqs c, closed c, dataToWrite c).
Proof.
  induction fuel as [|fuel IH]; intros c c'; simpl;
    destruct (activeDownloads c <? activeJobs);
    try discriminate; try (intros [= <-]; reflexivity).
  destruct (dispatch c) as [c1|] eqn:Hd; [|discriminate]. cbn [mbind option_bind].
  intros Hw. rewrite (IH _ _ Hw). apply dispatch_kept. exact Hd.
Qed.

Lemma bootstrap_kept (dataType : string) (fuel : nat) :
  forall di di' c c',
    bootstrap fuel dataType di c = Some (di', c') ->
    (f c', tries c', curFrag c', progressChan c', maxSeqs c', closed c', dataToWrite c')
    = (f c, tries c, curFrag c, progressChan c, maxSeqs c, closed c, dataToWrite c).
Proof.
  induction fuel as [|fuel IH]; intros di di' c c'; cbn [bootstrap];
    destruct (GetActiveJobCount di dataType) as [n|]; try discriminate;
    cbn [mbind option_bind]; destruct (n <? Jobs di);
    try discriminate; try (intros [= <- <-]; reflexivity).
  destruct (IncrementJobs di dataType) as [di1|]; [|discriminate].
  cbn [mbind option_bind].
  destruct (dispatch c) as [c1|] eqn:Hd; [|discriminate]. cbn [mbind option_bind].
  intros Hb. rewrite (IH _ _ _ _ Hb). simpl. apply dispatch_kept. exact Hd.
Qed.

Lemma receive_kept (downloading stopping : bool) (jobs : Z) (c c' : Coord)
    (data : Fragment) :
  receive downloading stopping jobs c data = Some c' ->
  (f c', tries c', curFrag c', progressChan c', closed c')
  = (f c, tries c, curFrag c, progressChan c, closed c)
  /\ dataToWrite c' = dataToWrite c ++ [data]
  /\ (maxSeqs c' = maxSeqs c
      \/ (downloading = true /\ stopping = false
          /\ maxSeqs c < XHeadSeqNum data /\ maxSeqs c' = XHeadSeqNum data))
  /\ (downloading = false \/ stopping = true -> seqChan c' = seqChan c).
Proof.
  unfold receive.
  set (c1 := set_activeDownloads _ _).
  destruct (negb downloading || stopping) eqn:Hidle.
  { intros [= <-]. simpl. auto. }
  apply orb_false_iff in Hidle as [Hd Hs]. apply negb_false_iff in Hd.
  set (c2 := if maxSeqs c1 <? XHeadSeqNum data then set_maxSeqs (XHeadSeqNum data) c1
             else c1).
  assert (Hc2 : (f c2, tries c2, curFrag c2, progressChan c2, closed c2, dataToWrite c2)
                = (f c, tries c, curFrag c, progressChan c, closed c, dataToWrite c ++ [data])
                /\ (maxSeqs c2 = maxSeqs c
                    \/ (maxSeqs c < XHeadSeqNum data /\ maxSeqs c2 = XHeadSeqNum data))).
  { unfold c2. destruct (maxSeqs c1 <? XHeadSeqNum data) eqn:Hlt; simpl.
    - split; [reflexivity|]. right. apply Z.ltb_lt in Hlt. simpl in Hlt. auto.
    - auto. }
  destruct Hc2 as ([= E1 E2 E3 E4 E5 E6] & Hmax).
  assert (Hgoal : forall c',
             (f c', tries c', curFrag c', progressChan c', maxSeqs c', closed c',
              dataToWrite c')
             = (f c2, tries c2, curFrag c2, progressChan c2, maxSeqs c2, closed c2,
                dataToWrite c2) ->
             (f c', tries c', curFrag c', progressChan c', closed c')
             = (f c, tries c, curFrag c, progressChan c, closed c)
             /\ dataToWrite c' = dataToWrite c ++ [data]
             /\ (maxSeqs c' = maxSeqs c
                 \/ (downloading = true /\ stopping = false
                     /\ maxSeqs c < XHeadSeqNum data /\ maxSeqs c' = XHeadSeqNum data))
             /\ (downloading = false \/ stopping = true -> seqChan c' = seqChan c)).
  { intros c0 [= K1 K2 K3 K4 K5 K6 K7].
    split; [congruence|]. split; [congruence|]. split.
    - destruct Hmax as [?|[? ?]]; [left; congruence|right]. repeat split; congruence.
    - intros [?|?]; congruence. }
  destruct (0 <? maxSeqs c2).
  - intros Hw. apply Hgoal. apply (dispatch_window_kept _ _ _ _ Hw).
  - intros Hw. apply Hgoal. apply (dispatch_kept _ _ Hw).
Qed.

Lemma drain_kept (downloading stopping : bool) (jobs : Z) (received : list Fragment) :
  forall c c',
    drain downloading stopping jobs received c = Some c' ->
    (f c', tries c', curFrag c', progressChan c', closed c')
    = (f c, tries c, curFrag c, progressChan c, closed c)
    /\ dataToWrite c' = dataToWrite c ++ received
    /\ maxSeqs c <= maxSeqs c'
    /\ (maxSeqs c' = maxSeqs c
        \/ exists frag, frag ∈ received /\ XHeadSeqNum frag = maxSeqs c')
    /\ (downloading = false \/ stopping = true ->
        seqChan c' = seqChan c /\ maxSeqs c' = maxSeqs c).
Proof.
  induction received as [|data rest IH]; intros c c'.
  - simpl. intros [= <-]. rewrite app_nil_r. split; [reflexivity|].
    split; [reflexivity|]. split; [lia|]. auto.
  - cbn [drain].
    destruct (receive downloading stopping jobs c data) as [c1|] eqn:Hr; [|discriminate].
    cbn [mbind option_bind]. intros Hd.
    destruct (receive_kept _ _ _ _ _ _ Hr) as (R1 & R2 & R3 & R4).
    destruct (IH _ _ Hd) as (D1 & D2 & D3 & D4 & D5).
    split; [congruence|]. split; [rewrite D2, R2, <- app_assoc; reflexivity|].
    split; [destruct R3 as [?|(_ & _ & ? & ?)]; lia|].
    split.
    + destruct D4 as [E|(frag & Hin & E)].
      * destruct R3 as [?|(_ & _ & _ & E')]; [left; congruence|].
        right. exists data. split; [apply list_elem_of_here|congruence].
      * right. exists frag. split; [apply list_elem_of_further; exact Hin|exact E].
    + intros Hidle. destruct (D5 Hidle) as [S1 S2]. rewrite S1, S2, (R4 Hidle).
      split; [reflexivity|].
      destruct R3 as [?|(Hd' & Hs' & _)]; [assumption|].
      destruct Hidle; congruence.
Qed.

(** The copy loop on a file without faults counts what it appends. *)
Lemma write_rest_counts (fuel : nat) :
  forall (file : File) (unread buf : list byte) (b0 : Z),
    f_faults file = [] ->
    f_pos file = Z.of_nat (length (f_bytes file)) ->
    (0 < length buf)%nat ->
    (length unread < fuel)%nat ->
    write_rest fuel file unread buf (wrap64 b0)
    = Some (mkFile (f_bytes file ++ unread)
                   (Z.of_nat (length (f_bytes file ++ unread))) [],
            [], wrap64 (b0 + Z.of_nat (length unread)), false).
Proof.
  induction fuel as [|fuel IH]; intros file unread buf b0 Hfaults Hpos Hbuf Hfuel;
    [lia|].
  cbn [write_rest]. unfold Buffer_Read.
  destruct unread as [|b unread].
  - replace (length buf =? 0)%nat with false by (symmetry; apply Nat.eqb_neq; lia).
    cbn [negb]. rewrite app_nil_r, <- Hpos, <- Hfaults. simpl length.
    rewrite Z.add_0_r. destruct file. reflexivity.
  - set (n := Nat.min (length buf) (length (b :: unread))).
    assert (Hn : (0 < n <= length (b :: unread))%nat) by (subst n; simpl in *; lia).
    assert (Htake : take n (take n (b :: unread) ++ drop n buf) = take n (b :: unread)).
    { rewrite take_app_le by (rewrite length_take; lia).
      apply take_ge. rewrite length_take. lia. }
    rewrite Htake, (File_Write_appends file _ Hfaults Hpos).
    unfold int_add. rewrite wrap64_wrap64_add.
    rewrite (IH (mkFile (f_bytes file ++ take n (b :: unread))
                   (Z.of_nat (length (f_bytes file ++ take n (b :: unread)))) [])
                (drop n (b :: unread)) (take n (b :: unread) ++ drop n buf)
                (b0 + Z.of_nat (length (take n (b :: unread))))).
    + cbn [f_bytes]. rewrite <- app_assoc, take_drop. do 4 f_equal.
      rewrite length_take, length_drop. lia.
    + reflexivity.
    + reflexivity.
    + rewrite length_app, length_take. lia.
    + rewrite length_drop. simpl in *. lia.
Qed.

Section TallyFacts.
Context `{Collaborators}.

(** One fragment written to a file without faults: the file grows by the
    image of the payload, and one progress message reports its size. *)
Lemma write_buffer_tally (dataType : string) (fragFiles : bool) (i : nat)
    (data : Fragment) (payload : list byte) (fs : gmap string (list byte)) (c : Coord) :
  f_faults (f c) = [] ->
  f_pos (f c) = Z.of_nat (length (f_bytes (f c))) ->
  exists fs' c',
    write_buffer dataType fragFiles i data payload fs c = Some (0%nat, fs', c')
    /\ f_bytes (f c') = f_bytes (f c) ++ fragment_image payload
    /\ f_pos (f c') = Z.of_nat (length (f_bytes (f c')))
    /\ f_faults (f c') = []
    /\ curFrag c' = int_add (curFrag c) 1
    /\ tries c' = 10
    /\ progressChan c'
       = progressChan c
         ++ [mkProgressInfo dataType (wrap64 (Z.of_nat (length (fragment_image payload))))
               (maxSeqs c)]
    /\ (maxSeqs c', closed c', seqChan c') = (maxSeqs c, closed c, seqChan c).
Proof.
  intros Hfaults Hpos. unfold write_buffer. cbv zeta.
  destruct (Buffer_Read_first payload) as (n & eof & ->).
  rewrite (File_Write_appends (f c) _ Hfaults Hpos).
  set (first := RemoveSidx (take BufferSize payload
                            ++ repeat x00 (BufferSize - length payload))).
  change (int_add 0 (Z.of_nat (length first)))
    with (wrap64 (0 + Z.of_nat (length first))).
  rewrite (write_rest_counts (S (length (drop BufferSize payload)))
             (mkFile (f_bytes (f c) ++ first)
                (Z.of_nat (length (f_bytes (f c) ++ first))) [])
             (drop BufferSize payload)
             (take BufferSize payload ++ repeat x00 (BufferSize - length payload))
             (0 + Z.of_nat (length first))).
  - cbn [mbind option_bind]. eexists. eexists.
    split; [reflexivity|].
    cbn [f f_bytes f_pos f_faults curFrag tries progressChan maxSeqs closed seqChan].
    split; [unfold fragment_image; rewrite app_assoc; reflexivity|].
    split; [reflexivity|]. split; [reflexivity|]. split; [reflexivity|].
    split; [reflexivity|]. split; [|reflexivity].
    unfold fragment_image. fold first.
    rewrite length_app, Nat2Z.inj_add, Z.add_0_l. reflexivity.
  - reflexivity.
  - reflexivity.
  - rewrite length_app, repeat_length, length_take. pose proof BufferSize_pos. lia.
  - lia.
Qed.

Lemma tallied_written (dataType : string) (c c' : Coord) (image : list byte) :
  tallied dataType c ->
  f_bytes (f c') = f_bytes (f c) ++ image ->
  f_pos (f c') = Z.of_nat (length (f_bytes (f c'))) ->
  f_faults (f c') = [] ->
  curFrag c' = int_add (curFrag c) 1 ->
  tries c' = 10 ->
  progressChan c'
  = progressChan c
    ++ [mkProgressInfo dataType (wrap64 (Z.of_nat (length image))) (maxSeqs c)] ->
  maxSeqs c' = maxSeqs c ->
  tallied dataType c'.
Proof.
  intros (H1 & H2 & H3 & H4 & H5 & H6 & images & H7 & H8) E1 E2 E3 E4 E5 E6 E7.
  unfold tallied. rewrite E3, E2, E4, E5, E6, E7.
  split; [reflexivity|]. split; [reflexivity|]. split; [lia|].
  split.
  { rewrite H4. unfold int_add. rewrite wrap64_wrap64_add, length_app. simpl.
    f_equal. lia. }
  split.
  { apply Forall_app. split; [exact H5|]. constructor; [|constructor]. simpl.
    split; [reflexivity|lia]. }
  split; [exact H6|].
  exists (images ++ [image]). split.
  - rewrite E1, H7, concat_app. simpl. rewrite app_nil_r. reflexivity.
  - rewrite !map_app, H8. reflexivity.
Qed.

Lemma write_found_tally (dataType : string) (fragFiles : bool) (i i' : nat)
    (data : Fragment) (fs fs' : gmap string (list byte)) (c c' : Coord) :
  tallied dataType c ->
  0 < tries c ->
  write_found dataType fragFiles i data fs c = Some (i', fs', c') ->
  tallied dataType c'
  /\ (maxSeqs c', closed c', seqChan c') = (maxSeqs c, closed c, seqChan c).
Proof.
  intros Htally Htries.
  assert (Hbuf : forall payload,
             write_buffer dataType fragFiles i data payload fs c = Some (i', fs', c') ->
             tallied dataType c'
             /\ (maxSeqs c', closed c', seqChan c') = (maxSeqs c, closed c, seqChan c)).
  { intros payload Hw.
    destruct Htally as (H1 & H2 & Hrest).
    destruct (write_buffer_tally dataType fragFiles i data payload fs c H1 H2)
      as (fs1 & c1 & Hw1 & W1 & W2 & W3 & W4 & W5 & W6 & W7).
    rewrite Hw1 in Hw. injection Hw as <- <- <-.
    split; [|exact W7].
    injection W7 as K1 K2 K3.
    eapply tallied_written; eauto. split; [exact H1|]. split; [exact H2|exact Hrest]. }
  unfold write_found. destruct fragFiles.
  - destruct (fs !! FileName data) as [readBytes|]; [apply Hbuf|].
    intros [= <- <- <-]. split; [|reflexivity].
    destruct Htally as (H1 & H2 & H3 & H4 & H5 & H6 & H7).
    unfold tallied. cbn [set_tries f tries curFrag progressChan maxSeqs].
    rewrite int_sub_exact by (unfold MinInt, MaxInt; lia).
    split; [exact H1|]. split; [exact H2|]. split; [lia|]. auto.
  - destruct (Data data) as [unread|]; [|discriminate]. apply Hbuf.
Qed.

Lemma write_loop_tally (dataType : string) (fragFiles : bool) (fuel : nat) :
  forall (i : nat) (fs fs' : gmap string (list byte)) (c c' : Coord),
    tallied dataType c ->
    write_loop fuel dataType fragFiles i fs c = Some (fs', c') ->
    tallied dataType c'
    /\ (maxSeqs c', closed c', seqChan c') = (maxSeqs c, closed c, seqChan c).
Proof.
  induction fuel as [|fuel IH]; intros i fs fs' c c' Htally; cbn [write_loop];
    destruct ((i <? length (dataToWrite c))%nat && (0 <? tries c)) eqn:Hguard;
    try discriminate; try (intros [= <- <-]; auto).
  apply andb_true_iff in Hguard as [_ Ht]. apply Z.ltb_lt in Ht.
  destruct (dataToWrite c !! i) as [data|]; [|discriminate]. cbn [mbind option_bind].
  destruct (negb (Seq data =? curFrag c)).
  - apply IH. exact Htally.
  - destruct (write_found dataType fragFiles i data fs c) as [[[i1 fs1] c1]|] eqn:Hw;
      [|discriminate].
    cbn [mbind option_bind]. intros Hl.
    destruct (write_found_tally _ _ _ _ _ _ _ _ _ Htally Ht Hw) as (Ht1 & E1).
    destruct (IH _ _ _ _ _ Ht1 Hl) as (Ht2 & E2).
    split; [exact Ht2|congruence].
Qed.

End TallyFacts.

Lemma sizes_add_up (images : list (list byte)) :
  Z.of_nat (length (concat images)) < 2 ^ 63 ->
  foldr Z.add 0 (map (fun img => wrap64 (Z.of_nat (length img))) images)
  = Z.of_nat (length (concat images)).
Proof.
  induction images as [|img rest IH]; [reflexivity|].
  simpl. rewrite length_app. intros Hlt.
  rewrite IH by lia. rewrite wrap64_id by (unfold MinInt, MaxInt; lia). lia.
Qed.

Section TallyRuns.
Context `{Collaborators}.

Lemma iteration_tally (dataType : string) (incoming : list Fragment) (hour : bool)
    (di di' : DownloadInfo) (fs fs' : gmap string (list byte)) (c c' : Coord)
    (exit : bool) :
  tallied dataType c ->
  iteration dataType incoming hour di fs c = Some (exit, di', fs', c') ->
  tallied dataType c'
  /\ (maxSeqs c' = maxSeqs c
      \/ exists frag, frag ∈ incoming /\ XHeadSeqNum frag = maxSeqs c')
  /\ (IsStopping di = true -> closed c' = true /\ seqChan c' = seqChan c).
Proof.
  intros Htally. unfold iteration.
  destruct (IsFinished di dataType) as [fin|]; [|discriminate]. cbn [mbind option_bind].
  destruct (if negb fin then Some true
            else n ← GetActiveJobCount di dataType; Some (0 <? n))
    as [downloading|]; [|discriminate].
  cbn [mbind option_bind].
  set (stopping := IsStopping di).
  set (c1 := close_if_done stopping downloading c).
  assert (Hc1 : (f c1, tries c1, curFrag c1, progressChan c1, maxSeqs c1, seqChan c1)
                = (f c, tries c, curFrag c, progressChan c, maxSeqs c, seqChan c)
                /\ (stopping = true -> closed c1 = true)).
  { unfold c1, close_if_done.
    destruct ((stopping || negb downloading) && negb (closed c)) eqn:Hclose.
    - simpl. auto.
    - split; [reflexivity|]. intros Hs. rewrite Hs in Hclose. simpl in Hclose.
      apply negb_false_iff in Hclose. exact Hclose. }
  destruct Hc1 as ([= A1 A2 A3 A4 A5 A6] & Hcl1).
  assert (Htally1 : tallied dataType c1).
  { apply (tallied_ext dataType c); [exact Htally|congruence|lia]. }
  destruct (drain downloading stopping (Jobs di) incoming c1) as [c2|] eqn:Hdrain;
    [|discriminate].
  cbn [mbind option_bind].
  destruct (drain_kept _ _ _ _ _ _ Hdrain) as ([= B1 B2 B3 B4 B5] & _ & B6 & B7 & B8).
  assert (Htally2 : tallied dataType c2).
  { apply (tallied_ext dataType c1); [exact Htally1|congruence|exact B6]. }
  assert (Hmax2 : maxSeqs c2 = maxSeqs c
                  \/ exists frag, frag ∈ incoming /\ XHeadSeqNum frag = maxSeqs c2).
  { destruct B7 as [?|?]; [left; congruence|right; assumption]. }
  assert (Hstop2 : stopping = true -> closed c2 = true /\ seqChan c2 = seqChan c).
  { intros Hs. destruct (B8 (or_intror Hs)) as [S1 _]. split; [rewrite B5; auto|congruence]. }
  destruct (negb downloading).
  { intros [= <- <- <- <-]. auto. }
  destruct ((length (dataToWrite c2) =? 0)%nat || negb (negb (length incoming =? 0)%nat)).
  - destruct (negb stopping && (activeDownloads c2 <=? 0)) eqn:Hstall.
    + destruct (GetActiveJobCount di dataType) as [jobs|]; [|discriminate].
      cbn [mbind option_bind].
      destruct (redispatch _ jobs c2) as [c3|] eqn:Hre; [|discriminate].
      cbn [mbind option_bind]. intros [= <- <- <- <-].
      pose proof (redispatch_kept _ _ _ _ Hre) as [= C1 C2 C3 C4 C5 C6 C7].
      split.
      { apply (tallied_ext dataType c2); [exact Htally2|simpl; congruence|simpl; lia]. }
      split; [simpl; rewrite C5; exact Hmax2|].
      intros Hs. fold stopping in Hs. rewrite Hs in Hstall. discriminate.
    + cbn [mbind option_bind]. intros [= <- <- <- <-].
      split; [apply (tallied_ext dataType c2); [exact Htally2|reflexivity|simpl; lia]|].
      split; [exact Hmax2|exact Hstop2].
  - destruct (write_loop (write_fuel c2) dataType (FragFiles di) 0 fs c2)
      as [[fs4 c4]|] eqn:Hw; [|discriminate].
    cbn [mbind option_bind].
    destruct (write_loop_tally _ _ _ _ _ _ _ _ Htally2 Hw) as (Htally4 & [= D1 D2 D3]).
    destruct (if tries c4 <=? 0 then Stop _ else Some _) as [di6|]; [|discriminate].
    cbn [mbind option_bind]. intros [= <- <- <- <-].
    split; [exact Htally4|]. split; [rewrite D1; exact Hmax2|].
    intros Hs. rewrite D2, D3. apply Hstop2. exact Hs.
Qed.

Lemma main_loop_tally (dataType : string) (rounds : list Round) :
  forall (di di' : DownloadInfo) (fs fs' : gmap string (list byte)) (c c' : Coord)
         (exit : bool),
    tallied dataType c ->
    main_loop rounds dataType di fs c = Some (exit, di', fs', c') ->
    tallied dataType c'
    /\ (maxSeqs c' = maxSeqs c
        \/ exists frag, frag ∈ all_received rounds /\ XHeadSeqNum frag = maxSeqs c').
Proof.
  induction rounds as [|r rest IH]; intros di di' fs fs' c c' exit Htally.
  - simpl. intros [= <- <- <- <-]. auto.
  - cbn [main_loop].
    destruct (iteration dataType (rd_received r) (rd_hour r) (rd_di r) (rd_fs r) c)
      as [[[[exit1 di1] fs1] c1]|] eqn:Hit; [|discriminate].
    cbn [mbind option_bind].
    destruct (iteration_tally _ _ _ _ _ _ _ _ _ _ Htally Hit) as (Htally1 & Hmax1 & _).
    assert (Hhere : maxSeqs c1 = maxSeqs c
                    \/ exists frag, frag ∈ all_received (r :: rest)
                                    /\ XHeadSeqNum frag = maxSeqs c1).
    { destruct Hmax1 as [?|(frag & Hin & E)]; [auto|]. right. exists frag.
      split; [|exact E]. unfold all_received. simpl. apply elem_of_app. auto. }
    destruct exit1.
    + intros [= <- <- <- <-]. auto.
    + intros Hloop. destruct (IH _ _ _ _ _ _ _ Htally1 Hloop) as (Htally' & Hmax').
      split; [exact Htally'|].
      destruct Hmax' as [E|(frag & Hin & E)].
      * rewrite E. exact Hhere.
      * right. exists frag. split; [|exact E].
        unfold all_received. simpl. apply elem_of_app. auto.
Qed.

(** X10: the progress messages tell what was written. After any passes on
    an output file that does not fail, the tries are between 0 and 10;
    [curFrag] is the number of progress messages; each message names the
    track and a head no higher than the highest known, which is -1 or the
    head of a fragment received; and the file is made of one piece per
    message, whose size is the byte count of the message, so that the byte
    counts add up to the size of the file. *)
Theorem progress_reports_what_was_written (dataType : string) (fuel : nat)
    (di di1 di' : DownloadInfo) (fs fs' : gmap string (list byte))
    (rounds : list Round) (c0 c : Coord) (exit : bool) :
  bootstrap fuel dataType di (initCoord new_file) = Some (di1, c0) ->
  main_loop rounds dataType di1 fs c0 = Some (exit, di', fs', c) ->
  0 <= tries c <= 10
  /\ curFrag c = wrap64 (Z.of_nat (length (progressChan c)))
  /\ Forall (fun p => DataType_p p = dataType /\ MaxSeq_p p <= maxSeqs c) (progressChan c)
  /\ (maxSeqs c = -1
      \/ exists frag, frag ∈ all_received rounds /\ XHeadSeqNum frag = maxSeqs c)
  /\ (exists images : list (list byte),
        f_bytes (f c) = concat images
        /\ map ByteCount (progressChan c)
           = map (fun img => wrap64 (Z.of_nat (length img))) images)
  /\ (Z.of_nat (length (f_bytes (f c))) < 2 ^ 63 ->
      bytes_reported c = Z.of_nat (length (f_bytes (f c)))).
Proof.
  intros Hboot Hloop.
  assert (Htally0 : tallied dataType c0).
  { pose proof (bootstrap_kept _ _ _ _ _ _ Hboot) as [= E1 E2 E3 E4 E5 E6 E7].
    apply (tallied_ext dataType (initCoord new_file));
      [|simpl in *; congruence|rewrite E5; apply Z.le_refl].
    unfold tallied. simpl. split; [reflexivity|]. split; [reflexivity|].
    split; [lia|]. split; [reflexivity|]. split; [constructor|]. split; [lia|].
    exists []. auto. }
  destruct (main_loop_tally _ _ _ _ _ _ _ _ _ Htally0 Hloop)
    as ((H1 & H2 & H3 & H4 & H5 & H6 & images & H7 & H8) & Hmax).
  split; [exact H3|]. split; [exact H4|]. split; [exact H5|].
  split.
  { destruct Hmax as [E|?]; [|auto]. left. rewrite E.
    pose proof (bootstrap_kept _ _ _ _ _ _ Hboot) as [= _ _ _ _ E5 _ _]. exact E5. }
  split; [eauto|].
  intros Hlt. unfold bytes_reported. rewrite H8, H7. apply sizes_add_up.
  rewrite <- H7. exact Hlt.
Qed.

End TallyRuns.

Lemma progress_reports_what_was_written_witness :
  exists c : Coord,
    (snd <$> (bootstrap 2 DtypeAudio two_jobs_di (initCoord new_file)
              ≫= fun '(di1, c0) => main_loop rounds_until_idle DtypeAudio di1 ∅ c0)) = Some c
    /\ 0 <= tries c <= 10
    /\ curFrag c = wrap64 (Z.of_nat (length (progressChan c))).
Proof.
  pose (start := default (two_jobs_di, initCoord new_file)
                   (bootstrap 2 DtypeAudio two_jobs_di (initCoord new_file))).
  assert (E0 : bootstrap 2 DtypeAudio two_jobs_di (initCoord new_file)
               = Some (start.1, start.2)) by (vm_compute; reflexivity).
  destruct (main_loop rounds_until_idle DtypeAudio start.1 ∅ start.2)
    as [[[[exit di'] fs'] c]|] eqn:E1.
  - destruct (progress_reports_what_was_written DtypeAudio 2 two_jobs_di start.1 di' ∅ fs'
                rounds_until_idle start.2 c exit E0 E1)
      as (H1 & H2 & _).
    exists c. split; [|split; assumption].
    rewrite E0. cbn [mbind option_bind]. rewrite E1. reflexivity.
  - exfalso.
    assert (B : (fun _ => tt) <$> main_loop rounds_until_idle DtypeAudio start.1 ∅ start.2
                = Some tt) by (vm_compute; reflexivity).
    rewrite E1 in B. discriminate.
Defined.

(** ** After [Stop] *)

Section StopFacts.
Context `{Collaborators}.

Lemma write_buffer_closed (dataType : string) (fragFiles : bool) (i i' : nat)
    (data : Fragment) (unread : list byte) (fs fs' : gmap string (list byte))
    (c c' : Coord) :
  write_buffer dataType fragFiles i data unread fs c = Some (i', fs', c') ->
  closed c' = closed c.
Proof.
  unfold write_buffer. cbv zeta.
  destruct (Buffer_Read unread zero_buffer) as [[[unread1 buf1] n] eof].
  destruct (File_Write (f c) (RemoveSidx buf1)) as [[file1 count] err].
  destruct err.
  { intros [= <- <- <-]. reflexivity. }
  destruct (write_rest _ _ _ _ _) as [[[[file2 unread2] bytesWritten2] err2]|];
    [|discriminate].
  cbn [mbind option_bind]. destruct err2; intros [= <- <- <-]; reflexivity.
Qed.

Lemma write_loop_closed (dataType : string) (fragFiles : bool) (fuel : nat) :
  forall (i : nat) (fs fs' : gmap string (list byte)) (c c' : Coord),
    write_loop fuel dataType fragFiles i fs c = Some (fs', c') ->
    closed c' = closed c.
Proof.
  induction fuel as [|fuel IH]; intros i fs fs' c c'; simpl;
    destruct ((i <? length (dataToWrite c))%nat && (0 <? tries c));
    try discriminate; try (intros [= <- <-]; reflexivity).
  destruct (dataToWrite c !! i) as [data|]; [|discriminate]. simpl.
  destruct (negb (Seq data =? curFrag c)); [apply IH|].
  destruct (write_found dataType fragFiles i data fs c) as [[[i1 fs1] c1]|] eqn:Hw;
    [|discriminate].
  simpl. intros Hl. rewrite (IH _ _ _ _ _ Hl).
  unfold write_found in Hw. destruct fragFiles.
  - destruct (fs !! FileName data) as [readBytes|].
    + eapply write_buffer_closed; eauto.
    + injection Hw as <- <- <-. reflexivity.
  - destruct (Data data) as [unread|]; [|discriminate].
    eapply write_buffer_closed; eauto.
Qed.

Lemma iteration_stopping (dataType : string) (incoming : list Fragment) (hour : bool)
    (di di' : DownloadInfo) (fs fs' : gmap string (list byte)) (c c' : Coord)
    (exit : bool) :
  IsStopping di = true ->
  iteration dataType incoming hour di fs c = Some (exit, di', fs', c') ->
  closed c' = true /\ seqChan c' = seqChan c /\ maxSeqs c' = maxSeqs c.
Proof.
  intros Hstop. unfold iteration. rewrite Hstop.
  destruct (IsFinished di dataType) as [fin|]; [|discriminate]. cbn [mbind option_bind].
  destruct (if negb fin then Some true
            else n ← GetActiveJobCount di dataType; Some (0 <? n))
    as [downloading|]; [|discriminate].
  cbn [mbind option_bind].
  set (c1 := close_if_done true downloading c).
  assert (Hc1 : closed c1 = true /\ seqChan c1 = seqChan c /\ maxSeqs c1 = maxSeqs c).
  { unfold c1, close_if_done. simpl. destruct (closed c) eqn:Hcl; simpl; auto. }
  destruct Hc1 as (A1 & A2 & A3).
  destruct (drain downloading true (Jobs di) incoming c1) as [c2|] eqn:Hdrain;
    [|discriminate].
  cbn [mbind option_bind].
  destruct (drain_kept _ _ _ _ _ _ Hdrain) as ([= _ _ _ _ B5] & _ & _ & _ & B8).
  destruct (B8 (or_intror eq_refl)) as [B6 B7].
  assert (Hc2 : closed c2 = true /\ seqChan c2 = seqChan c /\ maxSeqs c2 = maxSeqs c).
  { repeat split; congruence. }
  destruct (negb downloading).
  { intros [= <- <- <- <-]. exact Hc2. }
  destruct ((length (dataToWrite c2) =? 0)%nat || negb (negb (length incoming =? 0)%nat)).
  - cbn [negb andb mbind option_bind]. intros [= <- <- <- <-]. exact Hc2.
  - destruct (write_loop (write_fuel c2) dataType (FragFiles di) 0 fs c2)
      as [[fs4 c4]|] eqn:Hw; [|discriminate].
    cbn [mbind option_bind].
    destruct (if tries c4 <=? 0 then Stop _ else Some _) as [di6|]; [|discriminate].
    cbn [mbind option_bind]. intros [= <- <- <- <-].
    pose proof (write_loop_closed _ _ _ _ _ _ _ _ Hw) as D1.
    destruct (write_loop_frame _ _ _ _ _ _ _ _ Hw) as (D2 & _ & _).
    assert (D3 : maxSeqs c4 = maxSeqs c2).
    { clear - Hw. revert Hw. generalize (write_fuel c2) at 1. intros fuel.
      generalize 0%nat as i. revert fs fs4 c2 c4.
      induction fuel as [|fuel IH]; intros fs fs4 c2 c4 i; simpl;
        destruct ((i <? length (dataToWrite c2))%nat && (0 <? tries c2));
        try discriminate; try (intros [= <- <-]; reflexivity).
      destruct (dataToWrite c2 !! i) as [data|]; [|discriminate]. simpl.
      destruct (negb (Seq data =? curFrag c2)); [apply IH|].
      destruct (write_found dataType (FragFiles di) i data fs c2) as [[[i1 fs1] c1]|] eqn:Hf;
        [|discriminate].
      simpl. intros Hl. rewrite (IH _ _ _ _ _ Hl).
      unfold write_found in Hf.
      assert (Hbuf : forall unread,
                 write_buffer dataType (FragFiles di) i data unread fs c2
                 = Some (i1, fs1, c1) -> maxSeqs c1 = maxSeqs c2).
      { intros unread. unfold write_buffer. cbv zeta.
        destruct (Buffer_Read unread zero_buffer) as [[[unread1 buf1] n] eof].
        destruct (File_Write (f c2) (RemoveSidx buf1)) as [[file1 count] err].
        destruct err.
        { intros [= <- <- <-]. reflexivity. }
        destruct (write_rest _ _ _ _ _) as [[[[file2 unread2] bytesWritten2] err2]|];
          [|discriminate].
        cbn [mbind option_bind]. destruct err2; intros [= <- <- <-]; reflexivity. }
      destruct (FragFiles di).
      - destruct (fs !! FileName data) as [readBytes|]; [eapply Hbuf; eauto|].
        injection Hf as <- <- <-. reflexivity.
      - destruct (Data data) as [unread|]; [|discriminate]. eapply Hbuf; eauto. }
    destruct Hc2 as (E1 & E2 & E3). repeat split; congruence.
Qed.

(** X11: nothing is requested after [Stop]. Through passes that all find
    the download stopping, the request channel is closed and stays as it
    was: the coordinator sends no request, whatever it receives, and what it
    knows of the head of the stream does not change. *)
Theorem nothing_is_requested_after_stop (dataType : string) (r : Round)
    (rest : list Round) (di di' : DownloadInfo) (fs fs' : gmap string (list byte))
    (c c' : Coord) (exit : bool) :
  Forall (fun r' => IsStopping (rd_di r') = true) (r :: rest) ->
  main_loop (r :: rest) dataType di fs c = Some (exit, di', fs', c') ->
  closed c' = true /\ seqChan c' = seqChan c /\ maxSeqs c' = maxSeqs c.
Proof.
  revert r di fs c. induction rest as [|r2 rest IH]; intros r di fs c Hall;
    inversion Hall as [|? ? Hr Hrest]; subst; cbn [main_loop];
    destruct (iteration dataType (rd_received r) (rd_hour r) (rd_di r) (rd_fs r) c)
      as [[[[exit1 di1] fs1] c1]|] eqn:Hit; try discriminate;
    cbn [mbind option_bind];
    pose proof (iteration_stopping _ _ _ _ _ _ _ _ _ _ Hr Hit) as (E1 & E2 & E3).
  - destruct exit1; intros [= <- <- <- <-]; auto.
  - destruct exit1; [intros [= <- <- <- <-]; auto|].
    intros Hloop. destruct (IH r2 di1 fs1 c1 Hrest Hloop) as (K1 & K2 & K3).
    repeat split; congruence.
Qed.

End StopFacts.

Lemma nothing_is_requested_after_stop_witness :
  exists c' : Coord,
    (snd <$> main_loop
               [mkRound (default two_jobs_started (Stop two_jobs_started)) ∅
                  [mkFragment 0 "out.f140.frag0.ts" 4 None] false]
               DtypeAudio two_jobs_started ∅ two_jobs_coord) = Some c'
    /\ closed c' = true
    /\ seqChan c' = seqChan two_jobs_coord.
Proof.
  pose (r := mkRound (default two_jobs_started (Stop two_jobs_started)) ∅
               [mkFragment 0 "out.f140.frag0.ts" 4 None] false).
  destruct (main_loop [r] DtypeAudio two_jobs_started ∅ two_jobs_coord)
    as [[[[exit di'] fs'] c']|] eqn:E1.
  - destruct (nothing_is_requested_after_stop DtypeAudio r [] two_jobs_started di' ∅ fs'
                two_jobs_coord c' exit) as (H1 & H2 & _).
    + constructor; [vm_compute; reflexivity|constructor].
    + exact E1.
    + exists c'. split; [|split; assumption]. fold r. rewrite E1. reflexivity.
  - exfalso.
    assert (B : (fun _ => tt) <$> main_loop [r] DtypeAudio two_jobs_started ∅ two_jobs_coord
                = Some tt) by (vm_compute; reflexivity).
    rewrite E1 in B. discriminate.
Defined.

(** ** Download URLs *)

Lemma go_Sprintf_from_literal (c : ascii) (r : string) (n : Z) (used : bool) :
  c <> "%"%char ->
  go_Sprintf_from (String c r) n used = String c (go_Sprintf_from r n used).
Proof.
  intros Hc.
  destruct c as [[] [] [] [] [] [] [] []]; try reflexivity.
  congruence.
Qed.

Lemma string_app_nil_r (s : string) : s +:+ EmptyString = s.
Proof.
  induction s as [|c r IH]; [reflexivity|].
  change (String c (r +:+ EmptyString) = String c r). rewrite IH. reflexivity.
Qed.

(** Formatting an escaped URL gives the URL back. *)
Lemma go_Sprintf_from_escaped (u tail : string) (n : Z) (used : bool) :
  go_Sprintf_from (escape_percent u +:+ tail) n used
  = u +:+ go_Sprintf_from tail n used.
Proof.
  induction u as [|c r IH]; [reflexivity|].
  cbn [escape_percent]. destruct (Ascii.eqb_spec c "%") as [->|Hne].
  - change (go_Sprintf_from (String "%" (String "%" (escape_percent r +:+ tail))) n used
            = String "%" (r +:+ go_Sprintf_from tail n used)).
    cbn [go_Sprintf_from]. rewrite IH. reflexivity.
  - change (go_Sprintf_from (String c (escape_percent r +:+ tail)) n used
            = String c (r +:+ go_Sprintf_from tail n used)).
    rewrite go_Sprintf_from_literal by exact Hne.
    rewrite IH. reflexivity.
Qed.

Lemma last_url_of_found (itag : Z) (formats : list AdaptiveFormat) (found : option string) :
  last_url_of itag formats found
  = match last_url_of itag formats None with
    | Some u => Some u
    | None => found
    end.
Proof.
  revert found. induction formats as [|fmt rest IH]; intros found; [reflexivity|].
  cbn [last_url_of].
  destruct ((0 <? String.length (af_URL fmt))%nat && (af_Itag fmt =? itag)).
  - rewrite (IH (Some (af_URL fmt))). destruct (last_url_of itag rest None); reflexivity.
  - apply IH.
Qed.

Lemma urls_of_formats_made (formats : list AdaptiveFormat) :
  forall m : gmap Z string,
    exists m',
      urls_of_formats formats (MadeMap m) = Some (MadeMap m')
      /\ forall itag,
           m' !! itag
           = match last_url_of itag formats None with
             | Some u => Some (escape_percent u +:+ "&sq=%d")
             | None => m !! itag
             end.
Proof.
  induction formats as [|fmt rest IH]; intros m.
  - exists m. split; reflexivity.
  - cbn [urls_of_formats last_url_of].
    destruct (0 <? String.length (af_URL fmt))%nat eqn:Hurl; cbn [andb].
    + cbn [UrlMap_set mbind option_bind].
      destruct (IH (<[af_Itag fmt := escape_percent (af_URL fmt) +:+ "&sq=%d"]> m))
        as (m' & Hrun & Hget).
      exists m'. split; [exact Hrun|]. intros itag. rewrite Hget.
      destruct (Z.eqb_spec (af_Itag fmt) itag) as [->|Hne].
      * rewrite (last_url_of_found itag rest (Some (af_URL fmt))).
        destruct (last_url_of itag rest None); [reflexivity|].
        apply lookup_insert_eq.
      * destruct (last_url_of itag rest None); [reflexivity|].
        apply lookup_insert_ne. exact Hne.
    + destruct (IH m) as (m' & Hrun & Hget). exists m'. split; [exact Hrun|exact Hget].
Qed.

Lemma urls_of_formats_nil (formats : list AdaptiveFormat) :
  urls_of_formats formats NilMap
  = if forallb (fun fmt => (String.length (af_URL fmt) =? 0)%nat) formats
    then Some NilMap else None.
Proof.
  induction formats as [|fmt rest IH]; [reflexivity|].
  cbn [urls_of_formats forallb].
  destruct (String.length (af_URL fmt)) as [|k]; [exact IH|reflexivity].
Qed.

(** X12: where the download URLs come from. A DASH manifest that yields
    URLs is used alone. Otherwise every adaptive format with a URL gives the
    template of its itag, the last one winning: the URL with every percent
    sign doubled, followed by [&sq=%d], so that formatting the template
    with a sequence number gives the URL back followed by [&sq=] and the
    number; formats without a URL give nothing. When the manifest reader
    hands back a nil map, the first format with a URL makes the function
    panic. *)
Theorem GetDownloadUrls_sources (DownloadData : string -> list byte)
    (GetUrlsFromManifest : list byte -> UrlMap) (dashURL : string)
    (formats : list AdaptiveFormat) :
  let manifest := DownloadData dashURL in
  let read :=
    if (0 <? String.length dashURL)%nat && (0 <? length manifest)%nat
    then GetUrlsFromManifest manifest else MadeMap ∅ in
  let result := GetDownloadUrls DownloadData GetUrlsFromManifest dashURL formats in
  ((0 < String.length dashURL)%nat -> (0 < UrlMap_len read)%nat -> result = Some read)
  /\ (read = NilMap ->
      result = if forallb (fun fmt => (String.length (af_URL fmt) =? 0)%nat) formats
               then Some NilMap else None)
  /\ (forall m, read = MadeMap m -> size m = 0%nat ->
      exists m',
        result = Some (MadeMap m')
        /\ forall itag,
             m' !! itag
             = (fun u => escape_percent u +:+ "&sq=%d") <$> last_url_of itag formats None)
  /\ forall (u : string) (n : Z),
       go_Sprintf_d (escape_percent u +:+ "&sq=%d") n = u +:+ "&sq=" +:+ itoa n.
Proof.
  intros manifest read result.
  assert (Hresult : result
                    = if (0 <? String.length dashURL)%nat && (0 <? UrlMap_len read)%nat
                      then Some read else urls_of_formats formats read).
  { unfold result, GetDownloadUrls, read. fold manifest.
    destruct (0 <? String.length dashURL)%nat; cbn [andb]; reflexivity. }
  split; [|split; [|split]].
  - intros H1 H2. rewrite Hresult.
    apply Nat.ltb_lt in H1, H2. rewrite H1, H2. reflexivity.
  - intros Hnil. rewrite Hresult, Hnil. cbn [UrlMap_len]. rewrite andb_false_r.
    apply urls_of_formats_nil.
  - intros m Hm Hsize. rewrite Hresult, Hm. cbn [UrlMap_len]. rewrite Hsize.
    rewrite andb_false_r.
    destruct (urls_of_formats_made formats m) as (m' & Hrun & Hget).
    exists m'. split; [exact Hrun|]. intros itag. rewrite Hget.
    apply map_size_empty_inv in Hsize. rewrite Hsize, lookup_empty.
    destruct (last_url_of itag formats None); reflexivity.
  - intros u n. unfold go_Sprintf_d. rewrite go_Sprintf_from_escaped.
    change (go_Sprintf_from "&sq=%d" n false) with ("&sq=" +:+ (itoa n +:+ EmptyString)).
    rewrite string_app_nil_r. reflexivity.
Qed.

(** ** The formatting fields *)

Lemma remove_dashes_app (a b : string) :
  remove_dashes (a +:+ b) = remove_dashes a +:+ remove_dashes b.
Proof.
  induction a as [|c r IH]; [reflexivity|].
  change (remove_dashes (String c (r +:+ b))
          = remove_dashes (String c r) +:+ remove_dashes b).
  cbn [remove_dashes]. destruct (Ascii.eqb c "-"); [exact IH|].
  change (String c (remove_dashes (r +:+ b))
          = String c (remove_dashes r +:+ remove_dashes b)).
  rewrite IH. reflexivity.
Qed.

Lemma string_length_app (a b : string) :
  String.length (a +:+ b) = (String.length a + String.length b)%nat.
Proof.
  induction a as [|c r IH]; [reflexivity|].
  change (S (String.length (r +:+ b)) = S (String.length r + String.length b)).
  rewrite IH. reflexivity.
Qed.

Lemma string_app_assoc (a b c : string) : (a +:+ b) +:+ c = a +:+ (b +:+ c).
Proof.
  induction a as [|x r IH]; [reflexivity|].
  change (String x ((r +:+ b) +:+ c) = String x (r +:+ (b +:+ c))).
  rewrite IH. reflexivity.
Qed.

Lemma substring_app_front (a b : string) :
  String.substring 0 (String.length a) (a +:+ b) = a.
Proof.
  induction a as [|c r IH].
  - destruct b; reflexivity.
  - change (String c (String.substring 0 (String.length r) (r +:+ b)) = String c r).
    rewrite IH. reflexivity.
Qed.

Section FormattingFacts.
Variable strings_TrimSpace : string -> string.

(** X13: the dates of [FormatInfo.SetInfo]. The call panics exactly when
    the start timestamp holds fewer than 8 bytes besides its dashes, as an
    empty one does. Otherwise it stores those first 8 bytes as both
    [upload_date] and [start_date], so a timestamp that starts with
    [YYYY-MM-DD] gives [YYYYMMDD]; it stores the publish date without its
    dashes, whatever its length, the video id under [id] and the watch URL
    under [url], and removes no key. *)
Theorem FormatInfo_SetInfo_dates (fi : gmap string string) (pr : PlayerResponse) :
  (FormatInfo_SetInfo strings_TrimSpace fi pr = None
   <-> (String.length (remove_dashes (pr_StartTimestamp pr)) < 8)%nat)
  /\ (forall fi',
        FormatInfo_SetInfo strings_TrimSpace fi pr = Some fi' ->
        fi' !! "upload_date"%string
        = Some (String.substring 0 8 (remove_dashes (pr_StartTimestamp pr)))
        /\ fi' !! "start_date"%string = fi' !! "upload_date"%string
        /\ fi' !! "publish_date"%string = Some (remove_dashes (pr_PublishDate pr))
        /\ fi' !! "id"%string = Some (pr_VideoID pr)
        /\ fi' !! "url"%string
           = Some ("https://www.youtube.com/watch?v=" +:+ pr_VideoID pr)
        /\ dom fi ⊆ dom fi')
  /\ (forall y m d rest : string,
        String.length y = 4%nat -> String.length m = 2%nat -> String.length d = 2%nat ->
        remove_dashes y = y -> remove_dashes m = m -> remove_dashes d = d ->
        pr_StartTimestamp pr = y +:+ "-" +:+ m +:+ "-" +:+ d +:+ rest ->
        exists fi',
          FormatInfo_SetInfo strings_TrimSpace fi pr = Some fi'
          /\ fi' !! "upload_date"%string = Some (y +:+ m +:+ d)
          /\ fi' !! "start_date"%string = Some (y +:+ m +:+ d)).
Proof.
  assert (Hrun : forall startDate,
             slice_to 8 (remove_dashes (pr_StartTimestamp pr)) = Some startDate ->
             exists fi',
               FormatInfo_SetInfo strings_TrimSpace fi pr = Some fi'
               /\ fi' !! "upload_date"%string = Some startDate
               /\ fi' !! "start_date"%string = Some startDate
               /\ fi' !! "publish_date"%string = Some (remove_dashes (pr_PublishDate pr))
               /\ fi' !! "id"%string = Some (pr_VideoID pr)
               /\ fi' !! "url"%string
                  = Some ("https://www.youtube.com/watch?v=" +:+ pr_VideoID pr)
               /\ dom fi ⊆ dom fi').
  { intros startDate Hslice. unfold FormatInfo_SetInfo. rewrite Hslice.
    cbn [mbind option_bind]. eexists. split; [reflexivity|].
    repeat (rewrite ?lookup_insert_eq; rewrite ?lookup_insert_ne by discriminate).
    split; [reflexivity|]. split; [reflexivity|]. split; [reflexivity|].
    split; [reflexivity|]. split; [reflexivity|].
    rewrite !dom_insert_L. set_solver. }
  split; [|split].
  - unfold FormatInfo_SetInfo, slice_to.
    destruct (8 <=? String.length (remove_dashes (pr_StartTimestamp pr)))%nat eqn:Hlen.
    + apply Nat.leb_le in Hlen. cbn [mbind option_bind]. split; [discriminate|lia].
    + apply Nat.leb_gt in Hlen. cbn [mbind option_bind]. split; [auto|reflexivity].
  - intros fi' Hset.
    destruct (slice_to 8 (remove_dashes (pr_StartTimestamp pr))) as [startDate|] eqn:Hslice.
    + destruct (Hrun startDate eq_refl) as (fi2 & Hset2 & H1 & H2 & H3 & H4 & H5 & H6).
      rewrite Hset2 in Hset. injection Hset as <-.
      unfold slice_to in Hslice.
      destruct (8 <=? String.length (remove_dashes (pr_StartTimestamp pr)))%nat;
        [|discriminate].
      injection Hslice as <-. rewrite H2. auto 10.
    + unfold FormatInfo_SetInfo in Hset. rewrite Hslice in Hset. discriminate.
  - intros y m d rest Hy Hm Hd Ey Em Ed Hts.
    assert (Hslice : slice_to 8 (remove_dashes (pr_StartTimestamp pr))
                     = Some (y +:+ m +:+ d)).
    { rewrite Hts. rewrite !remove_dashes_app, Ey, Em, Ed.
      change (remove_dashes "-") with EmptyString.
      assert (Hnil : forall x : string, EmptyString +:+ x = x) by reflexivity.
      rewrite !Hnil.
      rewrite <- (string_app_assoc m d), <- (string_app_assoc y (m +:+ d)).
      unfold slice_to. rewrite string_length_app.
      assert (Hlen : String.length (y +:+ m +:+ d) = 8%nat).
      { rewrite !string_length_app, Hy, Hm, Hd. reflexivity. }
      rewrite Hlen. cbn [Nat.leb Nat.add]. f_equal.
      rewrite <- Hlen at 1. apply substring_app_front. }
    destruct (Hrun _ Hslice) as (fi' & Hset & H1 & H2 & _). eauto.
Qed.

End FormattingFacts.

(** ** Talking to the user *)

(** X14: the poll interval has a floor. [AskWaitForStream] answers yes
    exactly when the lowered line starts with [wait] or [poll]; it changes
    nothing but [RetrySecs], and that only after [poll]: the new value is
    the number typed when that is a decimal [int] not below
    [DefaultPollTime], and [DefaultPollTime] in every other case, be the
    line empty, not a number, negative or too large for an [int]. *)
Theorem AskWaitForStream_poll_floor (strings_ToLower : string -> string)
    (DefaultPollTime : Z) (inputs rest : list string) (i i' : FullInfo) (ans : bool) :
  AskWaitForStream strings_ToLower DefaultPollTime inputs i = Some (ans, i', rest) ->
  exists line,
    head inputs = Some line
    /\ ans = HasPrefix (strings_ToLower line) "wait" || HasPrefix (strings_ToLower line) "poll"
    /\ i' = set_RetrySecs (RetrySecs i') i
    /\ (HasPrefix (strings_ToLower line) "wait" = true
        \/ HasPrefix (strings_ToLower line) "poll" = false ->
        i' = i /\ rest = tail inputs)
    /\ (HasPrefix (strings_ToLower line) "wait" = false ->
        HasPrefix (strings_ToLower line) "poll" = true ->
        exists secs,
          tail inputs = secs :: rest
          /\ DefaultPollTime <= RetrySecs i'
          /\ (Atoi secs = (RetrySecs i', None) \/ RetrySecs i' = DefaultPollTime)
          /\ (forall n, Atoi secs = (n, None) -> DefaultPollTime <= n -> RetrySecs i' = n)).
Proof.
  unfold AskWaitForStream. destruct inputs as [|line rest0]; [discriminate|].
  intros Hrun. exists line. split; [reflexivity|].
  destruct (HasPrefix (strings_ToLower line) "wait") eqn:Hwait.
  { injection Hrun as <- <- <-. destruct i. cbn. split; [reflexivity|].
    split; [reflexivity|]. split; [auto|]. discriminate. }
  destruct (HasPrefix (strings_ToLower line) "poll") eqn:Hpoll.
  2:{ injection Hrun as <- <- <-. destruct i. cbn. split; [reflexivity|].
      split; [reflexivity|]. split; [auto|]. discriminate. }
  destruct rest0 as [|secs rest1]; [discriminate|].
  destruct (Atoi secs) as [s err] eqn:Hatoi.
  injection Hrun as <- <- <-. split; [reflexivity|].
  split; [destruct i; reflexivity|].
  split; [intros [?|?]; discriminate|].
  intros _ _. exists secs. split; [reflexivity|]. cbn [RetrySecs set_RetrySecs].
  rewrite Hatoi.
  destruct err as [e|]; cbn [orb].
  - split; [lia|]. split; [auto|]. intros n Hn. discriminate.
  - destruct (s <? DefaultPollTime) eqn:Hlt.
    + apply Z.ltb_lt in Hlt. split; [lia|]. split; [auto|].
      intros n [= <-] Hn. lia.
    + apply Z.ltb_ge in Hlt. split; [exact Hlt|]. split; [auto|].
      intros n [= <-] _. reflexivity.
Qed.

Section PromptFacts.
Context `{Collaborators}.
Variable strings_ToLower : string -> string.
Variable ParseGvideoUrl : string -> string -> string * Z.
Variable url_EscapedPath : string -> string.
Variable url_Query : string -> gmap string (list string).

Lemma set_Quality_same (i : FullInfo) : set_Quality (Quality i) i = i.
Proof. destruct i. reflexivity. Qed.

(** What [GetGvideoUrl] may change: the engine and the quality. *)
Lemma GetGvideoUrl_frame (inputs : list string) (dataType : string) :
  forall (i i' : FullInfo) (rest : list string),
    GetGvideoUrl ParseGvideoUrl inputs dataType i = Some (i', rest) ->
    i' = set_engine (engine i') (set_Quality (Quality i') i).
Proof.
  induction inputs as [|gvUrl more IH]; intros i i' rest; [discriminate|].
  cbn [GetGvideoUrl].
  destruct (String.length gvUrl =? 0)%nat.
  { destruct (negb (String.eqb dataType DtypeAudio)); [|apply IH].
    intros [= <- <-]. destruct i. reflexivity. }
  destruct (ParseGvideoUrl gvUrl dataType) as [newUrl itag].
  destruct (String.length newUrl =? 0)%nat; [apply IH|].
  set (i1 := if String.eqb dataType DtypeVideo then set_Quality itag i else i).
  assert (Hi1 : forall q e, set_engine e (set_Quality q i1) = set_engine e (set_Quality q i)).
  { intros q e. unfold i1. destruct (String.eqb dataType DtypeVideo); destruct i; reflexivity. }
  destruct ((String.eqb dataType DtypeAudio && (itag =? AudioItag))
            || (String.eqb dataType DtypeVideo && negb (itag =? AudioItag))).
  - destruct (SetDownloadUrl (engine i1) dataType newUrl) as [e|]; [|discriminate].
    cbn [mbind option_bind]. intros [= <- <-]. rewrite <- Hi1.
    destruct i1. reflexivity.
  - intros Hrun. rewrite (IH _ _ _ Hrun) at 1. apply Hi1.
Qed.

(** X15: what [GetGvideoUrl] returns with. It returns without a URL only
    for a track other than audio, on an empty line, and then the engine is
    as it was; otherwise it returns on the first line that
    [ParseGvideoUrl] accepts with a fitting itag, 140 for audio and
    anything else for video, and stores that URL in the track. For the audio
    track the quality is never touched. For the video track the quality is
    the itag of the last line that was parsed: that of the URL stored, or
    140 when lines were refused and the user then gave up. Nothing else
    changes. *)
Theorem GetGvideoUrl_outcome (inputs : list string) (dataType : string) :
  forall (i i' : FullInfo) (rest : list string),
    GetGvideoUrl ParseGvideoUrl inputs dataType i = Some (i', rest) ->
    i' = set_engine (engine i') (set_Quality (Quality i') i)
    /\ ((dataType <> DtypeAudio
         /\ engine i' = engine i
         /\ (Quality i' = Quality i \/ (dataType = DtypeVideo /\ Quality i' = AudioItag)))
        \/ exists line newUrl itag,
             line ∈ inputs
             /\ ParseGvideoUrl line dataType = (newUrl, itag)
             /\ newUrl <> EmptyString
             /\ SetDownloadUrl (engine i) dataType newUrl = Some (engine i')
             /\ ((dataType = DtypeAudio /\ itag = AudioItag /\ Quality i' = Quality i)
                 \/ (dataType = DtypeVideo /\ itag <> AudioItag /\ Quality i' = itag))).
Proof.
  intros i i' rest Hrun. split; [eapply GetGvideoUrl_frame; exact Hrun|].
  revert i i' rest Hrun.
  induction inputs as [|gvUrl more IH]; intros i i' rest; [discriminate|].
  cbn [GetGvideoUrl].
  assert (Hlater : forall i0,
             engine i0 = engine i ->
             Quality i0 = Quality i \/ (dataType = DtypeVideo /\ Quality i0 = AudioItag) ->
             (dataType = DtypeAudio -> Quality i0 = Quality i) ->
             GetGvideoUrl ParseGvideoUrl more dataType i0 = Some (i', rest) ->
             (dataType <> DtypeAudio
              /\ engine i' = engine i
              /\ (Quality i' = Quality i \/ (dataType = DtypeVideo /\ Quality i' = AudioItag)))
             \/ exists line newUrl itag,
                  line ∈ gvUrl :: more
                  /\ ParseGvideoUrl line dataType = (newUrl, itag)
                  /\ newUrl <> EmptyString
                  /\ SetDownloadUrl (engine i) dataType newUrl = Some (engine i')
                  /\ ((dataType = DtypeAudio /\ itag = AudioItag /\ Quality i' = Quality i)
                      \/ (dataType = DtypeVideo /\ itag <> AudioItag /\ Quality i' = itag))).
  { intros i0 He Hq Ha Hrun0.
    destruct (IH _ _ _ Hrun0) as [(N1 & N2 & N3)|(line & newUrl & itag & L1 & L2 & L3 & L4 & L5)].
    - left. split; [exact N1|]. split; [congruence|].
      destruct N3 as [N3|N3]; [rewrite N3; exact Hq|auto].
    - right. exists line, newUrl, itag. split; [apply list_elem_of_further; exact L1|].
      split; [exact L2|]. split; [exact L3|]. split; [rewrite <- He; exact L4|].
      destruct L5 as [(A1 & A2 & A3)|V]; [|auto].
      left. split; [exact A1|]. split; [exact A2|]. rewrite A3. auto. }
  destruct (String.length gvUrl =? 0)%nat.
  { destruct (String.eqb_spec dataType DtypeAudio) as [Ha|Hna]; cbn [negb].
    - apply Hlater; auto.
    - intros [= <- <-]. left. auto. }
  destruct (ParseGvideoUrl gvUrl dataType) as [newUrl itag] eqn:Hparse.
  destruct (String.length newUrl =? 0)%nat eqn:Hlen; [apply Hlater; auto|].
  assert (Hne : newUrl <> EmptyString).
  { intros ->. discriminate. }
  destruct (String.eqb_spec dataType DtypeVideo) as [Hv|Hnv].
  - subst dataType. change (String.eqb DtypeVideo DtypeAudio) with false. cbn [andb orb].
    destruct (itag =? AudioItag) eqn:Hitag; cbn [negb].
    + apply Z.eqb_eq in Hitag. apply Hlater; [reflexivity|right; auto|discriminate].
    + apply Z.eqb_neq in Hitag.
      destruct (SetDownloadUrl (engine (set_Quality itag i)) DtypeVideo newUrl) as [e|] eqn:Hset;
        [|discriminate].
      cbn [mbind option_bind]. intros [= <- <-]. right.
      exists gvUrl, newUrl, itag. split; [apply list_elem_of_here|].
      split; [exact Hparse|]. split; [exact Hne|]. split; [destruct i; exact Hset|].
      right. destruct i. auto.
  - rewrite andb_false_l, orb_false_r.
    destruct (String.eqb_spec dataType DtypeAudio) as [Ha|Hna]; cbn [andb].
    + destruct (itag =? AudioItag) eqn:Hitag.
      * apply Z.eqb_eq in Hitag.
        destruct (SetDownloadUrl (engine i) dataType newUrl) as [e|] eqn:Hset;
          [|discriminate].
        cbn [mbind option_bind]. intros [= <- <-]. right.
        exists gvUrl, newUrl, itag. split; [apply list_elem_of_here|].
        split; [exact Hparse|]. split; [exact Hne|]. split; [destruct i; exact Hset|].
        left. destruct i. auto.
      * apply Hlater; auto.
    + apply Hlater; auto.
Qed.

Lemma ParseInputUrl_gvideo_error (inputs rest : list string) (i i' : FullInfo)
    (err : InputError) :
  ParseInputUrl_gvideo ParseGvideoUrl url_Query inputs i = Some (i', Some err, rest) ->
  rest = inputs
  /\ ((err = ErrNotFragmentedStream /\ i' = i /\ url_Query (URL i) !! "noclen"%string = None)
      \/ (err = ErrItagParse /\ i' = marked_gvideo url_Query i
          /\ snd (Atoi (Values_Get (url_Query (URL i)) "itag")) <> None)
      \/ (err = ErrNoSq /\ i' = marked_gvideo url_Query i
          /\ String.index 0 "&sq=" (URL i) = None)).
Proof.
  unfold ParseInputUrl_gvideo. cbv zeta.
  destruct (url_Query (URL i) !! "noclen"%string) as [v|] eqn:Hnoclen.
  2:{ intros [= <- <- <-]. auto 10. }
  destruct (Atoi (Values_Get (url_Query (URL i)) "itag")) as [itag e] eqn:Hatoi.
  destruct e as [e|].
  { intros [= <- <- <-]. split; [reflexivity|]. right. left. simpl. auto. }
  cbn [URL set_FormatInfo set_VideoID set_GVideoDDL].
  destruct (String.index 0 "&sq=" (URL i)) as [idx|] eqn:Hidx.
  2:{ intros [= <- <- <-]. split; [reflexivity|]. right. right. auto. }
  match goal with
  | |- (?m ≫= _) = _ -> _ => destruct m as [[i6 inputs6]|]
  end; cbn [mbind option_bind]; discriminate.
Qed.

(** X16: a refused URL. When [ParseInputUrl] returns an error it has read
    no line of input, and the record is as it was, with one exception: a
    Google Video URL with [noclen] whose [itag] is not a number, or that
    holds no [&sq=], is refused after the record was marked as a Google
    Video download and given the video id of the URL. *)
Theorem ParseInputUrl_refusal (inputs rest : list string) (i i' : FullInfo)
    (err : InputError) :
  ParseInputUrl strings_ToLower ParseGvideoUrl url_EscapedPath url_Query inputs i
  = Some (i', Some err, rest) ->
  rest = inputs
  /\ match err with
     | ErrItagParse =>
         i' = marked_gvideo url_Query i
         /\ snd (Atoi (Values_Get (url_Query (URL i)) "itag")) <> None
     | ErrNoSq => i' = marked_gvideo url_Query i /\ String.index 0 "&sq=" (URL i) = None
     | ErrUrlParse => i' = i /\ url_Parse (URL i) = None
     | ErrMissingVideoID => i' = i /\ url_Query (URL i) !! "v"%string = None
     | ErrNotFragmentedStream => i' = i /\ url_Query (URL i) !! "noclen"%string = None
     | ErrNotYoutube => i' = i
     end.
Proof.
  unfold ParseInputUrl.
  destruct (url_Parse (URL i)) as [host|] eqn:Hparse.
  2:{ intros [= <- <- <-]. auto. }
  cbv zeta.
  destruct (String.eqb (TrimPrefix (strings_ToLower host) "www.") "youtube.com").
  { destruct (HasPrefix (strings_ToLower (url_EscapedPath (URL i))) "/watch").
    - destruct (url_Query (URL i) !! "v"%string) eqn:Hv; [discriminate|].
      intros [= <- <- <-]. auto.
    - destruct (HasPrefix _ "/channel" && HasSuffix _ "live"); [discriminate|].
      intros [= <- <- <-]. auto. }
  destruct (String.eqb (TrimPrefix (strings_ToLower host) "www.") "youtu.be");
    [discriminate|].
  destruct (HasSuffix (TrimPrefix (strings_ToLower host) "www.") ".googlevideo.com").
  2:{ intros [= <- <- <-]. auto. }
  intros Hg. destruct (ParseInputUrl_gvideo_error _ _ _ _ _ Hg)
    as (-> & [(-> & -> & E)|[(-> & -> & E)|(-> & -> & E)]]); auto.
Qed.

Lemma SetDownloadUrl_stored (di di' : DownloadInfo) (dataType dlURL : string) :
  SetDownloadUrl di dataType dlURL = Some di' ->
  GetDownloadUrl di' dataType = Some dlURL
  /\ forall other, other <> dataType ->
       GetDownloadUrl di' other = GetDownloadUrl di other.
Proof.
  intros Hset. unfold SetDownloadUrl in Hset.
  destruct (update_track_inv _ _ _ _ Hset) as (m & Hm & _).
  unfold GetDownloadUrl. split.
  - rewrite (update_track_same _ _ _ _ _ Hset Hm). reflexivity.
  - intros other Hne. rewrite (update_track_other _ _ _ _ _ Hset Hne). reflexivity.
Qed.

Lemma GetGvideoUrl_other_track (inputs rest : list string) (dataType own : string)
    (i i' : FullInfo) :
  own <> dataType ->
  GetGvideoUrl ParseGvideoUrl inputs dataType i = Some (i', rest) ->
  GetDownloadUrl (engine i') own = GetDownloadUrl (engine i) own.
Proof.
  intros Hne Hrun.
  destruct (GetGvideoUrl_outcome _ _ _ _ _ Hrun)
    as (_ & [(_ & -> & _)|(line & newUrl & itag & _ & _ & _ & Hset & _)]); [reflexivity|].
  destruct (SetDownloadUrl_stored _ _ _ _ Hset) as (_ & Hother). apply Hother. exact Hne.
Qed.

Lemma ParseInputUrl_gvideo_accepts (inputs rest : list string) (i i' : FullInfo) :
  ParseInputUrl_gvideo ParseGvideoUrl url_Query inputs i = Some (i', None, rest) ->
  exists itag idx old,
    Atoi (Values_Get (url_Query (URL i)) "itag") = (itag, None)
    /\ String.index 0 "&sq=" (URL i) = Some idx
    /\ i' = set_engine (engine i') (set_Quality itag (marked_gvideo url_Query i))
    /\ GetDownloadUrl (engine i) (if itag =? AudioItag then DtypeAudio else DtypeVideo)
       = Some old
    /\ GetDownloadUrl (engine i') (if itag =? AudioItag then DtypeAudio else DtypeVideo)
       = Some (if (String.length old =? 0)%nat
               then String.substring 0 idx (URL i) +:+ "&sq=%d" else old).
Proof.
  unfold ParseInputUrl_gvideo. cbv zeta.
  destruct (url_Query (URL i) !! "noclen"%string) as [v|] eqn:Hnoclen; [|discriminate].
  destruct (Atoi (Values_Get (url_Query (URL i)) "itag")) as [itag e] eqn:Hatoi.
  destruct e as [e|]; [discriminate|].
  cbn [URL set_FormatInfo set_VideoID set_GVideoDDL].
  fold (marked_gvideo url_Query i).
  destruct (String.index 0 "&sq=" (URL i)) as [idx|] eqn:Hidx; [|discriminate].
  set (i3 := marked_gvideo url_Query i).
  set (template := String.substring 0 idx (URL i) +:+ "&sq=%d").
  assert (He3 : engine i3 = engine i) by reflexivity.
  assert (Hbranch : forall own other,
             own <> other ->
             forall (cond : FullInfo -> string -> bool) i6 inputs6,
               (ownUrl ← GetDownloadUrl (engine i3) own;
                i4 ← (if (String.length ownUrl =? 0)%nat
                      then e ← SetDownloadUrl (engine i3) own template;
                           Some (set_engine e i3)
                      else Some i3);
                otherUrl ← GetDownloadUrl (engine i4) other;
                if cond i4 otherUrl
                then GetGvideoUrl ParseGvideoUrl inputs other i4
                else Some (i4, inputs)) = Some (i6, inputs6) ->
               exists old,
                 GetDownloadUrl (engine i) own = Some old
                 /\ GetDownloadUrl (engine i6) own
                    = Some (if (String.length old =? 0)%nat then template else old)
                 /\ i6 = set_engine (engine i6) (set_Quality (Quality i6) i3)).
  { intros own other Hne cond i6 inputs6. rewrite He3.
    destruct (GetDownloadUrl (engine i) own) as [old|] eqn:Hold; [|discriminate].
    cbn [mbind option_bind].
    destruct (if (String.length old =? 0)%nat
              then e ← SetDownloadUrl (engine i) own template; Some (set_engine e i3)
              else Some i3) as [i4|] eqn:Hi4; [|discriminate].
    cbn [mbind option_bind].
    assert (H4 : GetDownloadUrl (engine i4) own
                 = Some (if (String.length old =? 0)%nat then template else old)
                 /\ i4 = set_engine (engine i4) (set_Quality (Quality i4) i3)).
    { destruct (String.length old =? 0)%nat.
      - destruct (SetDownloadUrl (engine i) own template) as [e|] eqn:Hset; [|discriminate].
        injection Hi4 as <-. destruct (SetDownloadUrl_stored _ _ _ _ Hset) as (Hs & _).
        split; [exact Hs|]. unfold i3, marked_gvideo. destruct i. reflexivity.
      - injection Hi4 as <-. split; [rewrite He3; exact Hold|].
        unfold i3, marked_gvideo. destruct i. reflexivity. }
    destruct H4 as (H4a & H4b).
    destruct (GetDownloadUrl (engine i4) other) as [otherUrl|]; [|discriminate].
    cbn [mbind option_bind].
    destruct (cond i4 otherUrl).
    - intros Hrun. exists old. split; [reflexivity|]. split.
      + rewrite (GetGvideoUrl_other_track _ _ _ _ _ _ Hne Hrun). exact H4a.
      + rewrite (GetGvideoUrl_frame _ _ _ _ _ Hrun) at 1. rewrite H4b.
        destruct i3. reflexivity.
    - intros [= <- <-]. exists old. auto. }
  assert (Hfinish : forall own i6 old,
             GetDownloadUrl (engine i) own = Some old ->
             GetDownloadUrl (engine i6) own
             = Some (if (String.length old =? 0)%nat then template else old) ->
             i6 = set_engine (engine i6) (set_Quality (Quality i6) i3) ->
             set_Quality itag i6
             = set_engine (engine (set_Quality itag i6)) (set_Quality itag i3)).
  { intros own i6 old _ _ E. rewrite E at 1. destruct i3. reflexivity. }
  destruct (itag =? AudioItag) eqn:Hitag.
  - match goal with
    | |- (?m ≫= _) = _ -> _ => destruct m as [[i6 inputs6]|] eqn:Hm
    end; [|discriminate].
    cbn [mbind option_bind]. intros [= <- <-].
    destruct (Hbranch DtypeAudio DtypeVideo Dtype_distinct
                (fun i4 u => (String.length u =? 0)%nat && (Quality i4 <? 0))
                i6 inputs6 Hm) as (old & O1 & O2 & O3).
    exists itag, idx, old. rewrite Hitag. split; [reflexivity|]. split; [reflexivity|].
    split; [eapply Hfinish; eauto|]. split; [exact O1|]. destruct i6. exact O2.
  - match goal with
    | |- (?m ≫= _) = _ -> _ => destruct m as [[i6 inputs6]|] eqn:Hm
    end; [|discriminate].
    cbn [mbind option_bind]. intros [= <- <-].
    destruct (Hbranch DtypeVideo DtypeAudio (not_eq_sym Dtype_distinct)
                (fun _ u => (String.length u =? 0)%nat)
                i6 inputs6 Hm) as (old & O1 & O2 & O3).
    exists itag, idx, old. rewrite Hitag. split; [reflexivity|]. split; [reflexivity|].
    split; [eapply Hfinish; eauto|]. split; [exact O1|]. destruct i6. exact O2.
Qed.

(** X17: an accepted URL. When [ParseInputUrl] returns without error, it
    stored a video id and nothing else (a watch URL with [v], or a
    [youtu.be] URL, whose id is the path without its leading slashes); or
    it marked the URL as one to poll and nothing else; or the URL is a
    Google Video one, and then the record is marked, its quality is the
    itag of the URL whatever was chosen at the prompt, and the track of that
    itag, audio for 140 and video otherwise, has the template it had, or, if
    it had none, the URL up to its first [&sq=] followed by [&sq=%d]. *)
Theorem ParseInputUrl_acceptance (inputs rest : list string) (i i' : FullInfo) :
  ParseInputUrl strings_ToLower ParseGvideoUrl url_EscapedPath url_Query inputs i
  = Some (i', None, rest) ->
  (rest = inputs
   /\ (i' = set_VideoID (Values_Get (url_Query (URL i)) "v") i
       \/ i' = set_VideoID (TrimLeft_slash (url_EscapedPath (URL i))) i
       \/ i' = set_LiveURL true i))
  \/ exists itag idx old,
       Atoi (Values_Get (url_Query (URL i)) "itag") = (itag, None)
       /\ String.index 0 "&sq=" (URL i) = Some idx
       /\ i' = set_engine (engine i') (set_Quality itag (marked_gvideo url_Query i))
       /\ GetDownloadUrl (engine i) (if itag =? AudioItag then DtypeAudio else DtypeVideo)
          = Some old
       /\ GetDownloadUrl (engine i') (if itag =? AudioItag then DtypeAudio else DtypeVideo)
          = Some (if (String.length old =? 0)%nat
                  then String.substring 0 idx (URL i) +:+ "&sq=%d" else old).
Proof.
  unfold ParseInputUrl.
  destruct (url_Parse (URL i)) as [host|] eqn:Hparse; [|discriminate].
  cbv zeta.
  destruct (String.eqb (TrimPrefix (strings_ToLower host) "www.") "youtube.com").
  { destruct (HasPrefix (strings_ToLower (url_EscapedPath (URL i))) "/watch").
    - destruct (url_Query (URL i) !! "v"%string) eqn:Hv; [|discriminate].
      intros [= <- <-]. left. auto.
    - destruct (HasPrefix _ "/channel" && HasSuffix _ "live"); [|discriminate].
      intros [= <- <-]. left. auto. }
  destruct (String.eqb (TrimPrefix (strings_ToLower host) "www.") "youtu.be").
  { intros [= <- <-]. left. auto. }
  destruct (HasSuffix (TrimPrefix (strings_ToLower host) "www.") ".googlevideo.com");
    [|discriminate].
  intros Hg. right. apply ParseInputUrl_gvideo_accepts with (1 := Hg).
Qed.

End PromptFacts.

Lemma AskWaitForStream_poll_floor_witness :
  exists i',
    AskWaitForStream lower_ascii 15 ["POLL"; "7"]%string (new_info EmptyString)
    = Some (true, i', [])
    /\ 15 <= RetrySecs i'.
Proof.
  exists (set_RetrySecs 15 (new_info EmptyString)).
  assert (E : AskWaitForStream lower_ascii 15 ["POLL"; "7"]%string (new_info EmptyString)
              = Some (true, set_RetrySecs 15 (new_info EmptyString), []))
    by reflexivity.
  split; [exact E|].
  destruct (AskWaitForStream_poll_floor lower_ascii 15 _ _ _ _ _ E)
    as (line & Hline & _ & _ & _ & Hpoll).
  injection Hline as <-.
  destruct (Hpoll eq_refl eq_refl) as (secs & _ & Hfloor & _). exact Hfloor.
Defined.

Lemma GetGvideoUrl_outcome_witness :
  exists i',
    GetGvideoUrl any_gvideo_url [EmptyString; "https://a"]%string DtypeAudio
      (new_info EmptyString) = Some (i', [])
    /\ i' = set_engine (engine i') (set_Quality (Quality i') (new_info EmptyString)).
Proof.
  pose (res := default (new_info EmptyString, [])
                 (GetGvideoUrl any_gvideo_url [EmptyString; "https://a"]%string DtypeAudio
                    (new_info EmptyString))).
  assert (E : GetGvideoUrl any_gvideo_url [EmptyString; "https://a"]%string DtypeAudio
                (new_info EmptyString) = Some (res.1, []))
    by (vm_compute; reflexivity).
  exists (res.1). split; [exact E|].
  destruct (GetGvideoUrl_outcome any_gvideo_url _ _ _ _ _ E) as (Hframe & _).
  exact Hframe.
Defined.

Lemma ParseInputUrl_refusal_witness :
  exists i',
    ParseInputUrl lower_ascii any_gvideo_url gvideo_path gvideo_query []
      (new_info "https://example.com/watch?v=1") = Some (i', Some ErrNotYoutube, [])
    /\ i' = new_info "https://example.com/watch?v=1".
Proof.
  pose (res := default (new_info EmptyString, None, [])
                 (ParseInputUrl lower_ascii any_gvideo_url gvideo_path gvideo_query []
                    (new_info "https://example.com/watch?v=1"))).
  assert (E : ParseInputUrl lower_ascii any_gvideo_url gvideo_path gvideo_query []
                (new_info "https://example.com/watch?v=1")
              = Some (res.1.1, Some ErrNotYoutube, []))
    by (vm_compute; reflexivity).
  exists (res.1.1). split; [exact E|].
  destruct (ParseInputUrl_refusal lower_ascii any_gvideo_url gvideo_path gvideo_query
              _ _ _ _ _ E) as (_ & Hsame).
  exact Hsame.
Defined.

Lemma ParseInputUrl_acceptance_witness :
  exists i',
    ParseInputUrl lower_ascii any_gvideo_url gvideo_path gvideo_query [EmptyString]
      (new_info gvideo_url) = Some (i', None, [])
    /\ Quality i' = 140
    /\ GetDownloadUrl (engine i') DtypeAudio
       = Some "https://r1.googlevideo.com/videoplayback?noclen=1&id=abc.1&itag=140&sq=%d"%string.
Proof.
  pose (res := default (new_info gvideo_url, None, [])
                 (ParseInputUrl lower_ascii any_gvideo_url gvideo_path gvideo_query
                    [EmptyString] (new_info gvideo_url))).
  assert (E : ParseInputUrl lower_ascii any_gvideo_url gvideo_path gvideo_query
                [EmptyString] (new_info gvideo_url) = Some (res.1.1, None, []))
    by (vm_compute; reflexivity).
  exists (res.1.1). split; [exact E|].
  destruct (ParseInputUrl_acceptance lower_ascii any_gvideo_url gvideo_path gvideo_query
              _ _ _ _ E)
    as [(_ & Hid)|(itag & idx & old & Hatoi & Hidx & Hrec & Hold & Hnew)].
  - exfalso. destruct Hid as [Hid|[Hid|Hid]];
      apply (f_equal GVideoDDL) in Hid; vm_compute in Hid; discriminate.
  - assert (Hitag : itag = 140) by (vm_compute in Hatoi; congruence).
    subst itag. split.
    + rewrite Hrec. reflexivity.
    + change (140 =? AudioItag) with true in Hnew, Hold.
      assert (Ho : old = EmptyString) by (vm_compute in Hold; congruence).
      assert (Hi : idx = 67%nat) by (vm_compute in Hidx; congruence).
      subst old idx. rewrite Hnew. vm_compute. reflexivity.
Defined.
